(** * RVT-H Tool (librvth): bank-aware disc image engine

    A shallow embedding of the sector-addressed reader
    ([reader_plain.cpp], [reader_plain.c]), of the bank table parser and the
    bank accessor ([rvth.c]) and of the extract / import copy engine
    ([rvth_extract.cpp]), with the properties of the specification stated
    and settled on these definitions.

    Conventions.  A C [uint32_t] is a [Z] with its wrap-around written out
    ([u32]); a C [int] return code is a [Z] (negative: POSIX errno, positive:
    [RvtH_Errors]); [errno] is threaded explicitly; a sector is a list of
    bytes and a file is a sparse store of sectors indexed by LBA.  The
    program is the release build: [assert] expands to nothing (NDEBUG),
    and [malloc] and [calloc] are taken to succeed.  A result [None] of
    an opener or of a copy, extract or import function means that the C
    function has no defined result there: it reads through a NULL
    pointer or runs outside an array or a block. *)

From Stdlib Require Import ZArith List Bool Lia.
From Stdlib Require Import Init.Byte Strings.Byte.
From stdpp Require Import base option list gmap.

Open Scope Z_scope.

(** ** Machine integers *)

(** Wrap-around of a C [uint32_t]. *)
Definition u32 (x : Z) : Z := x mod 2 ^ 32.

Definition u32_add (a b : Z) : Z := u32 (a + b).
Definition u32_sub (a b : Z) : Z := u32 (a - b).
Definition u32_mul (a b : Z) : Z := u32 (a * b).

Definition is_u32 (x : Z) : Prop := 0 <= x < 2 ^ 32.

(** ** Constants

    [LBA_SIZE], [BYTES_TO_LBA] and [LBA_TO_BYTES] come from [nhcd_structs.h];
    [reader_plain.cpp] repeats the definition of [LBA_TO_BYTES]. *)

Definition LBA_SIZE : Z := 512.

(** [#define LBA_TO_BYTES(x) ((int64_t)(x) * LBA_SIZE)] *)
Definition LBA_TO_BYTES (x : Z) : Z := x * LBA_SIZE.

(** Modelled from the spec: the macro [BYTES_TO_LBA] of [nhcd_structs.h] is
    not among the sources; the specification reads [BYTES_TO_LBA(0x8000)] as
    the number of 512-byte LBAs in 0x8000 bytes, a division by the LBA size
    truncated to 32 bits. *)
Definition BYTES_TO_LBA (x : Z) : Z := u32 (x / LBA_SIZE).

(** POSIX error numbers (Linux values). *)
Definition ENOENT : Z := 2.
Definition EIO : Z := 5.
Definition ENOMEM : Z := 12.
Definition EEXIST : Z := 17.
Definition EINVAL : Z := 22.
Definition ENOSPC : Z := 28.
Definition EROFS : Z := 30.
Definition ERANGE : Z := 34.
Definition ECANCELED : Z := 125.

(** [RvtH_Errors], in the order of the description table [errtbl] of
    [rvth_error] (its [static_assert] ties the table to the enumeration). *)
Definition RVTH_ERROR_SUCCESS : Z := 0.
Definition RVTH_ERROR_UNRECOGNIZED_FILE : Z := 1.
Definition RVTH_ERROR_NHCD_TABLE_MAGIC : Z := 2.
Definition RVTH_ERROR_NO_BANKS : Z := 3.
Definition RVTH_ERROR_BANK_UNKNOWN : Z := 4.
Definition RVTH_ERROR_BANK_EMPTY : Z := 5.
Definition RVTH_ERROR_BANK_DL_2 : Z := 6.
Definition RVTH_ERROR_NOT_A_DEVICE : Z := 7.
Definition RVTH_ERROR_BANK_IS_DELETED : Z := 8.
Definition RVTH_ERROR_BANK_NOT_DELETED : Z := 9.
Definition RVTH_ERROR_NOT_HDD_IMAGE : Z := 10.
Definition RVTH_ERROR_NO_GAME_PARTITION : Z := 11.
Definition RVTH_ERROR_INVALID_BANK_COUNT : Z := 12.
Definition RVTH_ERROR_IS_HDD_IMAGE : Z := 13.
Definition RVTH_ERROR_IS_RETAIL_CRYPTO : Z := 14.
Definition RVTH_ERROR_IMAGE_TOO_BIG : Z := 15.
Definition RVTH_ERROR_BANK_NOT_EMPTY_OR_DELETED : Z := 16.
Definition RVTH_ERROR_NOT_WII_IMAGE : Z := 17.
Definition RVTH_ERROR_IS_UNENCRYPTED : Z := 18.
Definition RVTH_ERROR_IS_ENCRYPTED : Z := 19.
Definition RVTH_ERROR_PARTITION_TABLE_CORRUPTED : Z := 20.
Definition RVTH_ERROR_PARTITION_HEADER_CORRUPTED : Z := 21.
Definition RVTH_ERROR_ISSUER_UNKNOWN : Z := 22.
Definition RVTH_ERROR_IMPORT_DL_EXT_NO_BANK1 : Z := 23.
Definition RVTH_ERROR_IMPORT_DL_LAST_BANK : Z := 24.
Definition RVTH_ERROR_BANK2DL_NOT_EMPTY_OR_DELETED : Z := 25.
Definition RVTH_ERROR_IMPORT_DL_NOT_CONTIGUOUS : Z := 26.
Definition RVTH_ERROR_NDEV_GCN_NOT_SUPPORTED : Z := 27.
Definition RVTH_ERROR_MAX : Z := 28.

(** ** Sectors and files *)

(** One LBA worth of data. *)
Definition Sector : Type := list byte.

Definition zero_sector : Sector := repeat x00 (Z.to_nat LBA_SIZE).

Definition is_zero_byte (b : byte) : bool := Byte.eqb b x00.

(** Big-endian 32-bit field of a sector at a byte offset. *)
Definition byte_at (s : Sector) (off : nat) : Z :=
  Z.of_N (Byte.to_N (nth off s x00)).

Definition be32_at (s : Sector) (off : nat) : Z :=
  Z.shiftl (byte_at s off) 24 + Z.shiftl (byte_at s (off + 1)) 16
  + Z.shiftl (byte_at s (off + 2)) 8 + byte_at s (off + 3).

(** Modelled from the spec: the class [RefFile] is not among the sources.
    It is a random-access byte stream with [size], [seek], positioned
    [read] / [write] and [makeSparse].  Every transfer of the engine is a
    whole number of LBAs at an LBA-aligned offset, so the stream is kept
    as a store of sectors: an LBA without an entry is a hole of a sparse
    file and reads as zeroes. *)
Record RefFile : Type := mkRefFile {
  f_data   : gmap Z Sector;   (* sectors by absolute LBA *)
  f_size   : Z;               (* length in bytes *)
  f_pos    : Z;               (* file position in bytes *)
  f_device : bool             (* [isDevice()]: a block device *)
}.

Definition file_set_pos (f : RefFile) (pos : Z) : RefFile :=
  {| f_data := f_data f; f_size := f_size f; f_pos := pos;
     f_device := f_device f |}.

(** The sector of a file at an absolute LBA. *)
Definition file_lba (f : RefFile) (lba : Z) : Sector :=
  default zero_sector (f_data f !! lba).

(** [seeko(offset, SEEK_SET)]: returns 0 and moves the position; a negative
    offset is refused with [EINVAL]. *)
Definition ref_seeko (f : RefFile) (errno : Z) (offset : Z) : Z * RefFile * Z :=
  if offset <? 0 then (-1, f, EINVAL)
  else (0, file_set_pos f offset, errno).

(** [seeko(0, SEEK_END)] followed by [tello()]. *)
Definition ref_seek_end (f : RefFile) : RefFile := file_set_pos f (f_size f).
Definition ref_tello (f : RefFile) : Z := f_pos f.

(** Sectors [lba, lba + n) of a file. *)
Fixpoint file_range (f : RefFile) (lba : Z) (n : nat) : list Sector :=
  match n with
  | O => []
  | S n' => file_lba f lba :: file_range f (lba + 1) n'
  end.

(** [read(ptr, LBA_SIZE, n)]: the number of whole items read, short at the
    end of the file. *)
Definition ref_read (f : RefFile) (n : Z) : Z * list Sector * RefFile :=
  let avail := Z.max 0 ((f_size f - f_pos f) / LBA_SIZE) in
  let cnt := Z.min (Z.max 0 n) avail in
  (cnt,
   file_range f (f_pos f / LBA_SIZE) (Z.to_nat cnt),
   file_set_pos f (f_pos f + cnt * LBA_SIZE)).

(** Store a run of sectors from an absolute LBA on. *)
Fixpoint store_range (d : gmap Z Sector) (lba : Z) (l : list Sector) : gmap Z Sector :=
  match l with
  | [] => d
  | s :: l' => store_range (<[lba := s]> d) (lba + 1) l'
  end.

(** [write(ptr, LBA_SIZE, n)] with the [n] sectors [l]: the file grows when
    the transfer ends past its end. *)
Definition ref_write (f : RefFile) (l : list Sector) : Z * RefFile :=
  let n := Z.of_nat (length l) in
  (n,
   {| f_data := store_range (f_data f) (f_pos f / LBA_SIZE) l;
      f_size := Z.max (f_size f) (f_pos f + n * LBA_SIZE);
      f_pos := f_pos f + n * LBA_SIZE;
      f_device := f_device f |}).

(** [makeSparse(size)]: truncate to [size] bytes (a hint for the file
    system otherwise); sectors from the new end on are dropped.  The
    in-memory stream has no operation that fails: the call returns 0, and
    [lastError()] has nothing to report. *)
Definition ref_makeSparse (f : RefFile) (size : Z) : Z * RefFile :=
  (0, {| f_data := filter (fun kv => fst kv < size / LBA_SIZE) (f_data f);
         f_size := size; f_pos := f_pos f; f_device := f_device f |}).

Definition ref_lastError (f : RefFile) : Z := 0.

(** ** Reader ([reader_plain.cpp]) *)

Inductive RvtH_ImageType_e : Type :=
  | RVTH_ImageType_Unknown
  | RVTH_ImageType_HDD_Reader
  | RVTH_ImageType_HDD_Image
  | RVTH_ImageType_GCM
  | RVTH_ImageType_GCM_SDK.

(** The window of a reader; the file it refers to is the shared [RefFile]
    of the owning [RvtH] object and is passed along with it. *)
Record Reader : Type := mkReader {
  r_lba_start : Z;
  r_lba_len   : Z;
  r_type      : RvtH_ImageType_e
}.

Module ReaderPlain.

(** The LBA bounds check shared by [reader_plain_read] and
    [reader_plain_write]: [lba_start += reader->lba_start] and the two
    sums are [uint32_t] arithmetic.  The [assert] before the test is the
    same comparison; this is the release build (NDEBUG), where it expands
    to nothing: with assertions enabled a request the test refuses ends
    the program instead. *)
Definition abs_lba (reader : Reader) (lba_start : Z) : Z :=
  u32_add lba_start (r_lba_start reader).

Definition out_of_range (reader : Reader) (lba_start lba_len : Z) : bool :=
  u32_add (r_lba_start reader) (r_lba_len reader)
    <? u32_add (abs_lba reader lba_start) lba_len.

(** [reader_plain_read]: number of LBAs read (0 on error), the sectors
    read, the file and [errno] afterwards. *)
Definition reader_plain_read (reader : Reader) (f : RefFile) (errno : Z)
    (lba_start lba_len : Z) : Z * list Sector * RefFile * Z :=
  if out_of_range reader lba_start lba_len then
    (* Out of range. *)
    (0, [], f, EIO)
  else
    match ref_seeko f errno (LBA_TO_BYTES (abs_lba reader lba_start)) with
    | (ret, f1, errno1) =>
      if negb (ret =? 0) then
        (* Seek error. *)
        (0, [], f1, if errno1 =? 0 then EIO else errno1)
      else
        match ref_read f1 lba_len with
        | (cnt, data, f2) => (u32 cnt, data, f2, errno1)
        end
    end.

(** [reader_plain_write] with [lba_len] sectors taken from the front of
    the buffer [ptr]. *)
Definition reader_plain_write (reader : Reader) (f : RefFile) (errno : Z)
    (ptr : list Sector) (lba_start lba_len : Z) : Z * RefFile * Z :=
  if out_of_range reader lba_start lba_len then
    (* Out of range. *)
    (0, f, EIO)
  else
    match ref_seeko f errno (LBA_TO_BYTES (abs_lba reader lba_start)) with
    | (ret, f1, errno1) =>
      if negb (ret =? 0) then
        (* Seek error. *)
        (0, f1, if errno1 =? 0 then EIO else errno1)
      else
        match ref_write f1 (take (Z.to_nat lba_len) ptr) with
        | (cnt, f2) => (u32 cnt, f2, errno1)
        end
    end.

(** [reader_plain_open]: the reader ([None]: NULL) and [errno].  The
    stream always has a size here, so the seek-error exit is not taken. *)
Definition reader_plain_open (f : RefFile) (errno : Z)
    (lba_start lba_len : Z) : option Reader * Z :=
  if (0 <? lba_start) && (lba_len =? 0) then
    (* Invalid parameters. *)
    (None, EINVAL)
  else
    let filesize := f_size f in
    let lba_len' :=
      if (lba_start =? 0) && (lba_len =? 0)
      then u32 (filesize / LBA_SIZE) else lba_len in
    let type :=
      if f_device f then RVTH_ImageType_HDD_Reader
      else if 10 * 1024 * 1024 * 1024 <? filesize then RVTH_ImageType_HDD_Image
      else if lba_start =? 0 then RVTH_ImageType_GCM
      else RVTH_ImageType_GCM_SDK in
    (Some (mkReader lba_start lba_len' type), 0).

(** [reader_plain_flush]: the in-memory stream has nothing to flush. *)
Definition reader_plain_flush (f : RefFile) : RefFile := f.

End ReaderPlain.

(** ** Reader, first version ([reader_plain.c]) *)

Module ReaderPlainC.

(** [reader_plain_read] of [reader_plain.c]: no bounds check
    ("TODO: Verify LBA bounds."). *)
Definition reader_plain_read (reader : Reader) (f : RefFile) (errno : Z)
    (lba_start lba_len : Z) : Z * list Sector * RefFile * Z :=
  match ref_seeko f errno
          (LBA_TO_BYTES (u32_add (r_lba_start reader) lba_start)) with
  | (ret, f1, errno1) =>
    if negb (ret =? 0) then
      (0, [], f1, if errno1 =? 0 then EIO else errno1)
    else
      match ref_read f1 lba_len with
      | (cnt, data, f2) => (u32 cnt, data, f2, errno1)
      end
  end.

Definition reader_plain_write (reader : Reader) (f : RefFile) (errno : Z)
    (ptr : list Sector) (lba_start lba_len : Z) : Z * RefFile * Z :=
  match ref_seeko f errno
          (LBA_TO_BYTES (u32_add (r_lba_start reader) lba_start)) with
  | (ret, f1, errno1) =>
    if negb (ret =? 0) then
      (0, f1, if errno1 =? 0 then EIO else errno1)
    else
      match ref_write f1 (take (Z.to_nat lba_len) ptr) with
      | (cnt, f2) => (u32 cnt, f2, errno1)
      end
  end.

End ReaderPlainC.

(** ** Bank entries and the RvtH object ([rvth.h], used by [rvth.c]) *)

(** Modelled from the spec: the header [rvth.h] is not among the sources.
    The enumerators are those named in [rvth.c]; their numeric order is the
    one the comparisons [type >= RVTH_BankType_GCN] ("valid types") and
    [type >= RVTH_BankType_Wii_SL] ("a Wii image") of the sources rely on,
    and a zeroed ([calloc]) entry has the first enumerator. *)
Inductive RvtH_BankType_e : Type :=
  | RVTH_BankType_Empty
  | RVTH_BankType_Unknown
  | RVTH_BankType_GCN
  | RVTH_BankType_Wii_SL
  | RVTH_BankType_Wii_DL
  | RVTH_BankType_Wii_DL_Bank2.

Definition bank_type_ord (t : RvtH_BankType_e) : Z :=
  match t with
  | RVTH_BankType_Empty => 0
  | RVTH_BankType_Unknown => 1
  | RVTH_BankType_GCN => 2
  | RVTH_BankType_Wii_SL => 3
  | RVTH_BankType_Wii_DL => 4
  | RVTH_BankType_Wii_DL_Bank2 => 5
  end.

#[global] Instance RvtH_BankType_e_eq_dec : EqDecision RvtH_BankType_e.
Proof. solve_decision. Defined.

(** The encryption of a bank; the order is the one of the specification
    and of the test [recrypt_key > RVTH_CryptoType_Unknown]. *)
Inductive RvtH_CryptoType_e : Type :=
  | RVTH_CryptoType_Unknown
  | RVTH_CryptoType_None
  | RVTH_CryptoType_Debug
  | RVTH_CryptoType_Retail
  | RVTH_CryptoType_Korean.

Definition crypto_type_ord (c : RvtH_CryptoType_e) : Z :=
  match c with
  | RVTH_CryptoType_Unknown => 0
  | RVTH_CryptoType_None => 1
  | RVTH_CryptoType_Debug => 2
  | RVTH_CryptoType_Retail => 3
  | RVTH_CryptoType_Korean => 4
  end.

#[global] Instance RvtH_CryptoType_e_eq_dec : EqDecision RvtH_CryptoType_e.
Proof. solve_decision. Defined.

(** Signature type and status of a ticket or a TMD; zeroed memory holds
    the first enumerator. *)
Inductive RvtH_SigType_e : Type :=
  | RVTH_SigType_Unknown
  | RVTH_SigType_Debug
  | RVTH_SigType_Retail.

Inductive RvtH_SigStatus_e : Type :=
  | RVTH_SigStatus_Unknown
  | RVTH_SigStatus_OK
  | RVTH_SigStatus_Invalid
  | RVTH_SigStatus_Fake.

#[global] Instance RvtH_SigStatus_e_eq_dec : EqDecision RvtH_SigStatus_e.
Proof. solve_decision. Defined.

(** Signature information of a ticket or a TMD. *)
Record RvtH_SigInfo : Type := mkSigInfo {
  sig_type   : RvtH_SigType_e;
  sig_status : RvtH_SigStatus_e
}.

(** One entry of a Wii partition table ([ptbl.h]). *)
Record pt_entry_t : Type := mkPtEntry {
  pt_lba_start : Z;
  pt_lba_len   : Z;
  pt_type      : Z
}.

(** A bank entry, with the fields the engine reads and writes.  [reader]
    is [None] for the NULL pointer; [discHeader] is the cached copy of
    the first sector of the bank. *)
Record RvtH_BankEntry : Type := mkBankEntry {
  reader      : option Reader;
  lba_start   : Z;
  lba_len     : Z;
  timestamp   : Z;
  type        : RvtH_BankType_e;
  region_code : Z;
  is_deleted  : bool;
  crypto_type : RvtH_CryptoType_e;
  ios_version : Z;
  ticket      : RvtH_SigInfo;
  tmd         : RvtH_SigInfo;
  discHeader  : Sector;
  ptbl        : option (list pt_entry_t)
}.

(** An entry as [calloc] leaves it. *)
Definition BankEntry_zero : RvtH_BankEntry :=
  {| reader := None; lba_start := 0; lba_len := 0; timestamp := 0;
     type := RVTH_BankType_Empty; region_code := 0; is_deleted := false;
     crypto_type := RVTH_CryptoType_Unknown; ios_version := 0;
     ticket := mkSigInfo RVTH_SigType_Unknown RVTH_SigStatus_Unknown;
     tmd := mkSigInfo RVTH_SigType_Unknown RVTH_SigStatus_Unknown;
     discHeader := zero_sector; ptbl := None |}.

(** The RvtH object: the stream all its readers share, and the banks. *)
Record RvtH : Type := mkRvtH {
  f_img      : RefFile;
  is_hdd     : bool;
  bank_count : Z;
  entries    : list RvtH_BankEntry
}.

(** The array [entries] has [bank_count] elements. *)
Definition RvtH_wf (rvth : RvtH) : Prop :=
  Z.of_nat (length (entries rvth)) = bank_count rvth.

(** [rvth_is_hdd]; [None] is the NULL pointer. *)
Definition rvth_is_hdd (rvth : option RvtH) (errno : Z) : bool * Z :=
  match rvth with
  | None => (false, EINVAL)
  | Some r => (is_hdd r, errno)
  end.

(** [rvth_get_BankCount] *)
Definition rvth_get_BankCount (rvth : option RvtH) (errno : Z) : Z * Z :=
  match rvth with
  | None => (0, EINVAL)
  | Some r => (bank_count r, errno)
  end.

(** [rvth_get_BankEntry].  The result is the index of the entry the
    returned pointer designates ([None]: NULL), the cell [*pErr]
    afterwards ([None]: no cell was passed) and [errno]. *)
Definition rvth_get_BankEntry (rvth : option RvtH) (bank : Z)
    (pErr : option Z) (errno : Z) : option nat * option Z * Z :=
  match rvth with
  | None => (None, (fun _ => - EINVAL) <$> pErr, EINVAL)
  | Some r =>
    if bank_count r <=? bank then
      (None, (fun _ => - EINVAL) <$> pErr, ERANGE)
    else
      (Some (Z.to_nat bank), pErr, errno)
  end.

(** ** On-disk layout ([nhcd_structs.h], [gcn_structs.h])

    The two headers are not among the sources.  What the engine takes from
    them (addresses, bank sizes, type tags and the offsets of the fields it
    reads) is gathered in one record, and every definition below is given
    for an arbitrary value of it. *)
Record Layout : Type := mkLayout {
  NHCD_BANKTABLE_ADDRESS_LBA : Z;
  NHCD_BANK_SIZE_LBA : Z;
  NHCD_EXTBANKTABLE_BANK_1_SIZE_LBA : Z;
  NHCD_BANK_WII_SL_SIZE_RVTR_LBA : Z;
  NHCD_BANK_START_LBA : Z -> Z -> Z;
  (* NHCD_BankType_e *)
  NHCD_BankType_Empty : Z;
  NHCD_BankType_GCN : Z;
  NHCD_BankType_Wii_SL : Z;
  NHCD_BankType_Wii_DL : Z;
  (* NHCD_BankTable_Header *)
  hdr_bank_count_off : nat;
  (* NHCD_BankEntry *)
  ent_type_off : nat;
  ent_timestamp_off : nat;
  ent_lba_start_off : nat;
  ent_lba_len_off : nat;
  (* GCN_DiscHeader *)
  magic_wii_off : nat;
  magic_gcn_off : nat
}.

(** The magic numbers: "NHCD" for the bank table, and the two of a disc
    header. *)
Definition NHCD_BANKTABLE_MAGIC : Z := 0x4E484344.
Definition NHCD_BLOCK_SIZE : Z := 512.
Definition WII_MAGIC : Z := 0x5D1C9EA3.
Definition GCN_MAGIC : Z := 0xC2339F3D.

(** A layout for the examples: the bank table at LBA 0x300000, banks of
    0x8C4A00 LBAs from LBA 0x300009 on, the tags "GC1L", "NN1L" and
    "NN2L".  No theorem depends on these figures. *)
Definition rvth_layout : Layout :=
  {| NHCD_BANKTABLE_ADDRESS_LBA := 0x300000;
     NHCD_BANK_SIZE_LBA := 0x8C4A00;
     NHCD_EXTBANKTABLE_BANK_1_SIZE_LBA := 0x8C4A00 - 0x20;
     NHCD_BANK_WII_SL_SIZE_RVTR_LBA := 0x8C1200;
     NHCD_BANK_START_LBA := fun bank _ => 0x300009 + 0x8C4A00 * bank;
     NHCD_BankType_Empty := 0;
     NHCD_BankType_GCN := 0x4743314C;
     NHCD_BankType_Wii_SL := 0x4E4E314C;
     NHCD_BankType_Wii_DL := 0x4E4E324C;
     hdr_bank_count_off := 8;
     ent_type_off := 0;
     ent_timestamp_off := 18;
     ent_lba_start_off := 32;
     ent_lba_len_off := 36;
     magic_wii_off := 24;
     magic_gcn_off := 28 |}.

(** ** Opening an image ([rvth.c]) *)

(** What an [open] function hands back: the object ([None]: NULL), the
    cell [*pErr] ([None]: no cell was passed), [errno] and the stream. *)
Record OpenResult : Type := mkOpenResult {
  o_rvth  : option RvtH;
  o_pErr  : option Z;
  o_errno : Z;
  o_file  : RefFile
}.

(** The common exit [fail:] of [rvth_open_gcm] and [rvth_open_hdd]. *)
Definition open_fail (pErr : option Z) (ret err : Z) (f : RefFile)
    (errno : Z) : OpenResult :=
  {| o_rvth := None;
     o_pErr := (fun _ => ret) <$> pErr;
     o_errno := if err =? 0 then errno else err;
     o_file := f |}.

(** [err = errno; if (err == 0) err = dflt;] *)
Definition errno_or (errno dflt : Z) : Z :=
  if errno =? 0 then dflt else errno.

(** [rvth_close] of an object whose [bank_count] is set while [entries]
    is still NULL, as [fail:] of [rvth_open_hdd] finds it after the test
    of the bank count: the loop over the banks reads [entries[0].reader]
    as soon as [bank_count] is not 0.  [None]: the program does not get
    past the NULL pointer. *)
Definition rvth_close_no_entries (bank_count : Z) : option unit :=
  if 0 <? bank_count then None else Some tt.

(** How the loop over the bank slots ends: at [fail:] with [ret] and
    [err], or with the entries it made. *)
Inductive LoopResult : Type :=
  | LoopFail (ret err : Z) (f : RefFile) (errno : Z)
  | LoopDone (ents : list RvtH_BankEntry) (f : RefFile) (errno : Z).

Section BankTable.

Variable L : Layout.

(** [rvth_init_BankEntry] of [bank_init.c], which is not among the
    sources: it fills one entry from the values the table parser hands it
    and from the disc header it reads through the stream. *)
Variable rvth_init_BankEntry :
  RvtH_BankEntry -> RefFile -> Z -> RvtH_BankType_e -> Z -> Z -> list byte ->
  RvtH_BankEntry * RefFile * Z.

(** The [switch] on the type tag of an on-disk bank entry. *)
Definition nhcd_type_to_rvth (t : Z) : RvtH_BankType_e :=
  if t =? NHCD_BankType_Empty L then RVTH_BankType_Empty
  else if t =? NHCD_BankType_GCN L then RVTH_BankType_GCN
  else if t =? NHCD_BankType_Wii_SL L then RVTH_BankType_Wii_SL
  else if t =? NHCD_BankType_Wii_DL L then RVTH_BankType_Wii_DL
  else RVTH_BankType_Unknown.

(** The second bank of a dual-layer image: only [type] and [timestamp] of
    the zeroed entry are set, no on-disk entry is read. *)
Definition BankEntry_DL_Bank2 : RvtH_BankEntry :=
  {| reader := None; lba_start := 0; lba_len := 0; timestamp := -1;
     type := RVTH_BankType_Wii_DL_Bank2; region_code := 0;
     is_deleted := false; crypto_type := RVTH_CryptoType_Unknown;
     ios_version := 0;
     ticket := mkSigInfo RVTH_SigType_Unknown RVTH_SigStatus_Unknown;
     tmd := mkSigInfo RVTH_SigType_Unknown RVTH_SigStatus_Unknown;
     discHeader := zero_sector; ptbl := None |}.

(** [(rvth_entry-1)->type == RVTH_BankType_Wii_DL] *)
Definition prev_is_DL (done : list RvtH_BankEntry) : bool :=
  match last done with
  | Some e => bool_decide (type e = RVTH_BankType_Wii_DL)
  | None => false
  end.

(** The loop over the bank slots of [rvth_open_hdd]: [n] slots are left,
    [i] is the slot, [addr] the byte address of its on-disk entry and
    [done] the entries already initialized. *)
Fixpoint rvth_open_hdd_loop (n : nat) (i addr bank_count : Z)
    (done : list RvtH_BankEntry) (f : RefFile) (errno : Z) : LoopResult :=
  match n with
  | O => LoopDone done f errno
  | S n' =>
    if (0 <? i) && prev_is_DL done then
      (* Second bank for a dual-layer Wii image. *)
      rvth_open_hdd_loop n' (i + 1) (addr + 512) bank_count
        (done ++ [BankEntry_DL_Bank2]) f errno
    else
      match ref_seeko f errno addr with
      | (ret, f1, errno1) =>
        if negb (ret =? 0) then
          (* Seek error. *)
          LoopFail (- errno_or errno1 EIO) (errno_or errno1 EIO) f1 errno1
        else
          match ref_read f1 1 with
          | (cnt, data, f2) =>
            if negb (cnt =? 1) then
              (* Short read. *)
              LoopFail (- errno_or errno1 EIO) (errno_or errno1 EIO) f2 errno1
            else
              let nhcd_entry := hd zero_sector data in
              let type := nhcd_type_to_rvth (be32_at nhcd_entry (ent_type_off L)) in
              (* For valid types, use the listed LBAs if they're non-zero. *)
              let lba_start :=
                if bank_type_ord RVTH_BankType_GCN <=? bank_type_ord type
                then be32_at nhcd_entry (ent_lba_start_off L) else 0 in
              let lba_len :=
                if bank_type_ord RVTH_BankType_GCN <=? bank_type_ord type
                then be32_at nhcd_entry (ent_lba_len_off L) else 0 in
              let invalid := (lba_start =? 0) || (lba_len =? 0) in
              let lba_start' :=
                if invalid then u32 (NHCD_BANK_START_LBA L i bank_count)
                else lba_start in
              let lba_len' := if invalid then 0 else lba_len in
              match rvth_init_BankEntry BankEntry_zero f2 errno1 type
                      lba_start' lba_len'
                      (take 14 (drop (ent_timestamp_off L) nhcd_entry)) with
              | (e, f3, errno3) =>
                rvth_open_hdd_loop n' (i + 1) (addr + 512) bank_count
                  (done ++ [e]) f3 errno3
              end
          end
      end
  end.

(** [rvth_open_hdd].  Memory allocation is taken to succeed.  The
    result is [None] where the function does not return: at [fail:] the
    object is handed to [rvth_close], which for a bank count that was
    refused finds [entries] still NULL.  (At the other exits through
    [fail:] the object is NULL, or [entries] has been allocated and
    zeroed.) *)
Definition rvth_open_hdd (f_img : RefFile) (pErr : option Z) (errno : Z)
    : option OpenResult :=
  (* Check the bank table header. *)
  match ref_seeko f_img errno
          (LBA_TO_BYTES (NHCD_BANKTABLE_ADDRESS_LBA L)) with
  | (ret, f1, errno1) =>
    if negb (ret =? 0) then
      Some (open_fail pErr (- errno_or errno1 EIO) (errno_or errno1 EIO)
              f1 errno1)
    else
      match ref_read f1 1 with
      | (cnt, data, f2) =>
        if negb (cnt =? 1) then
          (* Short read. *)
          Some (open_fail pErr (- errno_or errno1 EIO) (errno_or errno1 EIO)
                  f2 errno1)
        else
          let nhcd_header := hd zero_sector data in
          (* Check the magic number. *)
          if negb (be32_at nhcd_header 0 =? NHCD_BANKTABLE_MAGIC) then
            Some (open_fail pErr RVTH_ERROR_NHCD_TABLE_MAGIC EIO f2 errno1)
          else
            (* Get the bank count. *)
            let bank_count := be32_at nhcd_header (hdr_bank_count_off L) in
            if (bank_count <? 8) || (32 <? bank_count) then
              (* Bank count is either too small or too large. *)
              match rvth_close_no_entries bank_count with
              | None => None
              | Some _ =>
                Some (open_fail pErr (- errno_or errno1 ENOMEM)
                        (errno_or errno1 ENOMEM) f2 errno1)
              end
            else
              let addr :=
                u32 (LBA_TO_BYTES (NHCD_BANKTABLE_ADDRESS_LBA L)
                     + NHCD_BLOCK_SIZE) in
              match rvth_open_hdd_loop (Z.to_nat bank_count) 0 addr
                      bank_count [] f2 errno1 with
              | LoopFail ret err f3 errno3 =>
                Some (open_fail pErr ret err f3 errno3)
              | LoopDone ents f3 errno3 =>
                Some {| o_rvth := Some (mkRvtH f3 true bank_count ents);
                        o_pErr := pErr; o_errno := errno3; o_file := f3 |}
              end
      end
  end.

End BankTable.

Section Open.

Variable L : Layout.

Variable rvth_init_BankEntry :
  RvtH_BankEntry -> RefFile -> Z -> RvtH_BankType_e -> Z -> Z -> list byte ->
  RvtH_BankEntry * RefFile * Z.

(** [rvth_disc_header_identify] ([disc_header.c]) and the two initializers
    of [bank_init.c] used for a standalone image are not among the
    sources. *)
Variable rvth_disc_header_identify : Sector -> RvtH_BankType_e.
Variable rvth_init_BankEntry_region : RvtH_BankEntry -> RefFile -> RvtH_BankEntry * RefFile.
Variable rvth_init_BankEntry_crypto : RvtH_BankEntry -> RefFile -> RvtH_BankEntry * RefFile.

(** What the local [discHeader] of [rvth_open_gcm] holds before the
    read: it is not initialized. *)
Variable discHeader_stack : Sector.

(** [rvth_open_gcm].  Memory allocation is taken to succeed.  A read that
    fails leaves the buffer as it was and is not noticed: the reader
    reports 0 LBAs, the test is for a negative number. *)
Definition rvth_open_gcm (f_img : RefFile) (pErr : option Z) (errno : Z)
    : OpenResult :=
  (* Get the file length, then rewind. *)
  let f1 := ref_seek_end f_img in
  let len := ref_tello f1 in
  match ref_seeko f1 errno 0 with
  | (ret, f2, errno2) =>
    if negb (ret =? 0) then
      open_fail pErr (- errno_or errno2 EIO) (errno_or errno2 EIO) f2 errno2
    else
      (* Initialize the disc image reader. *)
      match ReaderPlain.reader_plain_open f2 errno2 0 (BYTES_TO_LBA len) with
      | (None, errno3) => open_fail pErr ret 0 f2 errno3
      | (Some rd, errno3) =>
        (* Read the GCN disc header. *)
        match ReaderPlain.reader_plain_read rd f2 errno3 0 1 with
        | (cnt, data, f3, errno4) =>
          if cnt <? 0 then open_fail pErr cnt (- cnt) f3 errno4
          else
            let hdr := hd discHeader_stack data in
            (* Identify the disc type. *)
            let type0 := rvth_disc_header_identify hdr in
            let type :=
              if bool_decide (type0 = RVTH_BankType_Wii_SL)
                 && (NHCD_BANK_WII_SL_SIZE_RVTR_LBA L <? r_lba_len rd)
              then RVTH_BankType_Wii_DL else type0 in
            let entry :=
              {| reader := Some rd; lba_start := r_lba_start rd;
                 lba_len := r_lba_len rd; timestamp := -1; type := type;
                 region_code := 0; is_deleted := false;
                 crypto_type := RVTH_CryptoType_Unknown; ios_version := 0;
                 ticket := mkSigInfo RVTH_SigType_Unknown RVTH_SigStatus_Unknown;
                 tmd := mkSigInfo RVTH_SigType_Unknown RVTH_SigStatus_Unknown;
                 discHeader := zero_sector; ptbl := None |} in
            if bool_decide (type = RVTH_BankType_Empty) then
              {| o_rvth := Some (mkRvtH f3 false 1 [entry]);
                 o_pErr := pErr; o_errno := errno4; o_file := f3 |}
            else
              (* Copy the disc header; region code; encryption status. *)
              let entry1 :=
                {| reader := reader entry; lba_start := lba_start entry;
                   lba_len := lba_len entry; timestamp := timestamp entry;
                   type := type; region_code := region_code entry;
                   is_deleted := is_deleted entry;
                   crypto_type := crypto_type entry;
                   ios_version := ios_version entry;
                   ticket := ticket entry; tmd := tmd entry;
                   discHeader := hdr; ptbl := ptbl entry |} in
              match rvth_init_BankEntry_region entry1 f3 with
              | (entry2, f4) =>
                match rvth_init_BankEntry_crypto entry2 f4 with
                | (entry3, f5) =>
                  {| o_rvth := Some (mkRvtH f5 false 1 [entry3]);
                     o_pErr := pErr; o_errno := errno4; o_file := f5 |}
                end
              end
        end
      end
  end.

(** [rvth_open], from the stream [ref_open] returned ([None]: the file
    could not be opened, [errno] says why); the seek to the end of the
    stream does not fail here.  Whatever the two openers stored in
    [*pErr], the exit [end:] overwrites it with [-errno].  The result is
    [None] where [rvth_open_hdd] does not return. *)
Definition rvth_open (f_open : option RefFile) (pErr : option Z) (errno : Z)
    : option (option RvtH * option Z * Z) :=
  match f_open with
  | None => Some (None, (fun _ => - errno) <$> pErr, errno)
  | Some f_img =>
    let f1 := ref_seek_end f_img in
    let len := ref_tello f1 in
    let opened :=
      if len =? 0 then
        (* File is empty. *)
        Some {| o_rvth := None; o_pErr := pErr; o_errno := EIO; o_file := f1 |}
      else if len <=? 2 * LBA_TO_BYTES (NHCD_BANK_SIZE_LBA L) then
        (* Two banks or less: most likely a standalone disc image. *)
        Some (rvth_open_gcm f1 pErr errno)
      else
        (* More than two banks: most likely an RVT-H HDD image. *)
        rvth_open_hdd L rvth_init_BankEntry f1 pErr errno in
    match opened with
    | None => None
    | Some r => Some (o_rvth r, (fun _ => - o_errno r) <$> o_pErr r, o_errno r)
    end
  end.

End Open.

(** ** Copy engine ([rvth_extract.cpp]) *)

Inductive RvtH_Progress_Type : Type :=
  | RVTH_PROGRESS_UNKNOWN
  | RVTH_PROGRESS_EXTRACT
  | RVTH_PROGRESS_IMPORT
  | RVTH_PROGRESS_RECRYPT.

(** The state handed to the progress callback (the two object pointers
    are left out). *)
Record RvtH_Progress_State : Type := mkProgress {
  ps_type          : RvtH_Progress_Type;
  ps_bank_rvth     : Z;
  ps_bank_gcm      : Z;
  ps_lba_processed : Z;
  ps_lba_total     : Z
}.

(** A progress callback; [None] is the NULL pointer. *)
Definition RvtH_Progress_Callback : Type :=
  option (RvtH_Progress_State -> bool).

(** [if (callback) { state.lba_processed = lba; bRet = callback(&state); }]:
    [true] when the callback asks to stop. *)
Definition callback_stops (callback : RvtH_Progress_Callback)
    (state : RvtH_Progress_State) (lba : Z) : bool :=
  match callback with
  | None => false
  | Some cb =>
    negb (cb {| ps_type := ps_type state; ps_bank_rvth := ps_bank_rvth state;
                ps_bank_gcm := ps_bank_gcm state; ps_lba_processed := lba;
                ps_lba_total := ps_lba_total state |})
  end.

(** Process 1 MB at a time. *)
Definition BUF_SIZE : Z := 1048576.
Definition LBA_COUNT_BUF : Z := BYTES_TO_LBA BUF_SIZE.

(** Modelled from the spec: [rvth_is_block_empty] is not among the
    sources; "block of zeros" detection is a pure function over a byte
    window, here a run of sectors. *)
Definition rvth_is_block_empty (blk : list Sector) : bool :=
  forallb (forallb is_zero_byte) blk.

(** [memcpy(dst, src, sizeof(src))] onto the front of a sector. *)
Definition memcpy_sector (src dst : Sector) : Sector :=
  src ++ drop (length src) dst.

(** What a copy function leaves: the return code, [errno] and the two
    objects. *)
Record CopyResult : Type := mkCopyResult {
  c_ret   : Z;
  c_errno : Z;
  c_dest  : RvtH;
  c_src   : RvtH
}.

(** The variables of a copy loop: the two streams, [errno], the 1 MB
    buffer and [lba_nonsparse]. *)
Record CopyState : Type := mkCopyState {
  cs_src       : RefFile;
  cs_dst       : RefFile;
  cs_errno     : Z;
  cs_buf       : list Sector;
  cs_nonsparse : Z
}.

(** [entry_dest] after "Copy the bank table information", "Copy the disc
    header" and "Timestamp"; [now] is [time(NULL)]. *)
Definition copy_bank_info (now : Z) (entry_src entry_dest : RvtH_BankEntry)
    (new_lba_len : Z) : RvtH_BankEntry :=
  {| reader := reader entry_dest;
     lba_start := lba_start entry_dest;
     lba_len := new_lba_len;
     timestamp := if 0 <=? timestamp entry_src then timestamp entry_src else now;
     type := type entry_src;
     region_code := region_code entry_src;
     is_deleted := false;
     crypto_type := crypto_type entry_src;
     ios_version := ios_version entry_src;
     ticket := ticket entry_src;
     tmd := tmd entry_src;
     discHeader := discHeader entry_src;
     ptbl := ptbl entry_dest |}.

(** [entries[i] = e] *)
Definition set_entry (rvth : RvtH) (i : nat) (e : RvtH_BankEntry) (f : RefFile) : RvtH :=
  {| f_img := f; is_hdd := is_hdd rvth; bank_count := bank_count rvth;
     entries := <[i := e]> (entries rvth) |}.

Definition set_file (rvth : RvtH) (f : RefFile) : RvtH :=
  {| f_img := f; is_hdd := is_hdd rvth; bank_count := bank_count rvth;
     entries := entries rvth |}.

(** The sectors a [reader->read(buf, lba, n)] delivers, put at the front
    of the buffer. *)
Definition buf_fill (rd : Reader) (st : CopyState) (lba n : Z) : CopyState :=
  match ReaderPlain.reader_plain_read rd (cs_src st) (cs_errno st) lba n with
  | (_, data, f', errno') =>
    {| cs_src := f'; cs_dst := cs_dst st; cs_errno := errno';
       cs_buf := data ++ drop (length data) (cs_buf st);
       cs_nonsparse := cs_nonsparse st |}
  end.

(** [reader->read(buf, lba, n)] with the [malloc]ed block for [buf]; the
    return value is not looked at ("TODO: Error handling.").  A read that
    delivers more sectors than the block holds writes past its end
    ([None]). *)
Definition buf_read (rd : Reader) (st : CopyState) (lba n : Z)
    : option CopyState :=
  let st' := buf_fill rd st lba n in
  if (length (cs_buf st) <? length (cs_buf st'))%nat then None else Some st'.

(** [reader->write(&buf[idx], lba, n)]; the return value is not looked
    at. *)
Definition buf_write (rd : Reader) (st : CopyState) (idx : nat) (lba n : Z)
    : CopyState :=
  match ReaderPlain.reader_plain_write rd (cs_dst st) (cs_errno st)
          (drop idx (cs_buf st)) lba n with
  | (_, f', errno') =>
    {| cs_src := cs_src st; cs_dst := f'; cs_errno := errno';
       cs_buf := cs_buf st; cs_nonsparse := cs_nonsparse st |}
  end.

(** [buf = malloc(BUF_SIZE)]: [LBA_COUNT_BUF] sectors of whatever the
    memory held. *)
Definition malloc_buf (heap : nat -> Sector) : list Sector :=
  map heap (seq 0 (Z.to_nat LBA_COUNT_BUF)).

Definition set_nonsparse (st : CopyState) (lba : Z) : CopyState :=
  {| cs_src := cs_src st; cs_dst := cs_dst st; cs_errno := cs_errno st;
     cs_buf := cs_buf st; cs_nonsparse := lba |}.

Definition set_buf (st : CopyState) (buf : list Sector) : CopyState :=
  {| cs_src := cs_src st; cs_dst := cs_dst st; cs_errno := cs_errno st;
     cs_buf := buf; cs_nonsparse := cs_nonsparse st |}.

Section ExtractEngine.

Variable L : Layout.

(** [time(NULL)] and the contents of the memory [malloc] returns. *)
Variable now : Z.
Variable heap : nat -> Sector.

Variable callback : RvtH_Progress_Callback.

(** "Make sure we copy the disc header in if the header was zeroed by the
    RVT-H's Flush function": done on the buffer of the first chunk. *)
Definition restore_disc_header (entry_src : RvtH_BankEntry) (st : CopyState)
    : CopyState :=
  let origHdr := hd zero_sector (cs_buf st) in
  if negb (be32_at origHdr (magic_wii_off L) =? WII_MAGIC)
     && negb (be32_at origHdr (magic_gcn_off L) =? GCN_MAGIC)
  then
    (* Missing magic number. Need to restore the disc header. *)
    set_buf st (<[0%nat := memcpy_sector (discHeader entry_src) origHdr]> (cs_buf st))
  else st.

(** "Check for empty 4 KB blocks": [n] blocks are left, [sprs] is the byte
    offset of the block in the buffer. *)
Fixpoint sparse_4k (rd_dest : Reader) (n : nat) (sprs lba_count : Z)
    (st : CopyState) : CopyState :=
  match n with
  | O => st
  | S n' =>
    let idx := Z.to_nat (sprs / 512) in
    let st' :=
      if negb (rvth_is_block_empty (take 8 (drop idx (cs_buf st)))) then
        (* 4 KB block is not empty. *)
        let lba_nonsparse := u32_add lba_count (sprs / 512) in
        let st1 := buf_write rd_dest st idx lba_nonsparse 8 in
        set_nonsparse st1 (u32_add lba_nonsparse 7)
      else st in
    sparse_4k rd_dest n' (sprs + 4096) lba_count st'
  end.

(** "Check for empty 512-byte blocks": the same over single sectors. *)
Fixpoint sparse_512 (rd_dest : Reader) (n : nat) (sprs lba_count : Z)
    (st : CopyState) : CopyState :=
  match n with
  | O => st
  | S n' =>
    let idx := Z.to_nat (sprs / 512) in
    let st' :=
      if negb (rvth_is_block_empty (take 1 (drop idx (cs_buf st)))) then
        (* 512-byte block is not empty. *)
        let lba_nonsparse := u32_add lba_count (sprs / 512) in
        let st1 := buf_write rd_dest st idx lba_nonsparse 1 in
        set_nonsparse st1 lba_nonsparse
      else st in
    sparse_512 rd_dest n' (sprs + 512) lba_count st'
  end.

(** Number of trips of [for (x = 0; x < bound; x += step)]. *)
Definition loop_trips (bound step : Z) : nat :=
  Z.to_nat ((bound + step - 1) / step).

(** The loop over whole 1 MB chunks of [rvth_copy_to_gcm]; [n] chunks
    are left.  The result tells whether the callback stopped the loop and
    gives [lba_count] on leaving it. *)
Fixpoint gcm_chunks (entry_src : RvtH_BankEntry) (rd_src rd_dest : Reader)
    (state : RvtH_Progress_State) (n : nat) (lba_count : Z) (st : CopyState)
    : option (bool * Z * CopyState) :=
  match n with
  | O => Some (false, lba_count, st)
  | S n' =>
    if callback_stops callback state lba_count then
      (* Stop processing. *)
      Some (true, lba_count, st)
    else
      match buf_read rd_src st lba_count LBA_COUNT_BUF with
      | None => None
      | Some st1 =>
        let st2 :=
          if lba_count =? 0 then restore_disc_header entry_src st1 else st1 in
        let st3 :=
          sparse_4k rd_dest (loop_trips BUF_SIZE 4096) 0 lba_count st2 in
        gcm_chunks entry_src rd_src rd_dest state n'
          (u32_add lba_count LBA_COUNT_BUF) st3
      end
  end.

(** The checks both copy functions make on the source bank. *)
Definition check_src_type (t : RvtH_BankType_e) : option (Z * Z) :=
  match t with
  | RVTH_BankType_GCN | RVTH_BankType_Wii_SL | RVTH_BankType_Wii_DL =>
    (* Bank can be extracted / imported. *)
    None
  | RVTH_BankType_Unknown => Some (RVTH_ERROR_BANK_UNKNOWN, EIO)
  | RVTH_BankType_Empty => Some (RVTH_ERROR_BANK_EMPTY, ENOENT)
  | RVTH_BankType_Wii_DL_Bank2 => Some (RVTH_ERROR_BANK_DL_2, EIO)
  end.

(** [rvth_copy_to_gcm], for two objects that are there (the test for
    NULL arguments comes first in the C function and returns [-EINVAL]);
    the [malloc] of the 1 MB block is taken to succeed.  The result is
    [None] where the C function would dereference a missing reader,
    index [entries] outside its length, or run past the end of the
    block: with what a read delivers, or with [&buf[sprs]] in the loop
    over what is left after the whole chunks. *)
Definition rvth_copy_to_gcm (rvth_dest rvth_src : RvtH) (bank_src : Z)
    (errno : Z) : option CopyResult :=
  if bank_count rvth_src <=? bank_src then
    Some (mkCopyResult (- ERANGE) ERANGE rvth_dest rvth_src)
  else if is_hdd rvth_dest || negb (bank_count rvth_dest =? 1) then
    (* Destination is not a standalone disc image. *)
    Some (mkCopyResult RVTH_ERROR_IS_HDD_IMAGE EIO rvth_dest rvth_src)
  else
    entry_src ← entries rvth_src !! Z.to_nat bank_src;
    match check_src_type (type entry_src) with
    | Some (ret, err) => Some (mkCopyResult ret err rvth_dest rvth_src)
    | None =>
      entry_dest0 ← entries rvth_dest !! 0%nat;
      (* Make this a sparse file. *)
      match ref_makeSparse (f_img rvth_dest)
              (LBA_TO_BYTES (lba_len entry_dest0)) with
      | (ret, f_dest) =>
        if negb (ret =? 0) then
          (* Error managing the sparse file. *)
          let err := errno_or (ref_lastError f_dest) ENOMEM in
          Some (mkCopyResult (- err) err (set_file rvth_dest f_dest) rvth_src)
        else
          (* Copy the bank table information. *)
          let entry_dest :=
            copy_bank_info now entry_src entry_dest0 (lba_len entry_dest0) in
          (* Number of LBAs to copy. *)
          let lba_copy_len := lba_len entry_src in
          let state :=
            mkProgress RVTH_PROGRESS_EXTRACT bank_src 0 0 lba_copy_len in
          rd_src ← reader entry_src;
          rd_dest ← reader entry_dest;
          let finish (cancelled : bool) (st : CopyState) :=
            Some {| c_ret := 0;
                    c_errno := if cancelled then ECANCELED else cs_errno st;
                    c_dest := set_entry rvth_dest 0 entry_dest (cs_dst st);
                    c_src := set_file rvth_src (cs_src st) |} in
          let lba_buf_max :=
            Z.land (lba_len entry_dest) (u32 (Z.lnot (LBA_COUNT_BUF - 1))) in
          let st0 :=
            mkCopyState (f_img rvth_src) f_dest errno (malloc_buf heap) 0 in
          match gcm_chunks entry_src rd_src rd_dest state
                  (loop_trips lba_buf_max LBA_COUNT_BUF) 0 st0 with
          | None => None
          | Some (true, _, st1) => finish true st1
          | Some (false, lba_count, st1) =>
            (* Process any remaining LBAs. *)
            let rest :=
              if lba_count <? lba_copy_len then
                let lba_left := lba_copy_len - lba_count in
                let sz_left := BYTES_TO_LBA lba_left in
                if callback_stops callback state lba_count then
                  Some (true, st1)
                else
                  match buf_read rd_src st1 lba_count lba_left with
                  | None => None
                  | Some st2 =>
                    (* Check for empty 512-byte blocks. *)
                    if (length (cs_buf st2) <? loop_trips sz_left 512)%nat
                    then None
                    else
                      Some (false,
                            sparse_512 rd_dest (loop_trips sz_left 512) 0
                              lba_count st2)
                  end
              else Some (false, st1) in
            match rest with
            | None => None
            | Some (true, st2) => finish true st2
            | Some (false, st2) =>
              if callback_stops callback state lba_copy_len then
                finish true st2
              else
                (* lba_nonsparse should be equal to lba_copy_len-1. *)
                let st3 :=
                  if negb (cs_nonsparse st2 =? u32_sub lba_copy_len 1) then
                    (* Last LBA was sparse: write an actual zero block. *)
                    let st' := set_buf st2 (<[0%nat := zero_sector]> (cs_buf st2)) in
                    buf_write rd_dest st' 0 (u32_sub lba_copy_len 1) 1
                  else st2 in
                (* Finished extracting the disc image. *)
                finish false st3
            end
          end
      end
    end.

End ExtractEngine.

(** *** Extract *)

(** Modelled from the spec: the flag set [RvtH_Extract_Flags] of [rvth.h]
    is not among the sources; [PREPEND_SDK_HEADER] is its one flag. *)
Definition RVTH_EXTRACT_PREPEND_SDK_HEADER : Z := 1.
Definition SDK_HEADER_SIZE_BYTES : Z := 32768.
Definition SDK_HEADER_SIZE_LBA : Z := BYTES_TO_LBA SDK_HEADER_SIZE_BYTES.

(** Modelled from the spec: [Reader::lba_adjust] is not among the
    sources; it shifts [lba_start] forward by [delta] and reduces
    [lba_len] by [delta]. *)
Definition lba_adjust (rd : Reader) (delta : Z) : Reader :=
  mkReader (u32_add (r_lba_start rd) delta) (u32_sub (r_lba_len rd) delta)
    (r_type rd).

(** The destination length for an unencrypted to encrypted conversion, as
    [rvth_extract] computes it from the game partition ("Need to convert
    31k sectors to 32k"); all of it is [uint32_t] arithmetic. *)
Definition unenc_to_enc_lba_len (game_pte : pt_entry_t) : Z :=
  (* Assuming 0x8000 partition header size for now. *)
  let lba_tmp := u32_sub (pt_lba_len game_pte) (BYTES_TO_LBA 0x8000) in
  let gcm_lba_len := u32_mul (lba_tmp / 3968) 4096 in
  let gcm_lba_len :=
    if negb (lba_tmp mod 3968 =? 0) then u32_add gcm_lba_len 4096
    else gcm_lba_len in
  (* Assuming 0x8000 header + 0x18000 H3 table. *)
  u32_add gcm_lba_len
    (u32_add (BYTES_TO_LBA 0x20000) (pt_lba_start game_pte)).

(** The SDK header for a Wii image: 32 KB, zero but for
    [0x0000: FF FF], [0x082E: E0 06] and [0x0844: 01]. *)
Definition sdk_header_wii : list Sector :=
  let s0 := <[0%nat := xff]> (<[1%nat := xff]> zero_sector) in
  let s4 :=
    <[46%nat := xe0]> (<[47%nat := x06]> (<[68%nat := x01]> zero_sector)) in
  [s0; zero_sector; zero_sector; zero_sector; s4]
  ++ repeat zero_sector 59.

(** What [rvth_extract] leaves: the return code, [errno], the image
    written (as it is when closed; [None]: none was created) and the
    source object. *)
Record ExtractResult : Type := mkExtractResult {
  x_ret   : Z;
  x_errno : Z;
  x_dest  : option RvtH;
  x_src   : RvtH
}.

Section ExtractWrapper.

Variable L : Layout.
Variable now : Z.
Variable heap : nat -> Sector.
Variable callback : RvtH_Progress_Callback.

(** Functions of other translation units ([ptbl.c], [rvth.c] of the C++
    tree, [extract_crypt.cpp], [rvth_recrypt.cpp]). *)
Variable rvth_ptbl_find_game : RvtH_BankEntry -> option pt_entry_t.
Variable rvth_create_gcm : Z -> Z -> option RvtH * Z * Z.
Variable rvth_copy_to_gcm_doCrypt :
  RvtH -> RvtH -> Z -> RvtH_Progress_Callback -> Z -> option CopyResult.
Variable rvth_recrypt_partitions :
  RvtH -> Z -> Z -> RvtH_Progress_Callback -> Z -> Z * RvtH * Z.

(** [unenc_to_enc] of [rvth_extract]. *)
Definition is_unenc_to_enc (entry : RvtH_BankEntry) (recrypt_key : Z) : bool :=
  (bank_type_ord RVTH_BankType_Wii_SL <=? bank_type_ord (type entry))
  && bool_decide (crypto_type entry = RVTH_CryptoType_None)
  && (crypto_type_ord RVTH_CryptoType_Unknown <? recrypt_key).

(** The length [rvth_extract] asks [rvth_create_gcm] for: an error code
    with its [errno], or [gcm_lba_len]. *)
Definition extract_gcm_lba_len (entry : RvtH_BankEntry) (recrypt_key flags : Z)
    (errno : Z) : Z * Z + Z :=
  let len0 :=
    if is_unenc_to_enc entry recrypt_key then
      match rvth_ptbl_find_game entry with
      | None => inl (RVTH_ERROR_NO_GAME_PARTITION, EIO)
      | Some game_pte => inr (unenc_to_enc_lba_len game_pte)
      end
    else
      (* Use the bank size as-is. *)
      inr (lba_len entry) in
  match len0 with
  | inl e => inl e
  | inr gcm_lba_len =>
    if negb (Z.land flags RVTH_EXTRACT_PREPEND_SDK_HEADER =? 0) then
      if bool_decide (type entry = RVTH_BankType_GCN) then
        inl (RVTH_ERROR_NDEV_GCN_NOT_SUPPORTED, errno)
      else
        (* Prepend 32k to the GCM. *)
        inr (u32_add gcm_lba_len (BYTES_TO_LBA 32768))
    else inr gcm_lba_len
  end.

(** [rvth_extract]; [None] as for [rvth_copy_to_gcm].  [rvth_create_gcm]
    hands back the object, what it left in [ret] (set to 0 before the
    call) and [errno].  The [calloc] of the SDK header is taken to
    succeed, and the [assert] at "Should not get here" expands to
    nothing (NDEBUG). *)
Definition rvth_extract (rvth : RvtH) (bank : Z) (recrypt_key flags : Z)
    (errno : Z) : option ExtractResult :=
  if bank_count rvth <=? bank then
    (* Bank number is out of range. *)
    Some (mkExtractResult (- ERANGE) ERANGE None rvth)
  else
    entry ← entries rvth !! Z.to_nat bank;
    match extract_gcm_lba_len entry recrypt_key flags errno with
    | inl (ret, errno1) => Some (mkExtractResult ret errno1 None rvth)
    | inr gcm_lba_len =>
      (* Create a standalone disc image. *)
      match rvth_create_gcm gcm_lba_len errno with
      | (None, ret, errno1) =>
        Some (mkExtractResult (if ret =? 0 then - EIO else ret) errno1 None rvth)
      | (Some rvth_dest0, ret0, errno1) =>
        (* Prepend 32k to the GCM. *)
        let sdk : option (Z * Z + RvtH * Z) :=
          if negb (Z.land flags RVTH_EXTRACT_PREPEND_SDK_HEADER =? 0) then
            entry_dest ← entries rvth_dest0 !! 0%nat;
            match type entry with
            | RVTH_BankType_GCN =>
              Some (inl (RVTH_ERROR_NDEV_GCN_NOT_SUPPORTED, errno1))
            | RVTH_BankType_Wii_SL | RVTH_BankType_Wii_DL =>
              rd ← reader entry_dest;
              match ReaderPlain.reader_plain_write rd (f_img rvth_dest0) errno1
                      sdk_header_wii 0 SDK_HEADER_SIZE_LBA with
              | (size, f1, errno2) =>
                if negb (size =? SDK_HEADER_SIZE_LBA) then
                  (* Write error. *)
                  Some (inl (if errno2 =? 0 then - EIO else - errno2, errno2))
                else
                  (* Remove the SDK header from the reader's offsets. *)
                  let entry_dest' :=
                    {| reader := Some (lba_adjust rd SDK_HEADER_SIZE_LBA);
                       lba_start := lba_start entry_dest;
                       lba_len := lba_len entry_dest;
                       timestamp := timestamp entry_dest;
                       type := type entry_dest;
                       region_code := region_code entry_dest;
                       is_deleted := is_deleted entry_dest;
                       crypto_type := crypto_type entry_dest;
                       ios_version := ios_version entry_dest;
                       ticket := ticket entry_dest; tmd := tmd entry_dest;
                       discHeader := discHeader entry_dest;
                       ptbl := ptbl entry_dest |} in
                  Some (inr (set_entry rvth_dest0 0 entry_dest' f1, errno2))
              end
            | _ =>
              (* Should not get here... *)
              Some (inl (ret0, errno1))
            end
          else Some (inr (rvth_dest0, errno1)) in
        sdk ≫= fun r =>
        match r with
        | inl (ret, errno2) =>
          Some (mkExtractResult ret errno2 (Some rvth_dest0) rvth)
        | inr (rvth_dest, errno2) =>
          (* Copy the bank from the source image to the destination GCM. *)
          let copied :=
            if is_unenc_to_enc entry recrypt_key then
              rvth_copy_to_gcm_doCrypt rvth_dest rvth bank callback errno2
            else
              rvth_copy_to_gcm L now heap callback rvth_dest rvth bank errno2 in
          copied ≫= fun c =>
          if (c_ret c =? 0)
             && (crypto_type_ord RVTH_CryptoType_Unknown <? recrypt_key)
             && negb (crypto_type_ord (crypto_type entry) =? recrypt_key)
          then
            (* Recrypt the disc image. *)
            match rvth_recrypt_partitions (c_dest c) 0 recrypt_key callback
                    (c_errno c) with
            | (ret, rvth_dest', errno3) =>
              Some (mkExtractResult ret errno3 (Some rvth_dest') (c_src c))
            end
          else
            Some (mkExtractResult (c_ret c) (c_errno c) (Some (c_dest c)) (c_src c))
        end
      end
    end.

End ExtractWrapper.

(** *** Import *)

(** [entry->type != RVTH_BankType_Empty && !entry->is_deleted] *)
Definition not_empty_or_deleted (entry : RvtH_BankEntry) : bool :=
  negb (bool_decide (type entry = RVTH_BankType_Empty))
  && negb (is_deleted entry).

Section ImportEngine.

Variable L : Layout.
Variable now : Z.
Variable heap : nat -> Sector.
Variable callback : RvtH_Progress_Callback.

(** Functions of other translation units: [rvth_make_writable] and
    [rvth_write_BankEntry] ([rvth_write.c]), the recryption entry points
    ([rvth_recrypt.cpp]). *)
Variable rvth_make_writable : RvtH -> Z -> Z * RvtH * Z.
Variable rvth_write_BankEntry : RvtH -> Z -> RvtH.
Variable rvth_recrypt_partitions :
  RvtH -> Z -> Z -> RvtH_Progress_Callback -> Z -> Z * RvtH * Z.
Variable rvth_recrypt_id : RvtH -> Z -> Z -> Z * RvtH * Z.

(** The checks of [rvth_copy_to_hdd] on the destination bank, from
    "Source image length cannot be larger than a single bank" to
    "Destination bank must be either empty or deleted": the error code
    with its [errno] when one of them fails.  The outer [None] is an
    access outside [entries]. *)
Definition import_checks (rvth_dest : RvtH) (bank_dest : Z)
    (entry_src entry_dest : RvtH_BankEntry) : option (option (Z * Z)) :=
  let bank_count_dest := bank_count rvth_dest in
  let dest_check :=
    (* Destination bank must be either empty or deleted. *)
    if not_empty_or_deleted entry_dest
    then Some (RVTH_ERROR_BANK_NOT_EMPTY_OR_DELETED, EEXIST)
    else None in
  if bool_decide (type entry_src = RVTH_BankType_Wii_DL) then
    if (8 <? bank_count_dest) && (bank_dest =? 0) then
      (* Extended bank table: cannot use bank 0. *)
      Some (Some (RVTH_ERROR_IMPORT_DL_EXT_NO_BANK1, EINVAL))
    else if bank_dest =? u32_sub bank_count_dest 1 then
      (* Cannot use the last bank for DL images. *)
      Some (Some (RVTH_ERROR_IMPORT_DL_LAST_BANK, EINVAL))
    else if not_empty_or_deleted entry_dest then
      (* Check that the first bank is empty or deleted. *)
      Some (Some (RVTH_ERROR_BANK_NOT_EMPTY_OR_DELETED, EEXIST))
    else
      (* Check that the second bank is empty or deleted. *)
      entry_dest2 ← entries rvth_dest !! Z.to_nat (u32_add bank_dest 1);
      if not_empty_or_deleted entry_dest2 then
        Some (Some (RVTH_ERROR_BANK2DL_NOT_EMPTY_OR_DELETED, EEXIST))
      else if NHCD_BANK_SIZE_LBA L * 2 <? lba_len entry_src then
        (* Verify that the image fits in two banks. *)
        Some (Some (RVTH_ERROR_IMAGE_TOO_BIG, ENOSPC))
      else Some dest_check
  else if NHCD_BANK_SIZE_LBA L <? lba_len entry_src then
    (* Single-layer image is too big for this bank. *)
    Some (Some (RVTH_ERROR_IMAGE_TOO_BIG, ENOSPC))
  else if (bank_dest =? 0) && (8 <? bank_count_dest)
          && (NHCD_EXTBANKTABLE_BANK_1_SIZE_LBA L <? lba_len entry_src) then
    (* Special handling for bank 1 if the bank table is extended. *)
    Some (Some (RVTH_ERROR_IMAGE_TOO_BIG, ENOSPC))
  else Some dest_check.

(** The loop over whole 1 MB chunks of [rvth_copy_to_hdd]. *)
Fixpoint hdd_chunks (rd_src rd_dest : Reader) (state : RvtH_Progress_State)
    (n : nat) (lba_count : Z) (st : CopyState)
    : option (bool * Z * CopyState) :=
  match n with
  | O => Some (false, lba_count, st)
  | S n' =>
    if callback_stops callback state lba_count then
      (* Stop processing. *)
      Some (true, lba_count, st)
    else
      match buf_read rd_src st lba_count LBA_COUNT_BUF with
      | None => None
      | Some st1 =>
        let st2 := buf_write rd_dest st1 0 lba_count LBA_COUNT_BUF in
        hdd_chunks rd_src rd_dest state n'
          (u32_add lba_count LBA_COUNT_BUF) st2
      end
  end.

(** [rvth_copy_to_hdd], for two objects that are there (the test for NULL
    arguments comes first and returns [-EINVAL]); the [malloc] of the
    1 MB block is taken to succeed.  [None] as for [rvth_copy_to_gcm]. *)
Definition rvth_copy_to_hdd (rvth_dest : RvtH) (bank_dest : Z)
    (rvth_src : RvtH) (bank_src : Z) (errno : Z) : option CopyResult :=
  if (bank_count rvth_src <=? bank_src) || (bank_count rvth_dest <=? bank_dest)
  then Some (mkCopyResult (- ERANGE) ERANGE rvth_dest rvth_src)
  else if negb (is_hdd rvth_dest) then
    (* Destination is not an HDD. *)
    Some (mkCopyResult RVTH_ERROR_NOT_HDD_IMAGE EIO rvth_dest rvth_src)
  else
    entry_src ← entries rvth_src !! Z.to_nat bank_src;
    match check_src_type (type entry_src) with
    | Some (ret, err) => Some (mkCopyResult ret err rvth_dest rvth_src)
    | None =>
      entry_dest0 ← entries rvth_dest !! Z.to_nat bank_dest;
      import_checks rvth_dest bank_dest entry_src entry_dest0 ≫= fun chk =>
      match chk with
      | Some (ret, err) => Some (mkCopyResult ret err rvth_dest rvth_src)
      | None =>
        (* Make the destination RVT-H object writable. *)
        match rvth_make_writable rvth_dest errno with
        | (ret, rvth_dest1, errno1) =>
          if negb (ret =? 0) then
            Some (mkCopyResult ret (if ret <? 0 then - ret else EROFS)
                    rvth_dest1 rvth_src)
          else
            (* If no reader is set up for the destination bank, set one
               up now. *)
            let opened :=
              match reader entry_dest0 with
              | Some rd => (Some rd, errno1)
              | None =>
                ReaderPlain.reader_plain_open (f_img rvth_dest1) errno1
                  (lba_start entry_dest0) (lba_len entry_dest0)
              end in
            match opened with
            | (None, errno2) =>
              (* Cannot create a reader... *)
              Some (mkCopyResult ret (errno_or errno2 EIO) rvth_dest1 rvth_src)
            | (Some rd_dest, errno2) =>
              (* Copy the bank table information. *)
              let entry_dest1 :=
                copy_bank_info now entry_src entry_dest0 (lba_len entry_src) in
              let entry_dest :=
                {| reader := Some rd_dest;
                   lba_start := lba_start entry_dest1;
                   lba_len := lba_len entry_dest1;
                   timestamp := timestamp entry_dest1;
                   type := type entry_dest1;
                   region_code := region_code entry_dest1;
                   is_deleted := is_deleted entry_dest1;
                   crypto_type := crypto_type entry_dest1;
                   ios_version := ios_version entry_dest1;
                   ticket := ticket entry_dest1; tmd := tmd entry_dest1;
                   discHeader := discHeader entry_dest1;
                   ptbl := ptbl entry_dest1 |} in
              let lba_copy_len := lba_len entry_src in
              let state :=
                mkProgress RVTH_PROGRESS_IMPORT bank_dest bank_src 0
                  lba_copy_len in
              rd_src ← reader entry_src;
              let finish (cancelled : bool) (st : CopyState) (written : bool) :=
                let rvth_dest2 :=
                  set_entry rvth_dest1 (Z.to_nat bank_dest) entry_dest
                    (cs_dst st) in
                Some {| c_ret := 0;
                        c_errno := if cancelled then ECANCELED else cs_errno st;
                        c_dest :=
                          if written then rvth_write_BankEntry rvth_dest2 bank_dest
                          else rvth_dest2;
                        c_src := set_file rvth_src (cs_src st) |} in
              let lba_buf_max :=
                Z.land (lba_len entry_dest) (u32 (Z.lnot (LBA_COUNT_BUF - 1))) in
              let st0 :=
                mkCopyState (f_img rvth_src) (f_img rvth_dest1) errno2
                  (malloc_buf heap) 0 in
              match hdd_chunks rd_src rd_dest state
                      (loop_trips lba_buf_max LBA_COUNT_BUF) 0 st0 with
              | None => None
              | Some (true, _, st1) => finish true st1 false
              | Some (false, lba_count, st1) =>
                (* Process any remaining LBAs. *)
                let rest :=
                  if lba_count <? lba_copy_len then
                    let lba_left := lba_copy_len - lba_count in
                    match buf_read rd_src st1 lba_count lba_left with
                    | None => None
                    | Some st' =>
                      Some (buf_write rd_dest st' 0 lba_count lba_left)
                    end
                  else Some st1 in
                match rest with
                | None => None
                | Some st2 =>
                  if callback_stops callback state lba_copy_len then
                    finish true st2 false
                  else
                    (* Flush the buffers.  Update the bank table. *)
                    finish false st2 true
                end
              end
            end
        end
      end
    end.

(** The test of [rvth_import] after a copy that returned 0: "Retail or
    Korean encryption, or invalid signature.  Convert to Debug." *)
Definition import_needs_debug (entry : RvtH_BankEntry) : bool :=
  (bool_decide (type entry = RVTH_BankType_Wii_SL)
   || bool_decide (type entry = RVTH_BankType_Wii_DL))
  && (bool_decide (crypto_type entry = RVTH_CryptoType_Retail)
      || bool_decide (crypto_type entry = RVTH_CryptoType_Korean)
      || negb (bool_decide (sig_status (ticket entry) = RVTH_SigStatus_OK))
      || negb (bool_decide (sig_status (tmd entry) = RVTH_SigStatus_OK))).

(** What [rvth_import] leaves. *)
Record ImportResult : Type := mkImportResult {
  i_ret   : Z;
  i_errno : Z;
  i_rvth  : RvtH
}.

(** [rvth_import], from the result of [rvth_open] on the source file:
    the object ([None]: NULL), the error code stored through [&ret] and
    [errno]. *)
Definition rvth_import (rvth : RvtH) (bank : Z)
    (opened : option RvtH * Z * Z) (errno : Z) : option ImportResult :=
  if bank_count rvth <=? bank then
    (* Bank number is out of range. *)
    Some (mkImportResult (- ERANGE) ERANGE rvth)
  else
    match opened with
    | (None, ret, errno1) =>
      (* Error opening the standalone disc image. *)
      Some (mkImportResult (if ret =? 0 then - EIO else ret) errno1 rvth)
    | (Some rvth_src, _, errno1) =>
      if is_hdd rvth_src || (1 <? bank_count rvth_src) then
        (* Not a standalone disc image. *)
        Some (mkImportResult RVTH_ERROR_IS_HDD_IMAGE EINVAL rvth)
      else if bank_count rvth_src =? 0 then
        (* Unrecognized file format. *)
        Some (mkImportResult RVTH_ERROR_NO_BANKS EINVAL rvth)
      else
        (* Copy the bank from the source GCM to the HDD. *)
        rvth_copy_to_hdd rvth bank rvth_src 0 errno1 ≫= fun c =>
        if c_ret c =? 0 then
          (* Must convert to debug realsigned for use on RVT-H. *)
          match rvth_get_BankEntry (Some (c_dest c)) bank None (c_errno c) with
          | (entry, _, errno2) =>
            needs_debug ←
              match entry return option bool with
              | Some idx => import_needs_debug <$> entries (c_dest c) !! idx
              | None => Some false
              end;
            match
              (if needs_debug : bool then
                 (* Retail or Korean encryption, or invalid signature.
                    Convert to Debug. *)
                 rvth_recrypt_partitions (c_dest c) bank
                   (crypto_type_ord RVTH_CryptoType_Debug) callback errno2
               else
                 (* No recryption needed: write the identifier to indicate
                    that this bank was imported. *)
                 rvth_recrypt_id (c_dest c) bank errno2)
            with
            | (ret, rvth', errno3) => Some (mkImportResult ret errno3 rvth')
            end
          end
        else Some (mkImportResult (c_ret c) (c_errno c) (c_dest c))
    end.

End ImportEngine.

(** ** Concrete inputs for the examples *)

(** A sector holding the given bytes, zero-padded to 512 bytes. *)
Definition sector_of (l : list byte) : Sector :=
  l ++ repeat x00 (Z.to_nat LBA_SIZE - length l).

(** An empty 100-LBA stream and a reader over all of it. *)
Definition file_100 : RefFile :=
  {| f_data := ∅; f_size := 100 * 512; f_pos := 0; f_device := false |}.

Definition reader_100 : Reader := mkReader 0 100 RVTH_ImageType_GCM.

Definition sector_A : Sector := sector_of [x41].
Definition sector_B : Sector := sector_of [x42].

(** An object with eight zeroed entries. *)
Definition rvth_8 : RvtH :=
  {| f_img := file_100; is_hdd := true; bank_count := 8;
     entries := repeat BankEntry_zero 8 |}.

(** Big-endian bytes of a 32-bit value. *)
Definition byte_of_Z (x : Z) : byte :=
  default x00 (Byte.of_N (Z.to_N (x mod 256))).

Definition be32_bytes (x : Z) : list byte :=
  [byte_of_Z (x / 2 ^ 24); byte_of_Z (x / 2 ^ 16); byte_of_Z (x / 2 ^ 8);
   byte_of_Z x].

(** A bank table header with the given magic and bank count, and a bank
    table entry with the given type tag and LBAs, in [rvth_layout]. *)
Definition nhcd_header (magic count : Z) : Sector :=
  sector_of (be32_bytes magic ++ be32_bytes 1 ++ be32_bytes count).

Definition nhcd_entry (tag start len : Z) : Sector :=
  sector_of (be32_bytes tag ++ repeat x30 28 ++ be32_bytes start
             ++ be32_bytes len).

(** An HDD image of eight banks' size with the given bank table. *)
Definition hdd_image (hdr : Sector) (ents : list Sector) : RefFile :=
  {| f_data := store_range ∅ 0x300000 (hdr :: ents);
     f_size := LBA_TO_BYTES (0x300009 + 8 * 0x8C4A00);
     f_pos := 0; f_device := false |}.

(** An initializer for the examples that stores what the table parser
    hands it ([bank_init.c] is not among the sources). *)
Definition init_from_table (e : RvtH_BankEntry) (f : RefFile) (errno : Z)
    (t : RvtH_BankType_e) (start len : Z) (ts : list byte)
    : RvtH_BankEntry * RefFile * Z :=
  ({| reader := reader e; lba_start := start; lba_len := len;
      timestamp := -1; type := t; region_code := region_code e;
      is_deleted := false; crypto_type := crypto_type e;
      ios_version := ios_version e; ticket := ticket e; tmd := tmd e;
      discHeader := discHeader e; ptbl := ptbl e |}, f, errno).

Definition empty_entries (n : nat) : list Sector :=
  repeat (nhcd_entry 0 0 0) n.

(** A table whose magic is wrong; one with seven banks; one whose last
    slot holds a dual-layer image; one with a dual-layer image in the
    first two slots. *)
Definition hdd_bad_magic : RefFile :=
  hdd_image (nhcd_header 0x4E484345 8) (empty_entries 8).

Definition hdd_seven_banks : RefFile :=
  hdd_image (nhcd_header NHCD_BANKTABLE_MAGIC 7) (empty_entries 7).

(** A table whose header gives a bank count of 0. *)
Definition hdd_no_banks : RefFile :=
  hdd_image (nhcd_header NHCD_BANKTABLE_MAGIC 0) [].

Definition hdd_DL_last : RefFile :=
  hdd_image (nhcd_header NHCD_BANKTABLE_MAGIC 8)
    (empty_entries 7 ++ [nhcd_entry 0x4E4E324C 0x4060609 0x8C4A00]).

Definition hdd_DL_first : RefFile :=
  hdd_image (nhcd_header NHCD_BANKTABLE_MAGIC 8)
    (nhcd_entry 0x4E4E324C 0x300009 0x1000000 :: empty_entries 7).

(** I2 of the specification: an entry of type [Wii_DL] is followed by the
    entry the parser makes for the second bank. *)
Definition DL_followed (ents : list RvtH_BankEntry) : Prop :=
  forall (i : nat) (e : RvtH_BankEntry),
    ents !! i = Some e -> type e = RVTH_BankType_Wii_DL ->
    ents !! S i = Some BankEntry_DL_Bank2.

(** The same for the entries that have a successor. *)
Definition DL_followed_within (ents : list RvtH_BankEntry) : Prop :=
  forall (i : nat) (e : RvtH_BankEntry),
    ents !! i = Some e -> type e = RVTH_BankType_Wii_DL ->
    (S i < length ents)%nat ->
    ents !! S i = Some BankEntry_DL_Bank2.

(** *** Inputs for the copy engine *)

(** A GameCube disc header (game ID "GTST", GCN magic at 0x1C) and a Wii
    one (Wii magic at 0x18). *)
Definition gcn_header : Sector :=
  sector_of ([x47; x54; x53; x54] ++ repeat x00 24 ++ be32_bytes GCN_MAGIC).

Definition wii_header : Sector :=
  sector_of ([x52; x54; x53; x54] ++ repeat x00 20 ++ be32_bytes WII_MAGIC).

(** The first sector of a bank after the device's "Flush": the game ID is
    there, the magic numbers are zeroed. *)
Definition flushed_header : Sector := sector_of [x47; x54; x53; x54].

(** A stream holding the given sectors from LBA 0 on. *)
Definition file_of (l : list Sector) : RefFile :=
  {| f_data := store_range ∅ 0 l;
     f_size := LBA_TO_BYTES (Z.of_nat (length l));
     f_pos := 0; f_device := false |}.

(** The stream of a file just created: empty. *)
Definition new_file : RefFile :=
  {| f_data := ∅; f_size := 0; f_pos := 0; f_device := false |}.

(** A bank entry of the given type over LBAs [0, len) with a reader. *)
Definition bank_entry (t : RvtH_BankType_e) (c : RvtH_CryptoType_e)
    (len : Z) (hdr : Sector) : RvtH_BankEntry :=
  {| reader := Some (mkReader 0 len RVTH_ImageType_GCM);
     lba_start := 0; lba_len := len; timestamp := -1; type := t;
     region_code := 0; is_deleted := false; crypto_type := c;
     ios_version := 0;
     ticket := mkSigInfo RVTH_SigType_Debug RVTH_SigStatus_OK;
     tmd := mkSigInfo RVTH_SigType_Debug RVTH_SigStatus_OK;
     discHeader := hdr; ptbl := None |}.

(** A standalone image over a stream, and the empty image
    [rvth_create_gcm] makes for [len] LBAs. *)
Definition standalone (f : RefFile) (e : RvtH_BankEntry) : RvtH :=
  {| f_img := f; is_hdd := false; bank_count := 1; entries := [e] |}.

Definition created_gcm (len : Z) : RvtH :=
  standalone new_file
    (bank_entry RVTH_BankType_Empty RVTH_CryptoType_Unknown len zero_sector).

(** Memory that happens to be zero. *)
Definition zero_heap : nat -> Sector := fun _ => zero_sector.

(** A three-LBA GameCube image: the header and two sectors of data. *)
Definition gcn_3 : RvtH :=
  standalone (file_of [gcn_header; sector_A; sector_B])
    (bank_entry RVTH_BankType_GCN RVTH_CryptoType_None 3 gcn_header).

(** A 1024-LBA GameCube image with data in its first three sectors. *)
Definition gcn_1024 : RvtH :=
  standalone
    {| f_data := store_range ∅ 0 [gcn_header; sector_A; sector_B];
       f_size := LBA_TO_BYTES 1024; f_pos := 0; f_device := false |}
    (bank_entry RVTH_BankType_GCN RVTH_CryptoType_None 1024 gcn_header).

(** A 2051-LBA GameCube image: data in the first three sectors and in the
    three sectors after the first megabyte. *)
Definition gcn_2051 : RvtH :=
  standalone
    {| f_data :=
         store_range (store_range ∅ 0 [gcn_header; sector_A; sector_B])
           2048 [sector_A; sector_B; sector_A];
       f_size := LBA_TO_BYTES 2051; f_pos := 0; f_device := false |}
    (bank_entry RVTH_BankType_GCN RVTH_CryptoType_None 2051 gcn_header).

(** A 1024-LBA bank whose first sector was flushed; the entry still has
    the disc header. *)
Definition flushed_1024 : RvtH :=
  standalone
    {| f_data := store_range ∅ 0 [flushed_header; sector_A; sector_B];
       f_size := LBA_TO_BYTES 1024; f_pos := 0; f_device := false |}
    (bank_entry RVTH_BankType_GCN RVTH_CryptoType_None 1024 gcn_header).

(** The same bank with 2048 LBAs. *)
Definition flushed_2048 : RvtH :=
  standalone
    {| f_data := store_range ∅ 0 [flushed_header; sector_A; sector_B];
       f_size := LBA_TO_BYTES 2048; f_pos := 0; f_device := false |}
    (bank_entry RVTH_BankType_GCN RVTH_CryptoType_None 2048 gcn_header).

(** The sectors [0, n) of the image a copy left. *)
Definition dest_sectors (c : option CopyResult) (n : nat) : list Sector :=
  match c with
  | Some r => file_range (f_img (c_dest r)) 0 n
  | None => []
  end.

(** *** Inputs for extract and import *)

(** Stand-ins for the functions of other translation units.  The two
    recryption entry points leave a trace of having run in the region
    code of the bank ([1]: re-encrypted, [2]: marked as imported). *)
Definition set_region (rvth : RvtH) (bank : Z) (code : Z) : RvtH :=
  {| f_img := f_img rvth; is_hdd := is_hdd rvth;
     bank_count := bank_count rvth;
     entries :=
       alter (fun e =>
                {| reader := reader e; lba_start := lba_start e;
                   lba_len := lba_len e; timestamp := timestamp e;
                   type := type e; region_code := code;
                   is_deleted := is_deleted e; crypto_type := crypto_type e;
                   ios_version := ios_version e; ticket := ticket e;
                   tmd := tmd e; discHeader := discHeader e;
                   ptbl := ptbl e |})
         (Z.to_nat bank) (entries rvth) |}.

Definition ex_recrypt_partitions (rvth : RvtH) (bank key : Z)
    (cb : RvtH_Progress_Callback) (errno : Z) : Z * RvtH * Z :=
  (0, set_region rvth bank 1, errno).

Definition ex_recrypt_id (rvth : RvtH) (bank : Z) (errno : Z) : Z * RvtH * Z :=
  (0, set_region rvth bank 2, errno).

Definition ex_find_game (e : RvtH_BankEntry) : option pt_entry_t :=
  Some (mkPtEntry 0x50000 (lba_len e - 0x50000) 0).

Definition ex_create_gcm (len errno : Z) : option RvtH * Z * Z :=
  (Some (created_gcm len), 0, errno).

Definition ex_doCrypt (d s : RvtH) (bank : Z) (cb : RvtH_Progress_Callback)
    (errno : Z) : option CopyResult :=
  Some (mkCopyResult 0 errno d s).

Definition ex_make_writable (rvth : RvtH) (errno : Z) : Z * RvtH * Z :=
  (0, rvth, errno).

Definition ex_write_BankEntry (rvth : RvtH) (bank : Z) : RvtH := rvth.

(** A callback that always asks to stop. *)
Definition cb_cancel : RvtH_Progress_Callback := Some (fun _ => false).

(** An HDD image with eight banks: all empty; or with a GameCube image in
    bank 2. *)
Definition hdd_bank (t : RvtH_BankType_e) (i : Z) : RvtH_BankEntry :=
  {| reader := None; lba_start := 0x300009 + 0x8C4A00 * i;
     lba_len := 0x8C4A00; timestamp := -1; type := t; region_code := 0;
     is_deleted := false; crypto_type := RVTH_CryptoType_Unknown;
     ios_version := 0;
     ticket := mkSigInfo RVTH_SigType_Unknown RVTH_SigStatus_Unknown;
     tmd := mkSigInfo RVTH_SigType_Unknown RVTH_SigStatus_Unknown;
     discHeader := zero_sector; ptbl := None |}.

Definition hdd_empty : RvtH :=
  {| f_img := hdd_image (nhcd_header NHCD_BANKTABLE_MAGIC 8) (empty_entries 8);
     is_hdd := true; bank_count := 8;
     entries := map (hdd_bank RVTH_BankType_Empty) [0; 1; 2; 3; 4; 5; 6; 7] |}.

Definition hdd_bank2_used : RvtH :=
  {| f_img := f_img hdd_empty; is_hdd := true; bank_count := 8;
     entries := <[2%nat := hdd_bank RVTH_BankType_GCN 2]> (entries hdd_empty) |}.

(** A dual-layer Wii image one LBA longer than two banks. *)
Definition wii_DL_too_big_entry : RvtH_BankEntry :=
  bank_entry RVTH_BankType_Wii_DL RVTH_CryptoType_Debug
    (2 * 0x8C4A00 + 1) wii_header.

Definition wii_DL_too_big : RvtH :=
  standalone (file_of [wii_header]) wii_DL_too_big_entry.

(** Three-LBA Wii images: retail-encrypted, and debug-encrypted with valid
    signatures. *)
Definition wii_retail_3 : RvtH :=
  standalone (file_of [wii_header; sector_A; sector_B])
    (bank_entry RVTH_BankType_Wii_SL RVTH_CryptoType_Retail 3 wii_header).

Definition wii_debug_3 : RvtH :=
  standalone (file_of [wii_header; sector_A; sector_B])
    (bank_entry RVTH_BankType_Wii_SL RVTH_CryptoType_Debug 3 wii_header).

(** A 2048-LBA retail Wii image. *)
Definition wii_retail_2048 : RvtH :=
  standalone
    {| f_data := store_range ∅ 0 [wii_header; sector_A; sector_B];
       f_size := LBA_TO_BYTES 2048; f_pos := 0; f_device := false |}
    (bank_entry RVTH_BankType_Wii_SL RVTH_CryptoType_Retail 2048 wii_header).

(** *** The formula of the specification for the converted length *)

(** The ceiling of [a / b] for a positive [b]. *)
Definition ceil_div (a b : Z) : Z := - ((- a) / b).

(** [raw = lba_len - ceil(0x8000/LBA)];
    [data_out = ceil(raw/3968) * 4096];
    [total = data_out + ceil(0x20000/LBA) + lba_start]. *)
Definition spec_unenc_to_enc_len (game_lba_len game_lba_start : Z) : Z :=
  let raw := game_lba_len - ceil_div 0x8000 LBA_SIZE in
  let data_out := ceil_div raw 3968 * 4096 in
  data_out + ceil_div 0x20000 LBA_SIZE + game_lba_start.

(** *** The post-import policy of the specification *)

(** "The imported disc is Wii and encryption is retail/Korean or
    signatures are invalid". *)
Definition spec_needs_debug (entry : RvtH_BankEntry) : Prop :=
  (type entry = RVTH_BankType_Wii_SL \/ type entry = RVTH_BankType_Wii_DL)
  /\ (crypto_type entry = RVTH_CryptoType_Retail
      \/ crypto_type entry = RVTH_CryptoType_Korean
      \/ sig_status (ticket entry) <> RVTH_SigStatus_OK
      \/ sig_status (tmd entry) <> RVTH_SigStatus_OK).

(** The result [rvth_import] makes of what a recryption function
    returned. *)
Definition import_result_of (r : Z * RvtH * Z) : ImportResult :=
  match r with
  | (ret, rvth, errno) => mkImportResult ret errno rvth
  end.

(** An HDD image whose banks 1 and 2 both hold a GameCube image. *)
Definition hdd_banks12_used : RvtH :=
  {| f_img := f_img hdd_empty; is_hdd := true; bank_count := 8;
     entries :=
       <[1%nat := hdd_bank RVTH_BankType_GCN 1]>
         (<[2%nat := hdd_bank RVTH_BankType_GCN 2]> (entries hdd_empty)) |}.

(** A dual-layer Wii image that fits two banks. *)
Definition wii_DL_3 : RvtH :=
  standalone (file_of [wii_header; sector_A; sector_B])
    (bank_entry RVTH_BankType_Wii_DL RVTH_CryptoType_Debug 3 wii_header).

(** An unencrypted Wii bank and a game partition cut short to 32 LBAs. *)
Definition wii_unenc : RvtH_BankEntry :=
  bank_entry RVTH_BankType_Wii_SL RVTH_CryptoType_None 0x8C4A00 wii_header.

Definition short_game_partition (e : RvtH_BankEntry) : option pt_entry_t :=
  Some (mkPtEntry 0x50000 32 0).

(** *** The bank as an extract sees it *)

(** The first sector of the bank carries one of the two magic numbers. *)
Definition has_magic (L : Layout) (s : Sector) : bool :=
  (be32_at s (magic_wii_off L) =? WII_MAGIC)
  || (be32_at s (magic_gcn_off L) =? GCN_MAGIC).

(** LBA [i] of the bank whose window starts at [s0]: the sector of the
    stream, but for LBA 0 of a bank without magic, which is the cached
    disc header copied over that sector. *)
Definition extracted_lba (L : Layout) (entry_src : RvtH_BankEntry)
    (f_src : RefFile) (s0 i : Z) : Sector :=
  if (i =? 0) && negb (has_magic L (file_lba f_src s0))
  then memcpy_sector (discHeader entry_src) (file_lba f_src s0)
  else file_lba f_src (s0 + i).

(** Every sector the stream holds has 512 bytes. *)
Definition file_wf (f : RefFile) : Prop :=
  map_Forall (fun _ (s : Sector) => length s = 512%nat) (f_data f).

(** What the copy loop of [rvth_copy_to_gcm] keeps once the first [m]
    LBAs are done: they are in the destination, nothing is stored past
    them, [lba_nonsparse] is below [m] and differs from [m - 1] only when
    that sector is zero, and the source is only read. *)
Record copy_inv (img : Z -> Sector) (n : Z) (src0 : RefFile) (m : Z)
    (st : CopyState) : Prop := mkCopyInv {
  inv_copied : forall i, 0 <= i < m -> file_lba (cs_dst st) i = img i;
  inv_fresh : forall j, m <= j -> f_data (cs_dst st) !! j = None;
  inv_nonsparse_range : 0 <= cs_nonsparse st /\ cs_nonsparse st <= m - 1 \/ cs_nonsparse st = 0;
  inv_nonsparse_zero :
    8 <= m -> cs_nonsparse st <> m - 1 -> img (m - 1) = zero_sector;
  inv_size : f_size (cs_dst st) = n * 512;
  inv_src_data : f_data (cs_src st) = f_data src0;
  inv_src_size : f_size (cs_src st) = f_size src0;
  inv_buf : length (cs_buf st) = 2048%nat
}.

(** After the whole chunks: the first [M] LBAs are in place, nothing is
    stored strictly between LBA [M] and the last LBA, the file has its
    final length and the buffer is there. *)
Definition prefix_ok (img : Z -> Sector) (n M : Z) (st : CopyState) : Prop :=
  (forall i, 0 <= i < M -> file_lba (cs_dst st) i = img i)
  /\ (forall j, M < j < n - 1 -> f_data (cs_dst st) !! j = None)
  /\ f_size (cs_dst st) = n * 512
  /\ (1 <= length (cs_buf st))%nat.

(** What an extract without recryption starts from: a bank of [n] LBAs
    of an extractable type whose window lies inside a well-formed stream,
    and a new standalone image of the same length. *)
Record extract_ready (rvth_dest rvth_src : RvtH) (bank_src n : Z)
    (entry_src : RvtH_BankEntry) (rd_src : Reader) : Prop := mkExtractReady {
  er_n : 0 < n < 2 ^ 32;
  er_bank : 0 <= bank_src < bank_count rvth_src;
  er_entry : entries rvth_src !! Z.to_nat bank_src = Some entry_src;
  er_type : check_src_type (type entry_src) = None;
  er_len : lba_len entry_src = n;
  er_reader : reader entry_src = Some rd_src;
  er_window : r_lba_len rd_src = n /\ 0 <= r_lba_start rd_src
              /\ r_lba_start rd_src + n < 2 ^ 32;
  er_stream : (r_lba_start rd_src + n) * 512 <= f_size (f_img rvth_src);
  er_wf : file_wf (f_img rvth_src);
  er_header : (length (discHeader entry_src) <= 512)%nat;
  er_standalone : is_hdd rvth_dest = false /\ bank_count rvth_dest = 1;
  er_new : f_data (f_img rvth_dest) = ∅;
  er_dest :
    exists entry_dest t,
      entries rvth_dest !! 0%nat = Some entry_dest
      /\ lba_len entry_dest = n
      /\ reader entry_dest = Some (mkReader 0 n t)
}.

(** The entry and the reader of the 2051-LBA GameCube image. *)
Definition gcn_2051_entry : RvtH_BankEntry :=
  bank_entry RVTH_BankType_GCN RVTH_CryptoType_None 2051 gcn_header.

Definition gcn_2051_reader : Reader := mkReader 0 2051 RVTH_ImageType_GCM.

(** ** Error descriptions ([rvth_error] of [rvth.c]) *)

From Stdlib Require String.
Import String.StringSyntax.
Delimit Scope string_scope with string.

(** The table [errtbl] of [rvth_error], one description per
    [RvtH_Errors] code. *)
Definition errtbl : list String.string :=
  [ "Success";
    "Unrecognized file format";
    "Bank table magic is incorrect";
    "No banks found";
    "Bank status is unknown";
    "Bank is empty";
    "Bank is second bank of a dual-layer image";
    "Operation can only be performed on a device, not an image file";
    "Bank is deleted";
    "Bank is not deleted";
    "RVT-H object is not an HDD image";
    "Wii game partition not found";
    "RVT-H bank count field is invalid";
    "Operation cannot be performed on devices or HDD images";
    "Cannot import a retail-encrypted Wii game";
    "Source image does not fit in an RVT-H bank";
    "Destination bank is not empty or deleted";
    "Wii-specific operation was requested on a non-Wii image";
    "Image is unencrypted";
    "Image is encrypted";
    "Wii partition table is corrupted";
    "At least one Wii partition header is corrupted";
    "Certificate has an unknown issuer";
    "Extended Bank Table: Cannot use Bank 1 for a Dual-Layer image.";
    "Cannot use the last bank for a Dual-Layer image";
    "The second bank for the Dual-Layer image is not empty or deleted";
    "The two banks are not contiguous";
    "NDEV headers for GCN are currently unsupported." ]%string.

Section ErrorDescription.

(** [strerror] of the C library. *)
Variable strerror : Z -> String.string.

(** [rvth_error]: negative codes are POSIX errors, the others index
    [errtbl]. *)
Definition rvth_error (err : Z) : String.string :=
  if err <? 0 then strerror (- err)
  else if Z.of_nat (length errtbl) <=? err then "(unknown)"%string
  else nth (Z.to_nat err) errtbl "(unknown)"%string.

End ErrorDescription.

(** ** Opening an image: what the initializers of [bank_init.c] keep *)

(** An initializer that fills in fields of a bank entry (region code,
    encryption status) without changing its type, its window or its
    reader. *)
Definition keeps_bank_window
    (init : RvtH_BankEntry -> RefFile -> RvtH_BankEntry * RefFile) : Prop :=
  forall (e : RvtH_BankEntry) (f : RefFile),
    type (fst (init e f)) = type e
    /\ lba_start (fst (init e f)) = lba_start e
    /\ lba_len (fst (init e f)) = lba_len e
    /\ reader (fst (init e f)) = reader e.

(** The type [rvth_open_gcm] gives a standalone image of [len] LBAs whose
    header is identified as [t]: a Wii image longer than a single-layer
    disc is dual-layer. *)
Definition gcm_bank_type (L : Layout) (t : RvtH_BankType_e) (len : Z)
    : RvtH_BankType_e :=
  if bool_decide (t = RVTH_BankType_Wii_SL)
     && (NHCD_BANK_WII_SL_SIZE_RVTR_LBA L <? len)
  then RVTH_BankType_Wii_DL else t.

(** A standalone Wii image of 0x8C1201 LBAs, one more than a single-layer
    disc holds, and initializers for the examples. *)
Definition wii_long_file : RefFile :=
  {| f_data := store_range ∅ 0 [wii_header];
     f_size := LBA_TO_BYTES 0x8C1201; f_pos := 0; f_device := false |}.

Definition identify_by_magic (s : Sector) : RvtH_BankType_e :=
  if be32_at s 24 =? WII_MAGIC then RVTH_BankType_Wii_SL
  else if be32_at s 28 =? GCN_MAGIC then RVTH_BankType_GCN
  else RVTH_BankType_Unknown.

Definition init_nothing (e : RvtH_BankEntry) (f : RefFile)
    : RvtH_BankEntry * RefFile := (e, f).

(** ** Import: the state a copy to an HDD bank starts from *)

(** The checks of [rvth_copy_to_hdd] have passed, the destination was
    made writable ([rvth_w] is the object afterwards) and a reader
    [rd_dest] is there for the destination bank: the one of the entry,
    or the one opened over the window of the entry.  Neither its window
    nor the LBAs of the source bank counted from its start wrap around
    32 bits. *)
Record import_started (L : Layout)
    (make_writable : RvtH -> Z -> Z * RvtH * Z)
    (rvth_dest rvth_src : RvtH) (bank_dest bank_src errno : Z)
    (entry_src entry_dest : RvtH_BankEntry) (rd_src rd_dest : Reader)
    (rvth_w : RvtH) : Prop := mkImportStarted {
  ist_bank_src : 0 <= bank_src < bank_count rvth_src;
  ist_bank_dest : 0 <= bank_dest < bank_count rvth_dest;
  ist_hdd : is_hdd rvth_dest = true;
  ist_entry_src : entries rvth_src !! Z.to_nat bank_src = Some entry_src;
  ist_type : check_src_type (type entry_src) = None;
  ist_len : 0 <= lba_len entry_src < 2 ^ 32;
  ist_reader_src : reader entry_src = Some rd_src;
  ist_entry_dest : entries rvth_dest !! Z.to_nat bank_dest = Some entry_dest;
  ist_checks :
    import_checks L rvth_dest bank_dest entry_src entry_dest = Some None;
  ist_writable :
    exists errno1,
      make_writable rvth_dest errno = (0, rvth_w, errno1)
      /\ (reader entry_dest = Some rd_dest
          \/ reader entry_dest = None
             /\ fst (ReaderPlain.reader_plain_open (f_img rvth_w) errno1
                       (lba_start entry_dest) (lba_len entry_dest))
                = Some rd_dest);
  ist_window :
    0 <= r_lba_start rd_dest /\ 0 <= r_lba_len rd_dest
    /\ r_lba_start rd_dest + r_lba_len rd_dest < 2 ^ 32
    /\ r_lba_start rd_dest + lba_len entry_src < 2 ^ 32
}.

(** Moreover the source bank has [n] LBAs, all of them inside its stream
    and inside the window of its reader, and the window of the
    destination reader has room for them. *)
Record import_ready (rvth_src : RvtH) (n : Z) (entry_src : RvtH_BankEntry)
    (rd_src rd_dest : Reader) : Prop := mkImportReady {
  ir_len : lba_len entry_src = n /\ 0 < n;
  ir_window_src :
    r_lba_len rd_src = n /\ 0 <= r_lba_start rd_src
    /\ r_lba_start rd_src + n < 2 ^ 32;
  ir_stream : (r_lba_start rd_src + n) * 512 <= f_size (f_img rvth_src);
  ir_room : n <= r_lba_len rd_dest
}.

(** What the loop of [rvth_copy_to_hdd] keeps once the first [m] LBAs
    are done: they are in the destination bank, the rest of the
    destination stream is as it was ([d0]), the source is only read and
    the buffer keeps its size. *)
Record import_inv (src0 : RefFile) (d0 : gmap Z Sector) (ss sd m : Z)
    (st : CopyState) : Prop := mkImportInv {
  ii_copied :
    forall i, 0 <= i < m ->
      file_lba (cs_dst st) (sd + i) = file_lba src0 (ss + i);
  ii_frame :
    forall j, ~ (sd <= j < sd + m) -> f_data (cs_dst st) !! j = d0 !! j;
  ii_src_data : f_data (cs_src st) = f_data src0;
  ii_src_size : f_size (cs_src st) = f_size src0;
  ii_buf : length (cs_buf st) = 2048%nat
}.

(** An HDD image whose banks have a reader, and a 2051-LBA GameCube
    image to import. *)
Definition hdd_bank_reader (i : Z) : RvtH_BankEntry :=
  {| reader := Some (mkReader (0x300009 + 0x8C4A00 * i) 0x8C4A00
                       RVTH_ImageType_HDD_Image);
     lba_start := 0x300009 + 0x8C4A00 * i;
     lba_len := 0x8C4A00; timestamp := -1; type := RVTH_BankType_Empty;
     region_code := 0; is_deleted := false;
     crypto_type := RVTH_CryptoType_Unknown; ios_version := 0;
     ticket := mkSigInfo RVTH_SigType_Unknown RVTH_SigStatus_Unknown;
     tmd := mkSigInfo RVTH_SigType_Unknown RVTH_SigStatus_Unknown;
     discHeader := zero_sector; ptbl := None |}.

Definition hdd_readers : RvtH :=
  {| f_img := f_img hdd_empty; is_hdd := true; bank_count := 8;
     entries := map hdd_bank_reader [0; 1; 2; 3; 4; 5; 6; 7] |}.

(** ** Extract: the state a copy to a standalone image starts from *)

(** The sectors of a stream outside the window of a reader are those of
    [d0]. *)
Definition window_frame (rd : Reader) (d0 : gmap Z Sector) (f : RefFile)
    : Prop :=
  forall j,
    ~ (r_lba_start rd <= j < r_lba_start rd + r_lba_len rd) ->
    f_data f !! j = d0 !! j.

(** The checks of [rvth_copy_to_gcm] have passed and both banks have a
    reader; the window of the destination reader does not wrap around 32
    bits, nor does any LBA the copy may ask for; the destination entry
    is at least as long as the source bank, so that what is left after
    the whole chunks of the destination fits the 1 MB block. *)
Record extract_started (rvth_dest rvth_src : RvtH) (bank_src : Z)
    (entry_src entry_dest : RvtH_BankEntry) (rd_src rd_dest : Reader)
    : Prop := mkExtractStarted {
  es_bank : 0 <= bank_src < bank_count rvth_src;
  es_standalone : is_hdd rvth_dest = false /\ bank_count rvth_dest = 1;
  es_entry_src : entries rvth_src !! Z.to_nat bank_src = Some entry_src;
  es_type : check_src_type (type entry_src) = None;
  es_reader_src : reader entry_src = Some rd_src;
  es_entry_dest : entries rvth_dest !! 0%nat = Some entry_dest;
  es_reader_dest : reader entry_dest = Some rd_dest;
  es_len : 0 < lba_len entry_src /\ 0 <= lba_len entry_dest;
  es_fits : lba_len entry_src <= lba_len entry_dest;
  es_window :
    0 <= r_lba_start rd_dest /\ 0 <= r_lba_len rd_dest
    /\ r_lba_start rd_dest + r_lba_len rd_dest < 2 ^ 32;
  es_nowrap :
    r_lba_start rd_dest + lba_len entry_dest + lba_len entry_src < 2 ^ 32
}.

(** A callback that asks to stop when [lba] LBAs have been processed. *)
Definition cb_stop_at (lba : Z) : RvtH_Progress_Callback :=
  Some (fun s => negb (ps_lba_processed s =? lba)).

(** The stream after [makeSparse(size)]. *)
Definition sparse_data (f : RefFile) (size : Z) : gmap Z Sector :=
  f_data (snd (ref_makeSparse f size)).

(** ** Extract with an SDK header *)




(** An Empty bank of three LBAs. *)
Definition empty_3 : RvtH :=
  standalone (file_of [zero_sector; zero_sector; zero_sector])
    (bank_entry RVTH_BankType_Empty RVTH_CryptoType_Unknown 3 zero_sector).

(** ** The bank table: what the parser takes from the slot of a bank *)

(** The on-disk entry of bank slot [i]: the sector after the header of
    the bank table and the entries of the slots before it. *)
Definition nhcd_slot (L : Layout) (f : RefFile) (i : Z) : Sector :=
  file_lba f (NHCD_BANKTABLE_ADDRESS_LBA L + 1 + i).

Definition slot_type (L : Layout) (f : RefFile) (i : Z) : RvtH_BankType_e :=
  nhcd_type_to_rvth L (be32_at (nhcd_slot L f i) (ent_type_off L)).

(** The window listed in the slot is used: the type is a valid one and
    neither the start LBA nor the length is zero. *)
Definition slot_listed (L : Layout) (f : RefFile) (i : Z) : bool :=
  (bank_type_ord RVTH_BankType_GCN <=? bank_type_ord (slot_type L f i))
  && negb (be32_at (nhcd_slot L f i) (ent_lba_start_off L) =? 0)
  && negb (be32_at (nhcd_slot L f i) (ent_lba_len_off L) =? 0).

Definition slot_lba_start (L : Layout) (f : RefFile) (i count : Z) : Z :=
  if slot_listed L f i then be32_at (nhcd_slot L f i) (ent_lba_start_off L)
  else u32 (NHCD_BANK_START_LBA L i count).

Definition slot_lba_len (L : Layout) (f : RefFile) (i : Z) : Z :=
  if slot_listed L f i then be32_at (nhcd_slot L f i) (ent_lba_len_off L)
  else 0.

(** An initializer that reads the stream without changing its contents
    or its length. *)
Definition init_reads_only
    (init : RvtH_BankEntry -> RefFile -> Z -> RvtH_BankType_e -> Z -> Z ->
            list byte -> RvtH_BankEntry * RefFile * Z) : Prop :=
  forall e f errno t s l ts,
    f_data (snd (fst (init e f errno t s l ts))) = f_data f
    /\ f_size (snd (fst (init e f errno t s l ts))) = f_size f.

(** Entry [k] of a parsed table: the zeroed second bank of the
    dual-layer entry before it, or the zeroed entry initialized with
    what slot [k] of the stream [f] holds. *)
Definition slot_parsed (L : Layout)
    (init : RvtH_BankEntry -> RefFile -> Z -> RvtH_BankType_e -> Z -> Z ->
            list byte -> RvtH_BankEntry * RefFile * Z)
    (f : RefFile) (count : Z) (ents : list RvtH_BankEntry) (k : nat)
    (e : RvtH_BankEntry) : Prop :=
  ((0 < k)%nat
   /\ (exists p, ents !! (k - 1)%nat = Some p /\ type p = RVTH_BankType_Wii_DL)
   /\ e = BankEntry_DL_Bank2)
  \/ exists g errno,
       e = fst (fst (init BankEntry_zero g errno
                       (slot_type L f (Z.of_nat k))
                       (slot_lba_start L f (Z.of_nat k) count)
                       (slot_lba_len L f (Z.of_nat k))
                       (take 14 (drop (ent_timestamp_off L)
                                   (nhcd_slot L f (Z.of_nat k)))))).

(** An HDD image whose banks have neither a reader nor a length. *)
Definition hdd_bank_unsized (i : Z) : RvtH_BankEntry :=
  {| reader := None; lba_start := 0x300009 + 0x8C4A00 * i;
     lba_len := 0; timestamp := -1; type := RVTH_BankType_Empty;
     region_code := 0; is_deleted := false;
     crypto_type := RVTH_CryptoType_Unknown; ios_version := 0;
     ticket := mkSigInfo RVTH_SigType_Unknown RVTH_SigStatus_Unknown;
     tmd := mkSigInfo RVTH_SigType_Unknown RVTH_SigStatus_Unknown;
     discHeader := zero_sector; ptbl := None |}.

Definition hdd_unsized : RvtH :=
  {| f_img := f_img hdd_empty; is_hdd := true; bank_count := 8;
     entries := map hdd_bank_unsized [0; 1; 2; 3; 4; 5; 6; 7] |}.

(** * Properties *)

(** ** Machine integers *)

Lemma u32_small (x : Z) : is_u32 x -> u32 x = x.
Proof. intros H. unfold u32. apply Z.mod_small. exact H. Qed.

Lemma u32_range (x : Z) : is_u32 (u32 x).
Proof. unfold is_u32, u32. apply Z.mod_pos_bound. lia. Qed.

(** Closed goals about concrete inputs are settled by evaluation, one
    conjunct at a time. *)
Ltac by_evaluation :=
  cbv zeta;
  repeat match goal with |- _ /\ _ => apply conj end;
  first [ vm_compute; reflexivity | vm_compute; discriminate ].

(** ** Reader bounds ([reader_plain.cpp]) *)

Section ReaderBounds.

Variable rd : Reader.
Variable f : RefFile.
Variable errno : Z.
Variables lba_rel n : Z.

(** The window and the request fit 32 bits, so no sum of the check wraps. *)
Hypothesis Hwin : 0 <= r_lba_start rd /\ 0 <= r_lba_len rd
                  /\ r_lba_start rd + r_lba_len rd < 2 ^ 32.
Hypothesis Hreq : 0 <= lba_rel /\ 0 <= n
                  /\ r_lba_start rd + lba_rel + n < 2 ^ 32.

Lemma abs_lba_nowrap :
  ReaderPlain.abs_lba rd lba_rel = r_lba_start rd + lba_rel.
Proof.
  unfold ReaderPlain.abs_lba, u32_add. rewrite u32_small; [lia|].
  unfold is_u32. lia.
Qed.

Lemma out_of_range_nowrap :
  ReaderPlain.out_of_range rd lba_rel n = (r_lba_len rd <? lba_rel + n).
Proof.
  unfold ReaderPlain.out_of_range. rewrite abs_lba_nowrap.
  unfold u32_add. rewrite !u32_small by (unfold is_u32; lia).
  destruct (Z.ltb_spec (r_lba_start rd + r_lba_len rd)
              (r_lba_start rd + lba_rel + n));
    destruct (Z.ltb_spec (r_lba_len rd) (lba_rel + n)); lia || reflexivity.
Qed.

(** Without wrap-around an out-of-range read transfers nothing and leaves
    the stream as it was. *)
Lemma reader_plain_read_out_of_range :
  r_lba_len rd < lba_rel + n ->
  ReaderPlain.reader_plain_read rd f errno lba_rel n = (0, [], f, EIO).
Proof.
  intros H. unfold ReaderPlain.reader_plain_read.
  rewrite out_of_range_nowrap.
  destruct (Z.ltb_spec (r_lba_len rd) (lba_rel + n)); [reflexivity | lia].
Qed.

Lemma reader_plain_write_out_of_range (ptr : list Sector) :
  r_lba_len rd < lba_rel + n ->
  ReaderPlain.reader_plain_write rd f errno ptr lba_rel n = (0, f, EIO).
Proof.
  intros H. unfold ReaderPlain.reader_plain_write.
  rewrite out_of_range_nowrap.
  destruct (Z.ltb_spec (r_lba_len rd) (lba_rel + n)); [reflexivity | lia].
Qed.

(** An in-range request is carried out at byte offset
    [(lba_start + lba_rel) * 512] of the stream. *)
Lemma reader_plain_read_in_range :
  lba_rel + n <= r_lba_len rd ->
  ReaderPlain.reader_plain_read rd f errno lba_rel n =
  let f1 := file_set_pos f ((r_lba_start rd + lba_rel) * 512) in
  (u32 (fst (fst (ref_read f1 n))), snd (fst (ref_read f1 n)),
   snd (ref_read f1 n), errno).
Proof.
  intros H. unfold ReaderPlain.reader_plain_read.
  rewrite out_of_range_nowrap.
  destruct (Z.ltb_spec (r_lba_len rd) (lba_rel + n)); [lia|].
  rewrite abs_lba_nowrap. unfold ref_seeko, LBA_TO_BYTES, LBA_SIZE.
  destruct (Z.ltb_spec ((r_lba_start rd + lba_rel) * 512) 0); [lia|].
  reflexivity.
Qed.

Lemma reader_plain_write_in_range (ptr : list Sector) :
  lba_rel + n <= r_lba_len rd ->
  ReaderPlain.reader_plain_write rd f errno ptr lba_rel n =
  let f1 := file_set_pos f ((r_lba_start rd + lba_rel) * 512) in
  (u32 (fst (ref_write f1 (take (Z.to_nat n) ptr))),
   snd (ref_write f1 (take (Z.to_nat n) ptr)), errno).
Proof.
  intros H. unfold ReaderPlain.reader_plain_write.
  rewrite out_of_range_nowrap.
  destruct (Z.ltb_spec (r_lba_len rd) (lba_rel + n)); [lia|].
  rewrite abs_lba_nowrap. unfold ref_seeko, LBA_TO_BYTES, LBA_SIZE.
  destruct (Z.ltb_spec ((r_lba_start rd + lba_rel) * 512) 0); [lia|].
  reflexivity.
Qed.

End ReaderBounds.

(** C2 (code defect).  The bounds check of [reader_plain.cpp] is 32-bit
    arithmetic: on the 100-LBA reader the request [lba_rel = 0xFFFFFFFF],
    [n = 2] has [lba_rel + n > lba_len], yet the wrapped sum passes the
    check, two LBAs are reported as written and the stream is written at
    byte offset [0xFFFFFFFF * 512]; the read of the same request also
    passes the check and moves the stream position.  The reader of
    [reader_plain.c] has no check at all: it writes LBA 100 of the
    100-LBA window. *)
Theorem reader_plain_bounds_check_wraps :
  r_lba_len reader_100 < 4294967295 + 2
  /\ fst (fst (ReaderPlain.reader_plain_write reader_100 file_100 0
                 [sector_A; sector_B] 4294967295 2)) = 2
  /\ file_lba (snd (fst (ReaderPlain.reader_plain_write reader_100 file_100 0
                           [sector_A; sector_B] 4294967295 2)))
       4294967295 = sector_A
  /\ f_size (snd (fst (ReaderPlain.reader_plain_write reader_100 file_100 0
                         [sector_A; sector_B] 4294967295 2)))
     = (4294967295 + 2) * 512
  /\ ReaderPlain.reader_plain_read reader_100 file_100 0 4294967295 2
     = (0, [], file_set_pos file_100 (4294967295 * 512), 0)
  /\ r_lba_len reader_100 < 100 + 1
  /\ fst (fst (ReaderPlainC.reader_plain_write reader_100 file_100 0
                 [sector_A] 100 1)) = 1
  /\ file_lba (snd (fst (ReaderPlainC.reader_plain_write reader_100 file_100 0
                           [sector_A] 100 1))) 100 = sector_A.
Proof.
  by_evaluation.
Qed.

(** ** The bank accessor ([rvth.c]) *)

(** C10.  On an object whose array has [bank_count] entries, a bank index
    at or beyond [bank_count] yields NULL, stores the negative code
    [-EINVAL] through [pErr] and touches no entry; an index below
    [bank_count] yields the entry at that index. *)
Theorem rvth_get_BankEntry_in_bounds (rvth : RvtH) (bank : Z)
    (pErr : option Z) (errno : Z) :
  RvtH_wf rvth ->
  0 <= bank ->
  (bank_count rvth <= bank ->
     rvth_get_BankEntry (Some rvth) bank pErr errno
     = (None, (fun _ => - EINVAL) <$> pErr, ERANGE)
     /\ - EINVAL < 0)
  /\ (bank < bank_count rvth ->
      exists e,
        rvth_get_BankEntry (Some rvth) bank pErr errno
        = (Some (Z.to_nat bank), pErr, errno)
        /\ entries rvth !! Z.to_nat bank = Some e).
Proof.
  intros Hwf Hbank. unfold rvth_get_BankEntry. split.
  - intros Hge. destruct (Z.leb_spec (bank_count rvth) bank); [|lia].
    split; [reflexivity | unfold EINVAL; lia].
  - intros Hlt. destruct (Z.leb_spec (bank_count rvth) bank); [lia|].
    destruct (lookup_lt_is_Some_2 (entries rvth) (Z.to_nat bank)) as [e He].
    + unfold RvtH_wf in Hwf. lia.
    + exists e. split; [reflexivity | exact He].
Qed.

Lemma rvth_get_BankEntry_in_bounds_witness :
  (rvth_get_BankEntry (Some rvth_8) 8 (Some 0) 0
   = (None, Some (- EINVAL), ERANGE) /\ - EINVAL < 0)
  /\ exists e,
       rvth_get_BankEntry (Some rvth_8) 3 (Some 0) 0 = (Some 3%nat, Some 0, 0)
       /\ entries rvth_8 !! 3%nat = Some e.
Proof.
  split.
  - apply (proj1 (rvth_get_BankEntry_in_bounds rvth_8 8 (Some 0) 0
                    eq_refl ltac:(lia))).
    simpl. lia.
  - apply (proj2 (rvth_get_BankEntry_in_bounds rvth_8 3 (Some 0) 0
                    eq_refl ltac:(lia))).
    simpl. lia.
Defined.

(** ** The bank table parser ([rvth_open_hdd]) *)

Section OpenHdd.

Variable L : Layout.
Variable init :
  RvtH_BankEntry -> RefFile -> Z -> RvtH_BankType_e -> Z -> Z -> list byte ->
  RvtH_BankEntry * RefFile * Z.
Variable f : RefFile.
Variable pErr : option Z.
Variable errno : Z.

(** The 512-byte header at the bank-table LBA lies inside the stream. *)
Hypothesis Haddr : 0 <= NHCD_BANKTABLE_ADDRESS_LBA L.
Hypothesis Hsize :
  LBA_TO_BYTES (NHCD_BANKTABLE_ADDRESS_LBA L + 1) <= f_size f.

Let hdr : Sector := file_lba f (NHCD_BANKTABLE_ADDRESS_LBA L).
Let f2 : RefFile :=
  file_set_pos f (LBA_TO_BYTES (NHCD_BANKTABLE_ADDRESS_LBA L + 1)).

Lemma rvth_open_hdd_header :
  rvth_open_hdd L init f pErr errno =
  if negb (be32_at hdr 0 =? NHCD_BANKTABLE_MAGIC) then
    Some (open_fail pErr RVTH_ERROR_NHCD_TABLE_MAGIC EIO f2 errno)
  else
    let bank_count := be32_at hdr (hdr_bank_count_off L) in
    if (bank_count <? 8) || (32 <? bank_count) then
      match rvth_close_no_entries bank_count with
      | None => None
      | Some _ =>
        Some (open_fail pErr (- errno_or errno ENOMEM) (errno_or errno ENOMEM)
                f2 errno)
      end
    else
      match rvth_open_hdd_loop L init (Z.to_nat bank_count) 0
              (u32 (LBA_TO_BYTES (NHCD_BANKTABLE_ADDRESS_LBA L)
                    + NHCD_BLOCK_SIZE))
              bank_count [] f2 errno with
      | LoopFail ret err f3 errno3 => Some (open_fail pErr ret err f3 errno3)
      | LoopDone ents f3 errno3 =>
        Some {| o_rvth := Some (mkRvtH f3 true bank_count ents);
                o_pErr := pErr; o_errno := errno3; o_file := f3 |}
      end.
Proof.
  unfold rvth_open_hdd, ref_seeko, ref_read.
  unfold LBA_TO_BYTES, LBA_SIZE in *.
  destruct (Z.ltb_spec (NHCD_BANKTABLE_ADDRESS_LBA L * 512) 0); [lia|].
  cbn [negb Z.eqb f_size f_pos file_set_pos].
  set (a := NHCD_BANKTABLE_ADDRESS_LBA L) in *.
  assert (Hav : Z.min (Z.max 0 1)
                  (Z.max 0 ((f_size f - a * 512) / 512)) = 1).
  { assert (1 <= (f_size f - a * 512) / 512)
      by (apply Z.div_le_lower_bound; lia).
    lia. }
  rewrite Hav. cbn [Z.eqb negb Pos.eqb Z.to_nat Pos.to_nat Pos.iter_op
                    Nat.add file_range hd].
  replace (a * 512 / 512) with a by (symmetry; apply Z.div_mul; lia).
  replace (a * 512 + 1 * 512) with ((a + 1) * 512) by lia.
  change (Z.to_nat 1) with 1%nat. reflexivity.
Qed.

(** A header without the magic "NHCD": the opener hands back NULL and
    stores [RVTH_ERROR_NHCD_TABLE_MAGIC] through [pErr]. *)
Lemma rvth_open_hdd_bad_magic :
  be32_at hdr 0 <> NHCD_BANKTABLE_MAGIC ->
  rvth_open_hdd L init f pErr errno
  = Some (open_fail pErr RVTH_ERROR_NHCD_TABLE_MAGIC EIO f2 errno).
Proof.
  intros H. rewrite rvth_open_hdd_header.
  destruct (Z.eqb_spec (be32_at hdr 0) NHCD_BANKTABLE_MAGIC); [contradiction|].
  reflexivity.
Qed.

(** A bank count outside [8, 32].  With a count from 1 to 7 or above 32
    the opener does not return: [rvth_close] reads the entries of an
    object that has none.  With a count of 0 it hands back NULL, and the
    code it stores through [pErr] is [-errno] ([-ENOMEM] when [errno] is
    0), a negative number.  [RVTH_ERROR_INVALID_BANK_COUNT] is reported
    in neither case. *)
Lemma rvth_open_hdd_bad_bank_count :
  be32_at hdr 0 = NHCD_BANKTABLE_MAGIC ->
  be32_at hdr (hdr_bank_count_off L) < 8
  \/ 32 < be32_at hdr (hdr_bank_count_off L) ->
  0 <= errno ->
  rvth_open_hdd L init f pErr errno
  = (if 0 <? be32_at hdr (hdr_bank_count_off L) then None
     else Some (open_fail pErr (- errno_or errno ENOMEM)
                  (errno_or errno ENOMEM) f2 errno))
  /\ - errno_or errno ENOMEM < 0
  /\ - errno_or errno ENOMEM <> RVTH_ERROR_INVALID_BANK_COUNT.
Proof.
  intros Hm Hc He. rewrite rvth_open_hdd_header.
  destruct (Z.eqb_spec (be32_at hdr 0) NHCD_BANKTABLE_MAGIC); [|contradiction].
  cbn [negb].
  assert (Hb : (be32_at hdr (hdr_bank_count_off L) <? 8)
               || (32 <? be32_at hdr (hdr_bank_count_off L)) = true).
  { apply orb_true_iff. destruct Hc; [left | right]; apply Z.ltb_lt; lia. }
  cbv zeta. rewrite Hb. unfold rvth_close_no_entries.
  assert (0 < errno_or errno ENOMEM).
  { unfold errno_or, ENOMEM. destruct (Z.eqb_spec errno 0); lia. }
  unfold RVTH_ERROR_INVALID_BANK_COUNT.
  split; [|split; lia].
  destruct (0 <? be32_at hdr (hdr_bank_count_off L)); reflexivity.
Qed.

End OpenHdd.

(** C5 (code defect).  On the table with seven banks and the right magic
    [rvth_open_hdd] reports no error at all: it leaves through [fail:]
    and does not return, because [rvth_close] reads the entries of an
    object whose [entries] is still NULL.  On the table with no banks it
    fails, but the code it reports is [-ENOMEM], not
    [RVTH_ERROR_INVALID_BANK_COUNT].  On the table with a wrong magic it
    reports [RVTH_ERROR_NHCD_TABLE_MAGIC], which [rvth_open] then
    overwrites with [-EIO]. *)
Theorem rvth_open_hdd_bank_count_not_reported :
  be32_at (file_lba hdd_seven_banks 0x300000) 0 = NHCD_BANKTABLE_MAGIC
  /\ be32_at (file_lba hdd_seven_banks 0x300000) 8 = 7
  /\ rvth_open_hdd rvth_layout init_from_table hdd_seven_banks (Some 0) 0
     = None
  /\ be32_at (file_lba hdd_no_banks 0x300000) 0 = NHCD_BANKTABLE_MAGIC
  /\ be32_at (file_lba hdd_no_banks 0x300000) 8 = 0
  /\ o_rvth <$> rvth_open_hdd rvth_layout init_from_table hdd_no_banks
                  (Some 0) 0 = Some None
  /\ o_pErr <$> rvth_open_hdd rvth_layout init_from_table hdd_no_banks
                  (Some 0) 0 = Some (Some (- ENOMEM))
  /\ - ENOMEM <> RVTH_ERROR_INVALID_BANK_COUNT
  /\ o_rvth <$> rvth_open_hdd rvth_layout init_from_table hdd_bad_magic
                  (Some 0) 0 = Some None
  /\ o_pErr <$> rvth_open_hdd rvth_layout init_from_table hdd_bad_magic
                  (Some 0) 0 = Some (Some RVTH_ERROR_NHCD_TABLE_MAGIC)
  /\ rvth_open rvth_layout init_from_table (fun _ => RVTH_BankType_Empty)
       (fun e f => (e, f)) (fun e f => (e, f)) zero_sector
       (Some hdd_bad_magic) (Some 0) 0 = Some (None, Some (- EIO), EIO).
Proof.
  by_evaluation.
Qed.

(** *** Dual-layer banks (I2) *)

Lemma DL_within_nil : DL_followed_within [].
Proof. intros i e H. rewrite lookup_nil in H. discriminate. Qed.

Lemma prev_is_DL_last (done : list RvtH_BankEntry) (e : RvtH_BankEntry) :
  done !! (length done - 1)%nat = Some e -> (0 < length done)%nat ->
  prev_is_DL done = bool_decide (type e = RVTH_BankType_Wii_DL).
Proof.
  intros He Hlen. unfold prev_is_DL.
  rewrite last_lookup.
  replace (Nat.pred (length done)) with (length done - 1)%nat by lia.
  rewrite He. reflexivity.
Qed.

(** Appending an entry keeps the invariant when the new entry is the
    second bank, or when the entry before it is not dual-layer. *)
Lemma DL_within_snoc (done : list RvtH_BankEntry) (e : RvtH_BankEntry) :
  DL_followed_within done ->
  (prev_is_DL done = true -> e = BankEntry_DL_Bank2) ->
  DL_followed_within (done ++ [e]).
Proof.
  intros Hinv Hprev i x Hi Ht Hlt.
  rewrite length_app in Hlt. simpl in Hlt.
  rewrite lookup_app_l in Hi by lia.
  destruct (decide (S i < length done)%nat) as [Hin|Hout].
  - rewrite lookup_app_l by lia. eapply Hinv; eauto.
  - assert (Hi' : i = (length done - 1)%nat) by lia.
    replace (S i) with (length done) by lia.
    rewrite lookup_app_r by lia. rewrite Nat.sub_diag. simpl.
    f_equal. apply Hprev.
    rewrite (prev_is_DL_last done x) by (subst i; auto || lia).
    apply bool_decide_eq_true. exact Ht.
Qed.

Section OpenHddLoop.

Variable L : Layout.
Variable init :
  RvtH_BankEntry -> RefFile -> Z -> RvtH_BankType_e -> Z -> Z -> list byte ->
  RvtH_BankEntry * RefFile * Z.

(** The loop keeps the invariant and makes one entry per slot. *)
Lemma rvth_open_hdd_loop_inv (n : nat) :
  forall (i addr bank_count : Z) (done : list RvtH_BankEntry) (f : RefFile)
         (errno : Z) (ents : list RvtH_BankEntry) (f' : RefFile) (errno' : Z),
    i = Z.of_nat (length done) ->
    DL_followed_within done ->
    rvth_open_hdd_loop L init n i addr bank_count done f errno
    = LoopDone ents f' errno' ->
    DL_followed_within ents /\ length ents = (length done + n)%nat.
Proof.
  induction n as [|n IH]; intros i addr bc done f errno ents f' errno' Hi Hinv Hrun.
  - simpl in Hrun. inversion Hrun; subst. split; [assumption | lia].
  - cbn [rvth_open_hdd_loop] in Hrun.
    destruct ((0 <? i) && prev_is_DL done) eqn:Hdl.
    + apply andb_true_iff in Hdl as [_ Hprev].
      apply IH in Hrun.
      * destruct Hrun as [H1 H2]. split; [assumption|].
        rewrite H2, length_app. simpl. lia.
      * rewrite length_app. simpl. lia.
      * apply DL_within_snoc; auto.
    + destruct (ref_seeko f errno addr) as [[ret f1] errno1].
      destruct (negb (ret =? 0)); [discriminate|].
      destruct (ref_read f1 1) as [[cnt data] f2].
      destruct (negb (cnt =? 1)); [discriminate|].
      match type of Hrun with
      | context [init ?a ?b ?c ?d ?e ?g ?h] =>
        destruct (init a b c d e g h) as [[e0 f3] errno3]
      end.
      apply IH in Hrun.
      * destruct Hrun as [H1 H2]. split; [assumption|].
        rewrite H2, length_app. simpl. lia.
      * rewrite length_app. simpl. lia.
      * apply DL_within_snoc; auto.
        intros Hprev. rewrite Hprev, andb_true_r in Hdl.
        apply Z.ltb_ge in Hdl.
        assert (done = []) as -> by (destruct done; [reflexivity | simpl in Hi; lia]).
        discriminate Hprev.
Qed.

(** Every object [rvth_open_hdd] hands back has one entry per bank, and
    each of its dual-layer entries that is not in the last slot is
    followed by the zeroed second-bank entry. *)
Lemma rvth_open_hdd_DL_within (f : RefFile) (pErr : option Z) (errno : Z)
    (rvth : RvtH) :
  rvth_open_hdd L init f pErr errno ≫= o_rvth = Some rvth ->
  DL_followed_within (entries rvth) /\ RvtH_wf rvth
  /\ 8 <= bank_count rvth <= 32.
Proof.
  unfold rvth_open_hdd. intros H.
  destruct (ref_seeko f errno _) as [[ret f1] errno1].
  destruct (negb (ret =? 0)); [discriminate|].
  destruct (ref_read f1 1) as [[cnt data] f2].
  destruct (negb (cnt =? 1)); [discriminate|].
  cbv zeta in H.
  destruct (negb (_ =? NHCD_BANKTABLE_MAGIC)); [discriminate|].
  destruct (orb _ _) eqn:Hbc;
    [destruct (rvth_close_no_entries _); discriminate|].
  apply orb_false_iff in Hbc as [Hlo Hhi].
  apply Z.ltb_ge in Hlo. apply Z.ltb_ge in Hhi.
  destruct (rvth_open_hdd_loop _ _ _ _ _ _ _ _ _) as [|ents f3 errno3] eqn:Hloop;
    [discriminate|].
  apply rvth_open_hdd_loop_inv in Hloop; [|reflexivity | apply DL_within_nil].
  destruct Hloop as [Hinv Hlen].
  simpl in H. inversion H; subst rvth. simpl.
  split; [assumption|]. split; [|lia].
  unfold RvtH_wf. simpl. rewrite Hlen. simpl. lia.
Qed.

End OpenHddLoop.

(** C9 (code defect).  The image whose table holds a dual-layer bank in
    the last of its eight slots is opened successfully, and the object
    has a [Wii_DL] entry in slot 7 with no entry after it: I2 does not
    hold for it; for a dual-layer bank in slot 0 the parser does make the
    second-bank entry. *)
Theorem rvth_open_hdd_DL_in_last_bank :
  exists rvth,
    rvth_open_hdd rvth_layout init_from_table hdd_DL_last (Some 0) 0
      ≫= o_rvth = Some rvth
    /\ bank_count rvth = 8
    /\ type <$> entries rvth !! 7%nat = Some RVTH_BankType_Wii_DL
    /\ entries rvth !! 8%nat = None
    /\ ~ DL_followed (entries rvth)
    /\ exists rvth',
         rvth_open_hdd rvth_layout init_from_table hdd_DL_first (Some 0) 0
           ≫= o_rvth = Some rvth'
         /\ DL_followed (entries rvth').
Proof.
  destruct (rvth_open_hdd rvth_layout init_from_table hdd_DL_last (Some 0) 0
              ≫= o_rvth) as [rvth|] eqn:Hopen;
    [|vm_compute in Hopen; discriminate].
  exists rvth.
  assert (Hty : map type (entries rvth)
                = repeat RVTH_BankType_Empty 7 ++ [RVTH_BankType_Wii_DL]).
  { vm_compute in Hopen. inversion Hopen. reflexivity. }
  assert (Hbc : bank_count rvth = 8).
  { vm_compute in Hopen. inversion Hopen. reflexivity. }
  assert (H7 : type <$> entries rvth !! 7%nat = Some RVTH_BankType_Wii_DL).
  { rewrite <- list_lookup_fmap. change (fmap type) with (map type).
    rewrite Hty. reflexivity. }
  assert (H8 : entries rvth !! 8%nat = None).
  { apply lookup_ge_None. rewrite <- (length_map type), Hty. simpl. lia. }
  split; [reflexivity|]. split; [assumption|]. split; [assumption|].
  split; [assumption|]. split.
  - intros Hinv.
    destruct (entries rvth !! 7%nat) as [e|] eqn:He; [|discriminate].
    simpl in H7. inversion H7 as [Ht].
    specialize (Hinv 7%nat e He Ht). rewrite H8 in Hinv. discriminate.
  - destruct (rvth_open_hdd rvth_layout init_from_table hdd_DL_first
                (Some 0) 0 ≫= o_rvth) as [rvth'|] eqn:Hopen';
      [|vm_compute in Hopen'; discriminate].
    exists rvth'. split; [reflexivity|].
    assert (Hty' : map type (entries rvth')
                   = [RVTH_BankType_Wii_DL; RVTH_BankType_Wii_DL_Bank2]
                     ++ repeat RVTH_BankType_Empty 6).
    { vm_compute in Hopen'. inversion Hopen'. reflexivity. }
    assert (H1 : entries rvth' !! 1%nat = Some BankEntry_DL_Bank2).
    { vm_compute in Hopen'. inversion Hopen'. reflexivity. }
    intros i e Hi Ht.
    assert (Hti : map type (entries rvth') !! i = Some RVTH_BankType_Wii_DL).
    { change (map type) with (fmap (M:=list) type).
      rewrite list_lookup_fmap, Hi. simpl. rewrite Ht. reflexivity. }
    rewrite Hty' in Hti.
    destruct i as [|i]; [exact H1|].
    do 7 (destruct i as [|i]; [simpl in Hti; discriminate|]).
    simpl in Hti. rewrite lookup_nil in Hti. discriminate.
Qed.

(** ** The converted length of an unencrypted to encrypted extract *)

Lemma ceil_div_floor (a b : Z) :
  0 < b ->
  ceil_div a b = a / b + (if a mod b =? 0 then 0 else 1).
Proof.
  intros Hb. unfold ceil_div.
  destruct (Z.eqb_spec (a mod b) 0) as [H0|Hn].
  - rewrite Z.div_opp_l_z by lia. lia.
  - rewrite Z.div_opp_l_nz by lia. lia.
Qed.

(** Without wrap-around the length [rvth_extract] computes is the one of
    the specification's formula. *)
Lemma unenc_to_enc_lba_len_spec (pte : pt_entry_t) :
  64 <= pt_lba_len pte < 2 ^ 32 ->
  0 <= pt_lba_start pte ->
  spec_unenc_to_enc_len (pt_lba_len pte) (pt_lba_start pte) < 2 ^ 32 ->
  unenc_to_enc_lba_len pte
  = spec_unenc_to_enc_len (pt_lba_len pte) (pt_lba_start pte).
Proof.
  intros Hlen Hstart Hfit.
  unfold unenc_to_enc_lba_len, spec_unenc_to_enc_len in *.
  change (BYTES_TO_LBA 32768) with 64.
  change (BYTES_TO_LBA 131072) with 256.
  change (ceil_div 32768 LBA_SIZE) with 64 in *.
  change (ceil_div 131072 LBA_SIZE) with 256 in *.
  cbv zeta in *.
  set (raw := pt_lba_len pte - 64) in *.
  assert (Hraw : 0 <= raw < 2 ^ 32) by (unfold raw; lia).
  rewrite ceil_div_floor in * by lia.
  unfold u32_sub. fold raw. rewrite (u32_small raw) by exact Hraw.
  assert (Hq : 0 <= raw / 3968) by (apply Z.div_pos; lia).
  unfold u32_mul, u32_add.
  destruct (Z.eqb_spec (raw mod 3968) 0) as [H0|Hn]; cbn [negb].
  - rewrite (u32_small (raw / 3968 * 4096)) by (unfold is_u32; lia).
    rewrite (u32_small (256 + pt_lba_start pte)) by (unfold is_u32; lia).
    rewrite u32_small by (unfold is_u32; lia). lia.
  - rewrite (u32_small (raw / 3968 * 4096)) by (unfold is_u32; lia).
    rewrite (u32_small (raw / 3968 * 4096 + 4096)) by (unfold is_u32; lia).
    rewrite (u32_small (256 + pt_lba_start pte)) by (unfold is_u32; lia).
    rewrite u32_small by (unfold is_u32; lia). lia.
Qed.

(** C4 (amended).  For an unencrypted to encrypted extract of a Wii bank
    with a game partition of at least 64 LBAs, when the total of the
    formula fits 32 bits, the length [rvth_extract] computes for the new
    image, before the LBAs of an optional SDK header are added, is
    [ceil((lba_len - 0x8000/512) / 3968) * 4096 + 0x20000/512 + lba_start];
    with the flag [PREPEND_SDK_HEADER] the length it asks for is that
    plus the 64 LBAs of the header (a 32-bit sum), without the flag it
    is that length itself. *)
Theorem extract_unenc_to_enc_length
    (find_game : RvtH_BankEntry -> option pt_entry_t)
    (entry : RvtH_BankEntry) (recrypt_key flags errno : Z)
    (game_pte : pt_entry_t) :
  is_unenc_to_enc entry recrypt_key = true ->
  find_game entry = Some game_pte ->
  64 <= pt_lba_len game_pte < 2 ^ 32 ->
  0 <= pt_lba_start game_pte ->
  spec_unenc_to_enc_len (pt_lba_len game_pte) (pt_lba_start game_pte) < 2 ^ 32 ->
  let len := spec_unenc_to_enc_len (pt_lba_len game_pte) (pt_lba_start game_pte) in
  unenc_to_enc_lba_len game_pte = len
  /\ extract_gcm_lba_len find_game entry recrypt_key flags errno
     = inr (if Z.land flags RVTH_EXTRACT_PREPEND_SDK_HEADER =? 0 then len
            else u32_add len (BYTES_TO_LBA 32768)).
Proof.
  intros Hconv Hgame Hlen Hstart Hfit len.
  assert (Hspec : unenc_to_enc_lba_len game_pte = len)
    by (apply unenc_to_enc_lba_len_spec; assumption).
  split; [exact Hspec|].
  unfold extract_gcm_lba_len. rewrite Hconv, Hgame, Hspec.
  destruct (Z.land flags RVTH_EXTRACT_PREPEND_SDK_HEADER =? 0);
    cbn [negb]; [reflexivity|].
  assert (Hty : bool_decide (type entry = RVTH_BankType_GCN) = false).
  { apply bool_decide_eq_false. intros Hgcn.
    unfold is_unenc_to_enc in Hconv. rewrite Hgcn in Hconv.
    cbn in Hconv. discriminate. }
  rewrite Hty. reflexivity.
Qed.

Lemma extract_unenc_to_enc_length_witness :
  unenc_to_enc_lba_len (mkPtEntry 0x50000 (0x8C4A00 - 0x50000) 0)
  = spec_unenc_to_enc_len (0x8C4A00 - 0x50000) 0x50000
  /\ extract_gcm_lba_len ex_find_game wii_unenc 2
       RVTH_EXTRACT_PREPEND_SDK_HEADER 0
     = inr (u32_add (spec_unenc_to_enc_len (0x8C4A00 - 0x50000) 0x50000)
              (BYTES_TO_LBA 32768)).
Proof.
  apply (extract_unenc_to_enc_length ex_find_game wii_unenc 2
           RVTH_EXTRACT_PREPEND_SDK_HEADER 0
           (mkPtEntry 0x50000 (0x8C4A00 - 0x50000) 0)).
  - reflexivity.
  - reflexivity.
  - simpl. lia.
  - simpl. lia.
  - vm_compute. reflexivity.
Defined.

(** C4, counterexample.  For a game partition of 32 LBAs the subtraction
    of the 64 header LBAs wraps around: the code computes 138879232 LBAs
    where the formula gives 327936. *)
Lemma extract_unenc_to_enc_length_wraps :
  is_unenc_to_enc wii_unenc 2 = true
  /\ short_game_partition wii_unenc = Some (mkPtEntry 0x50000 32 0)
  /\ extract_gcm_lba_len short_game_partition wii_unenc 2 0 0 = inr 138879232
  /\ spec_unenc_to_enc_len 32 0x50000 = 327936.
Proof. by_evaluation. Qed.

(** ** Import: the checks on the destination bank *)

Section ImportChecks.

Variable L : Layout.
Variable now : Z.
Variable heap : nat -> Sector.
Variable callback : RvtH_Progress_Callback.
Variable make_writable : RvtH -> Z -> Z * RvtH * Z.
Variable write_BankEntry : RvtH -> Z -> RvtH.

(** Up to the checks on the destination bank, [rvth_copy_to_hdd] of a
    dual-layer source into an HDD image is [import_checks]. *)
Lemma rvth_copy_to_hdd_checks (rvth_dest rvth_src : RvtH)
    (bank_dest bank_src errno : Z) (entry_src entry_dest : RvtH_BankEntry)
    (ret err : Z) :
  0 <= bank_src < bank_count rvth_src ->
  0 <= bank_dest < bank_count rvth_dest ->
  is_hdd rvth_dest = true ->
  entries rvth_src !! Z.to_nat bank_src = Some entry_src ->
  type entry_src = RVTH_BankType_Wii_DL ->
  entries rvth_dest !! Z.to_nat bank_dest = Some entry_dest ->
  import_checks L rvth_dest bank_dest entry_src entry_dest
  = Some (Some (ret, err)) ->
  rvth_copy_to_hdd L now heap callback make_writable write_BankEntry
    rvth_dest bank_dest rvth_src bank_src errno
  = Some (mkCopyResult ret err rvth_dest rvth_src).
Proof.
  intros Hs Hd Hhdd Hes Hty Hed Hchk. unfold rvth_copy_to_hdd.
  destruct (Z.leb_spec (bank_count rvth_src) bank_src); [lia|].
  destruct (Z.leb_spec (bank_count rvth_dest) bank_dest); [lia|].
  cbn [orb]. rewrite Hhdd. cbn [negb].
  rewrite Hes. cbn [mbind option_bind]. rewrite Hty. cbn [check_src_type].
  rewrite Hed. cbn [mbind option_bind]. rewrite Hchk. reflexivity.
Qed.

End ImportChecks.

(** C6 (amended).  For an import of a dual-layer source into a bank of an
    HDD image the checks are made in this order, and the import fails
    with the error of the first one that fails: an extended bank table
    (more than 8 banks) and bank 0: [IMPORT_DL_EXT_NO_BANK1]; the last
    bank: [IMPORT_DL_LAST_BANK]; a destination bank that is neither Empty
    nor deleted: [BANK_NOT_EMPTY_OR_DELETED]; a following bank that is
    neither Empty nor deleted: [BANK2DL_NOT_EMPTY_OR_DELETED]; a source
    longer than twice the bank size: [IMAGE_TOO_BIG]. *)
Theorem rvth_copy_to_hdd_DL_checks (L : Layout) (now : Z)
    (heap : nat -> Sector) (callback : RvtH_Progress_Callback)
    (make_writable : RvtH -> Z -> Z * RvtH * Z)
    (write_BankEntry : RvtH -> Z -> RvtH)
    (rvth_dest rvth_src : RvtH) (bank_dest bank_src errno : Z)
    (entry_src entry_dest : RvtH_BankEntry) :
  0 <= bank_src < bank_count rvth_src ->
  0 <= bank_dest < bank_count rvth_dest ->
  bank_count rvth_dest < 2 ^ 32 ->
  is_hdd rvth_dest = true ->
  entries rvth_src !! Z.to_nat bank_src = Some entry_src ->
  type entry_src = RVTH_BankType_Wii_DL ->
  entries rvth_dest !! Z.to_nat bank_dest = Some entry_dest ->
  let ret :=
    c_ret <$> rvth_copy_to_hdd L now heap callback make_writable
                write_BankEntry rvth_dest bank_dest rvth_src bank_src errno in
  (8 < bank_count rvth_dest -> bank_dest = 0 ->
     ret = Some RVTH_ERROR_IMPORT_DL_EXT_NO_BANK1)
  /\ (bank_dest = bank_count rvth_dest - 1 ->
      ret = Some RVTH_ERROR_IMPORT_DL_LAST_BANK)
  /\ (~ (8 < bank_count rvth_dest /\ bank_dest = 0) ->
      bank_dest <> bank_count rvth_dest - 1 ->
      (not_empty_or_deleted entry_dest = true ->
         ret = Some RVTH_ERROR_BANK_NOT_EMPTY_OR_DELETED)
      /\ (not_empty_or_deleted entry_dest = false ->
          forall entry_dest2,
            entries rvth_dest !! Z.to_nat (bank_dest + 1) = Some entry_dest2 ->
            (not_empty_or_deleted entry_dest2 = true ->
               ret = Some RVTH_ERROR_BANK2DL_NOT_EMPTY_OR_DELETED)
            /\ (not_empty_or_deleted entry_dest2 = false ->
                NHCD_BANK_SIZE_LBA L * 2 < lba_len entry_src ->
                ret = Some RVTH_ERROR_IMAGE_TOO_BIG))).
Proof.
  intros Hs Hd Hbc Hhdd Hes Hty Hed ret.
  assert (Hrun : forall r e,
             import_checks L rvth_dest bank_dest entry_src entry_dest
             = Some (Some (r, e)) -> ret = Some r).
  { intros r e Hchk. unfold ret.
    erewrite rvth_copy_to_hdd_checks by eassumption. reflexivity. }
  assert (Hlast : u32_sub (bank_count rvth_dest) 1 = bank_count rvth_dest - 1).
  { unfold u32_sub. apply u32_small. unfold is_u32. lia. }
  assert (Hnext : u32_add bank_dest 1 = bank_dest + 1).
  { unfold u32_add. apply u32_small. unfold is_u32. lia. }
  unfold import_checks in Hrun.
  rewrite Hty, Hlast, Hnext in Hrun.
  rewrite bool_decide_eq_true_2 in Hrun by reflexivity.
  split; [|split].
  - intros H8 H0. eapply Hrun.
    destruct (Z.ltb_spec 8 (bank_count rvth_dest)); [|lia].
    destruct (Z.eqb_spec bank_dest 0); [|lia]. reflexivity.
  - intros Hl. eapply Hrun.
    destruct (Z.ltb_spec 8 (bank_count rvth_dest));
      destruct (Z.eqb_spec bank_dest 0); try lia; cbn [andb];
      destruct (Z.eqb_spec bank_dest (bank_count rvth_dest - 1)); try lia;
      reflexivity.
  - intros Hne Hnl.
    assert (Hc1 : (8 <? bank_count rvth_dest) && (bank_dest =? 0) = false).
    { destruct (Z.ltb_spec 8 (bank_count rvth_dest));
        destruct (Z.eqb_spec bank_dest 0); try reflexivity. lia. }
    assert (Hc2 : (bank_dest =? bank_count rvth_dest - 1) = false)
      by (apply Z.eqb_neq; exact Hnl).
    rewrite Hc1, Hc2 in Hrun. split.
    + intros Hocc. eapply Hrun. rewrite Hocc. reflexivity.
    + intros Hfree entry_dest2 He2.
      rewrite Hfree, He2 in Hrun. cbn [mbind option_bind] in Hrun. split.
      * intros Hocc2. eapply Hrun. rewrite Hocc2. reflexivity.
      * intros Hfree2 Hbig. eapply Hrun. rewrite Hfree2.
        destruct (Z.ltb_spec (NHCD_BANK_SIZE_LBA L * 2) (lba_len entry_src));
          [reflexivity | lia].
Qed.

Lemma rvth_copy_to_hdd_DL_checks_witness :
  c_ret <$> rvth_copy_to_hdd rvth_layout 0 zero_heap None ex_make_writable
              ex_write_BankEntry hdd_bank2_used 7 wii_DL_too_big 0 0
  = Some RVTH_ERROR_IMPORT_DL_LAST_BANK
  /\ c_ret <$> rvth_copy_to_hdd rvth_layout 0 zero_heap None ex_make_writable
                 ex_write_BankEntry hdd_bank2_used 1 wii_DL_too_big 0 0
     = Some RVTH_ERROR_BANK2DL_NOT_EMPTY_OR_DELETED
  /\ c_ret <$> rvth_copy_to_hdd rvth_layout 0 zero_heap None ex_make_writable
                 ex_write_BankEntry hdd_bank2_used 3 wii_DL_too_big 0 0
     = Some RVTH_ERROR_IMAGE_TOO_BIG.
Proof.
  split; [|split].
  - apply (rvth_copy_to_hdd_DL_checks rvth_layout 0 zero_heap None
             ex_make_writable ex_write_BankEntry hdd_bank2_used
             wii_DL_too_big 7 0 0 wii_DL_too_big_entry (hdd_bank RVTH_BankType_Empty 7));
      try reflexivity; simpl; lia.
  - refine (proj1 (proj2 (proj2 (proj2
      (rvth_copy_to_hdd_DL_checks rvth_layout 0 zero_heap None
         ex_make_writable ex_write_BankEntry hdd_bank2_used
         wii_DL_too_big 1 0 0 wii_DL_too_big_entry (hdd_bank RVTH_BankType_Empty 1)
         _ _ _ _ _ _ _)) _ _) _ (hdd_bank RVTH_BankType_GCN 2) _) _);
      try reflexivity; simpl; lia.
  - refine (proj2 (proj2 (proj2 (proj2
      (rvth_copy_to_hdd_DL_checks rvth_layout 0 zero_heap None
         ex_make_writable ex_write_BankEntry hdd_bank2_used
         wii_DL_too_big 3 0 0 wii_DL_too_big_entry (hdd_bank RVTH_BankType_Empty 3)
         _ _ _ _ _ _ _)) _ _) _ (hdd_bank RVTH_BankType_Empty 4) _) _ _);
      try reflexivity; simpl; lia.
Defined.

(** C6, counterexample.  Banks 1 and 2 of the HDD image both hold an
    image.  A dual-layer import into bank 1 (not the last bank, no
    extended table) finds the following bank neither Empty nor deleted,
    yet it fails with [BANK_NOT_EMPTY_OR_DELETED], the error of the
    destination bank itself, not with [BANK2DL_NOT_EMPTY_OR_DELETED]. *)
Lemma rvth_copy_to_hdd_DL_first_bank_checked_first :
  type <$> entries wii_DL_3 !! 0%nat = Some RVTH_BankType_Wii_DL
  /\ not_empty_or_deleted <$> entries hdd_banks12_used !! 2%nat = Some true
  /\ c_ret <$> rvth_copy_to_hdd rvth_layout 0 zero_heap None ex_make_writable
                 ex_write_BankEntry hdd_banks12_used 1 wii_DL_3 0 0
     = Some RVTH_ERROR_BANK_NOT_EMPTY_OR_DELETED
  /\ RVTH_ERROR_BANK_NOT_EMPTY_OR_DELETED
     <> RVTH_ERROR_BANK2DL_NOT_EMPTY_OR_DELETED.
Proof.
  by_evaluation.
Qed.

(** ** Import: what follows the copy *)

(** The test of [rvth_import] is the condition of the specification. *)
Lemma import_needs_debug_spec (entry : RvtH_BankEntry) :
  import_needs_debug entry = true <-> spec_needs_debug entry.
Proof.
  unfold import_needs_debug, spec_needs_debug.
  rewrite andb_true_iff, !orb_true_iff, !negb_true_iff.
  rewrite !bool_decide_eq_true, !bool_decide_eq_false.
  tauto.
Qed.

(** C7.  When the copy of [rvth_import] returned 0, the bank just
    imported decides what follows: a Wii image (single- or dual-layer)
    whose encryption is Retail or Korean, or whose ticket or TMD
    signature is not OK, is re-encrypted to Debug
    ([rvth_recrypt_partitions]); any other bank gets the "imported"
    marker ([rvth_recrypt_id]) instead. *)
Theorem rvth_import_post_policy (L : Layout) (now : Z)
    (heap : nat -> Sector) (callback : RvtH_Progress_Callback)
    (make_writable : RvtH -> Z -> Z * RvtH * Z)
    (write_BankEntry : RvtH -> Z -> RvtH)
    (recrypt_partitions :
       RvtH -> Z -> Z -> RvtH_Progress_Callback -> Z -> Z * RvtH * Z)
    (recrypt_id : RvtH -> Z -> Z -> Z * RvtH * Z)
    (rvth rvth_src : RvtH) (bank ret0 errno0 errno : Z)
    (c : CopyResult) (entry : RvtH_BankEntry) :
  0 <= bank < bank_count rvth ->
  is_hdd rvth_src = false ->
  bank_count rvth_src = 1 ->
  rvth_copy_to_hdd L now heap callback make_writable write_BankEntry
    rvth bank rvth_src 0 errno0 = Some c ->
  c_ret c = 0 ->
  bank < bank_count (c_dest c) ->
  entries (c_dest c) !! Z.to_nat bank = Some entry ->
  let imported :=
    rvth_import L now heap callback make_writable write_BankEntry
      recrypt_partitions recrypt_id rvth bank (Some rvth_src, ret0, errno0)
      errno in
  (spec_needs_debug entry ->
     imported
     = Some (import_result_of
               (recrypt_partitions (c_dest c) bank
                  (crypto_type_ord RVTH_CryptoType_Debug) callback
                  (c_errno c))))
  /\ (~ spec_needs_debug entry ->
      imported
      = Some (import_result_of (recrypt_id (c_dest c) bank (c_errno c)))).
Proof.
  intros Hbank Hhdd Hone Hcopy Hret Hbank' Hentry imported.
  assert (Himp : imported
    = Some (import_result_of
              (if import_needs_debug entry
               then recrypt_partitions (c_dest c) bank
                      (crypto_type_ord RVTH_CryptoType_Debug) callback
                      (c_errno c)
               else recrypt_id (c_dest c) bank (c_errno c)))).
  { unfold imported, rvth_import.
    destruct (Z.leb_spec (bank_count rvth) bank); [lia|].
    rewrite Hhdd, Hone. cbn [orb Z.ltb Z.eqb Z.compare Pos.compare
                             Pos.compare_cont Pos.eqb].
    rewrite Hcopy. cbn [mbind option_bind]. rewrite Hret. cbn [Z.eqb].
    unfold rvth_get_BankEntry.
    destruct (Z.leb_spec (bank_count (c_dest c)) bank); [lia|].
    rewrite Hentry. cbn [fmap option_fmap option_map mbind option_bind].
    destruct (import_needs_debug entry).
    - destruct (recrypt_partitions _ _ _ _ _) as [[r d] e]. reflexivity.
    - destruct (recrypt_id _ _ _) as [[r d] e]. reflexivity. }
  split; intros Hspec; rewrite Himp.
  - apply import_needs_debug_spec in Hspec. rewrite Hspec. reflexivity.
  - destruct (import_needs_debug entry) eqn:Hb; [|reflexivity].
    apply import_needs_debug_spec in Hb. contradiction.
Qed.

Lemma rvth_import_post_policy_witness :
  exists c entry,
    rvth_copy_to_hdd rvth_layout 0 zero_heap None ex_make_writable
      ex_write_BankEntry hdd_empty 0 wii_retail_3 0 0 = Some c
    /\ entries (c_dest c) !! 0%nat = Some entry
    /\ spec_needs_debug entry
    /\ rvth_import rvth_layout 0 zero_heap None ex_make_writable
         ex_write_BankEntry ex_recrypt_partitions ex_recrypt_id hdd_empty 0
         (Some wii_retail_3, 0, 0) 0
       = Some (import_result_of
                 (ex_recrypt_partitions (c_dest c) 0
                    (crypto_type_ord RVTH_CryptoType_Debug) None (c_errno c))).
Proof.
  eexists. eexists.
  split; [vm_compute; reflexivity|].
  split; [vm_compute; reflexivity|].
  split.
  - split; [left; reflexivity | left; reflexivity].
  - refine (proj1 (rvth_import_post_policy rvth_layout 0 zero_heap None
                     ex_make_writable ex_write_BankEntry
                     ex_recrypt_partitions ex_recrypt_id hdd_empty
                     wii_retail_3 0 0 0 0 _ _ _ _ _ _ _ _ _) _).
    + simpl. lia.
    + reflexivity.
    + reflexivity.
    + vm_compute. reflexivity.
    + reflexivity.
    + simpl. lia.
    + vm_compute. reflexivity.
    + split; [left; reflexivity | left; reflexivity].
Defined.

(** ** Extract: the copy loop *)

(** The remainder of a bank (a defect of the code).  Extracting the
    2051-LBA GameCube image succeeds and leaves a file of [2051 * 512]
    bytes whose first 2048 LBAs equal the source, but the three LBAs
    after the first megabyte, which hold data in the source, are zero in
    the destination: [sz_left] is [BYTES_TO_LBA(lba_left)] = 0 where the
    byte count [LBA_TO_BYTES(lba_left)] is meant, so the loop over the
    remaining sectors does not run.  For the three-LBA image nothing but
    the zeroed final sector is written; for the 1024-LBA image only the
    first sector of the remainder is looked at. *)
Lemma rvth_copy_to_gcm_drops_remainder :
  let c :=
    rvth_copy_to_gcm rvth_layout 0 zero_heap None (created_gcm 2051)
      gcn_2051 0 0 in
  let c3 :=
    rvth_copy_to_gcm rvth_layout 0 zero_heap None (created_gcm 3) gcn_3 0 0 in
  let c1024 :=
    rvth_copy_to_gcm rvth_layout 0 zero_heap None (created_gcm 1024)
      gcn_1024 0 0 in
  c_ret <$> c = Some 0
  /\ (fun r => f_size (f_img (c_dest r))) <$> c = Some (2051 * 512)
  /\ dest_sectors c 2048 = file_range (f_img gcn_2051) 0 2048
  /\ file_range (f_img gcn_2051) 2048 3 = [sector_A; sector_B; sector_A]
  /\ drop 2048 (dest_sectors c 2051) = [zero_sector; zero_sector; zero_sector]
  /\ c_ret <$> c3 = Some 0
  /\ file_range (f_img gcn_3) 0 3 = [gcn_header; sector_A; sector_B]
  /\ dest_sectors c3 3 = [zero_sector; zero_sector; zero_sector]
  /\ c_ret <$> c1024 = Some 0
  /\ file_range (f_img gcn_1024) 0 3 = [gcn_header; sector_A; sector_B]
  /\ dest_sectors c1024 3 = [gcn_header; zero_sector; zero_sector].
Proof.
  by_evaluation.
Qed.

(** C8 (code defect).  The first sector of the 1024-LBA bank has neither
    magic number and the entry caches the GameCube header.  The extract
    succeeds, but the header is only restored inside the loop over whole
    megabytes, which does not run for this bank: the first 512 bytes of
    the file are the flushed sector, not the cached header.  For the
    2048-LBA bank the header is restored. *)
Theorem rvth_copy_to_gcm_header_not_restored :
  let c :=
    rvth_copy_to_gcm rvth_layout 0 zero_heap None (created_gcm 1024)
      flushed_1024 0 0 in
  let c' :=
    rvth_copy_to_gcm rvth_layout 0 zero_heap None (created_gcm 2048)
      flushed_2048 0 0 in
  be32_at (file_lba (f_img flushed_1024) 0) (magic_wii_off rvth_layout)
    <> WII_MAGIC
  /\ be32_at (file_lba (f_img flushed_1024) 0) (magic_gcn_off rvth_layout)
       <> GCN_MAGIC
  /\ discHeader <$> entries flushed_1024 !! 0%nat = Some gcn_header
  /\ c_ret <$> c = Some 0
  /\ dest_sectors c 1 = [flushed_header]
  /\ flushed_header <> gcn_header
  /\ dest_sectors c' 1 = [gcn_header].
Proof.
  by_evaluation.
Qed.

(** C3 (code defect).  With a callback that returns [false], both copy
    functions stop before any sector is copied and set [errno] to
    [ECANCELED], but they return 0, the code of success; [rvth_extract]
    and [rvth_import], seeing 0, go on to re-encrypt the image nothing
    was copied to, and return 0 themselves. *)
Theorem copy_cancelled_returns_success :
  let c :=
    rvth_copy_to_gcm rvth_layout 0 zero_heap cb_cancel (created_gcm 2048)
      wii_retail_2048 0 0 in
  let h :=
    rvth_copy_to_hdd rvth_layout 0 zero_heap cb_cancel ex_make_writable
      ex_write_BankEntry hdd_empty 0 wii_retail_2048 0 0 in
  let x :=
    rvth_extract rvth_layout 0 zero_heap cb_cancel ex_find_game
      ex_create_gcm ex_doCrypt ex_recrypt_partitions wii_retail_2048 0
      (crypto_type_ord RVTH_CryptoType_Debug) 0 0 in
  let i :=
    rvth_import rvth_layout 0 zero_heap cb_cancel ex_make_writable
      ex_write_BankEntry ex_recrypt_partitions ex_recrypt_id hdd_empty 0
      (Some wii_retail_2048, 0, 0) 0 in
  (fun r => (c_ret r, c_errno r)) <$> c = Some (0, ECANCELED)
  /\ (fun r => f_data (f_img (c_dest r))) <$> c = Some ∅
  /\ (fun r => (c_ret r, c_errno r)) <$> h = Some (0, ECANCELED)
  /\ (fun r => f_data (f_img (c_dest r))) <$> h = Some (f_data (f_img hdd_empty))
  /\ (fun r => (x_ret r, x_errno r)) <$> x = Some (0, ECANCELED)
  /\ (x ≫= x_dest) ≫= (fun d => region_code <$> entries d !! 0%nat) = Some 1
  /\ (fun r => (i_ret r, i_errno r)) <$> i = Some (0, ECANCELED)
  /\ i ≫= (fun r => region_code <$> entries (i_rvth r) !! 0%nat) = Some 1.
Proof.
  by_evaluation.
Qed.

(** ** Streams: what a transfer reads and stores *)

Lemma store_range_lookup (l : list Sector) :
  forall (d : gmap Z Sector) (lba j : Z),
    store_range d lba l !! j
    = if decide (lba <= j < lba + Z.of_nat (length l))
      then l !! Z.to_nat (j - lba) else d !! j.
Proof.
  induction l as [|s l IH]; intros d lba j.
  - simpl. destruct (decide _) as [H|H]; [lia | reflexivity].
  - cbn [store_range]. rewrite IH. cbn [length].
    destruct (decide (lba + 1 <= j < lba + 1 + Z.of_nat (length l))) as [H|H].
    + destruct (decide (lba <= j < lba + Z.of_nat (S (length l)))) as [H'|H'];
        [|lia].
      replace (Z.to_nat (j - lba)) with (S (Z.to_nat (j - (lba + 1)))) by lia.
      reflexivity.
    + destruct (decide (lba <= j < lba + Z.of_nat (S (length l)))) as [H'|H'].
      * assert (j = lba) as -> by lia.
        rewrite lookup_insert_eq. rewrite Z.sub_diag. reflexivity.
      * rewrite lookup_insert_ne by lia. reflexivity.
Qed.

Lemma file_range_length (f : RefFile) (n : nat) :
  forall lba, length (file_range f lba n) = n.
Proof. induction n as [|n IH]; intros lba; simpl; [|rewrite IH]; reflexivity. Qed.

Lemma file_range_lookup (f : RefFile) (n : nat) :
  forall (lba : Z) (k : nat),
    (k < n)%nat ->
    file_range f lba n !! k = Some (file_lba f (lba + Z.of_nat k)).
Proof.
  induction n as [|n IH]; intros lba k Hk; [lia|].
  destruct k as [|k]; simpl.
  - rewrite Z.add_0_r. reflexivity.
  - rewrite IH by lia. f_equal. f_equal. lia.
Qed.

Lemma file_range_set_pos (f : RefFile) (pos : Z) (n : nat) :
  forall lba, file_range (file_set_pos f pos) lba n = file_range f lba n.
Proof.
  induction n as [|n IH]; intros lba; simpl; [reflexivity|].
  rewrite IH. reflexivity.
Qed.

(** A read that does not reach the end of the stream is complete. *)
Lemma ref_read_full (f : RefFile) (n : Z) :
  0 <= n -> 0 <= f_pos f -> f_pos f + n * 512 <= f_size f ->
  ref_read f n
  = (n, file_range f (f_pos f / 512) (Z.to_nat n),
     file_set_pos f (f_pos f + n * 512)).
Proof.
  intros Hn Hpos Hsz. unfold ref_read, LBA_SIZE.
  assert (Hav : n <= (f_size f - f_pos f) / 512)
    by (apply Z.div_le_lower_bound; lia).
  replace (Z.min (Z.max 0 n) (Z.max 0 ((f_size f - f_pos f) / 512)))
    with n by lia.
  reflexivity.
Qed.

(** ** The copy loop on a bank that lies inside its stream *)

(** A read of no more sectors than the block holds stays inside it. *)
Lemma buf_read_fits (rd : Reader) (st : CopyState) (lba cnt : Z) :
  cnt <= Z.of_nat (length (cs_buf st)) ->
  buf_read rd st lba cnt = Some (buf_fill rd st lba cnt)
  /\ length (cs_buf (buf_fill rd st lba cnt)) = length (cs_buf st).
Proof.
  intros Hcnt.
  assert (Hlen : length (cs_buf (buf_fill rd st lba cnt)) = length (cs_buf st)).
  { unfold buf_fill, ReaderPlain.reader_plain_read.
    destruct (ReaderPlain.out_of_range rd lba cnt); [reflexivity|].
    destruct (ref_seeko _ _ _) as [[ret f1] errno1].
    destruct (negb (ret =? 0)); [reflexivity|].
    unfold ref_read. cbn [cs_buf].
    rewrite length_app, length_drop, file_range_length. lia. }
  split; [|exact Hlen].
  unfold buf_read. cbv zeta. rewrite Hlen.
  rewrite Nat.ltb_irrefl. reflexivity.
Qed.

Section CopyIO.

Variable rd_src rd_dest : Reader.
Variable n : Z.

(** Both windows are [n] LBAs long; the destination is a new image and
    starts at LBA 0; the source window does not wrap around. *)
Hypothesis Hn : 0 <= n < 2 ^ 32.
Hypothesis Hsrc_len : r_lba_len rd_src = n.
Hypothesis Hsrc_start : 0 <= r_lba_start rd_src.
Hypothesis Hsrc_nowrap : r_lba_start rd_src + n < 2 ^ 32.
Hypothesis Hdest : r_lba_start rd_dest = 0 /\ r_lba_len rd_dest = n.

Lemma buf_fill_spec (st : CopyState) (lba cnt : Z) :
  0 <= lba -> 0 <= cnt -> lba + cnt <= n ->
  (r_lba_start rd_src + n) * 512 <= f_size (cs_src st) ->
  buf_fill rd_src st lba cnt
  = {| cs_src :=
         file_set_pos (cs_src st) ((r_lba_start rd_src + lba + cnt) * 512);
       cs_dst := cs_dst st; cs_errno := cs_errno st;
       cs_buf :=
         file_range (cs_src st) (r_lba_start rd_src + lba) (Z.to_nat cnt)
         ++ drop (Z.to_nat cnt) (cs_buf st);
       cs_nonsparse := cs_nonsparse st |}.
Proof.
  intros Hlba Hcnt Hin Hsz. unfold buf_fill.
  rewrite reader_plain_read_in_range by lia.
  cbv zeta.
  rewrite ref_read_full; cbn [f_pos f_size file_set_pos]; try lia.
  cbn [fst snd].
  rewrite Z.div_mul by lia.
  rewrite file_range_set_pos, file_range_length.
  f_equal. unfold file_set_pos. cbn. f_equal. lia.
Qed.

Lemma buf_write_spec (st : CopyState) (idx : nat) (lba cnt : Z) :
  0 <= lba -> 0 <= cnt -> lba + cnt <= n ->
  (idx + Z.to_nat cnt <= length (cs_buf st))%nat ->
  let st' := buf_write rd_dest st idx lba cnt in
  f_data (cs_dst st')
  = store_range (f_data (cs_dst st)) lba
      (take (Z.to_nat cnt) (drop idx (cs_buf st)))
  /\ f_size (cs_dst st') = Z.max (f_size (cs_dst st)) ((lba + cnt) * 512)
  /\ cs_src st' = cs_src st /\ cs_buf st' = cs_buf st
  /\ cs_nonsparse st' = cs_nonsparse st /\ cs_errno st' = cs_errno st.
Proof.
  intros Hlba Hcnt Hin Hlen. destruct Hdest as [Hd0 Hdn].
  unfold buf_write.
  rewrite reader_plain_write_in_range by lia.
  cbv zeta. unfold ref_write. cbn [fst snd f_data f_size f_pos file_set_pos
                                   cs_dst cs_src cs_buf cs_nonsparse cs_errno].
  rewrite Hd0. unfold LBA_SIZE. rewrite Z.add_0_l, Z.div_mul by lia.
  rewrite length_take, length_drop.
  rewrite Nat.min_l by lia. rewrite Z2Nat.id by lia.
  repeat split; try reflexivity. f_equal. lia.
Qed.

End CopyIO.

(** *** Sectors *)

Lemma zero_sector_length : length zero_sector = 512%nat.
Proof. reflexivity. Qed.

Lemma all_zero_repeat (s : Sector) :
  forallb is_zero_byte s = true -> s = repeat x00 (length s).
Proof.
  induction s as [|b s IH]; intros H; [reflexivity|].
  cbn [forallb] in H. apply andb_true_iff in H as [Hb Hs].
  cbn [length repeat]. f_equal.
  - apply byte_dec_bl. exact Hb.
  - apply IH. exact Hs.
Qed.

Lemma all_zero_is_zero_sector (s : Sector) :
  length s = 512%nat -> forallb is_zero_byte s = true -> s = zero_sector.
Proof.
  intros Hlen Hz. rewrite (all_zero_repeat s Hz), Hlen. reflexivity.
Qed.

Lemma file_lba_length (f : RefFile) (i : Z) :
  file_wf f -> length (file_lba f i) = 512%nat.
Proof.
  intros Hwf. unfold file_lba.
  destruct (f_data f !! i) as [s|] eqn:Hs; simpl.
  - exact (Hwf i s Hs).
  - reflexivity.
Qed.

Lemma file_lba_data (f f' : RefFile) (i : Z) :
  f_data f = f_data f' -> file_lba f i = file_lba f' i.
Proof. intros H. unfold file_lba. rewrite H. reflexivity. Qed.

Lemma file_range_data (f f' : RefFile) (n : nat) :
  f_data f = f_data f' ->
  forall lba, file_range f lba n = file_range f' lba n.
Proof.
  intros H. induction n as [|n IH]; intros lba; simpl; [reflexivity|].
  rewrite IH, (file_lba_data f f' lba H). reflexivity.
Qed.

Lemma extracted_lba_length (L : Layout) (entry_src : RvtH_BankEntry)
    (f : RefFile) (s0 i : Z) :
  file_wf f -> (length (discHeader entry_src) <= 512)%nat ->
  length (extracted_lba L entry_src f s0 i) = 512%nat.
Proof.
  intros Hwf Hhdr. unfold extracted_lba.
  destruct ((i =? 0) && negb (has_magic L (file_lba f s0))).
  - unfold memcpy_sector. rewrite length_app, length_drop.
    rewrite file_lba_length by assumption. lia.
  - apply file_lba_length. assumption.
Qed.

(** A block of sectors that is empty holds zero sectors only. *)
Lemma block_empty_lookup (blk : list Sector) (k : nat) (s : Sector) :
  rvth_is_block_empty blk = true -> blk !! k = Some s ->
  forallb is_zero_byte s = true.
Proof.
  unfold rvth_is_block_empty. intros H Hk.
  rewrite forallb_forall in H. apply H.
  apply list_elem_of_In. eapply list_elem_of_lookup_2. exact Hk.
Qed.

(** *** The loop over the 4 KB blocks of one chunk *)

Section Sparse4k.

Variable img : Z -> Sector.
Variable n : Z.
Variable src0 : RefFile.
Variable rd_src rd_dest : Reader.
Variable lba_count : Z.
Variable B : list Sector.

Hypothesis Hn : 0 <= n < 2 ^ 32.
Hypothesis Hdest : r_lba_start rd_dest = 0 /\ r_lba_len rd_dest = n.
Hypothesis Himg : forall i, length (img i) = 512%nat.
Hypothesis Hcount : 0 <= lba_count /\ lba_count + 2048 <= n.
Hypothesis HB : length B = 2048%nat.
Hypothesis HBimg :
  forall k : nat, (k < 2048)%nat -> B !! k = Some (img (lba_count + Z.of_nat k)).

Lemma block_of_chunk (j k : nat) :
  (j < 256)%nat -> (k < 8)%nat ->
  take 8 (drop (8 * j) B) !! k
  = Some (img (lba_count + 8 * Z.of_nat j + Z.of_nat k)).
Proof.
  intros Hj Hk. rewrite lookup_take_lt by lia. rewrite lookup_drop.
  rewrite HBimg by lia. f_equal. f_equal. lia.
Qed.

Lemma sparse_4k_inv (trips : nat) :
  forall (j : nat) (st : CopyState),
    (j + trips = 256)%nat ->
    cs_buf st = B ->
    copy_inv img n src0 (lba_count + 8 * Z.of_nat j) st ->
    copy_inv img n src0 (lba_count + 2048)
      (sparse_4k rd_dest trips (4096 * Z.of_nat j) lba_count st)
    /\ cs_buf (sparse_4k rd_dest trips (4096 * Z.of_nat j) lba_count st) = B.
Proof.
  induction trips as [|trips IH]; intros j st Hj Hbuf Hinv.
  - cbn [sparse_4k]. replace (lba_count + 2048)
      with (lba_count + 8 * Z.of_nat j) by lia. auto.
  - cbn [sparse_4k].
    replace (4096 * Z.of_nat j + 4096) with (4096 * Z.of_nat (S j)) by lia.
    replace (4096 * Z.of_nat j / 512) with (8 * Z.of_nat j)
      by (apply Z.div_unique_exact; lia).
    replace (Z.to_nat (8 * Z.of_nat j)) with (8 * j)%nat by lia.
    set (m := lba_count + 8 * Z.of_nat j) in *.
    assert (Hm : u32_add lba_count (8 * Z.of_nat j) = m).
    { unfold u32_add. apply u32_small. unfold is_u32, m. lia. }
    assert (Hblk : forall k : nat, (k < 8)%nat ->
              take 8 (drop (8 * j) (cs_buf st)) !! k
              = Some (img (m + Z.of_nat k))).
    { intros k Hk. rewrite Hbuf. unfold m. apply block_of_chunk; lia. }
    destruct (rvth_is_block_empty (take 8 (drop (8 * j) (cs_buf st))))
      eqn:Hempty; cbn [negb].
    + (* the block is skipped *)
      apply IH; [lia | assumption |].
      assert (Hzero : forall k : nat, (k < 8)%nat ->
                img (m + Z.of_nat k) = zero_sector).
      { intros k Hk. apply all_zero_is_zero_sector; [apply Himg|].
        eapply block_empty_lookup; [exact Hempty | apply Hblk; lia]. }
      destruct Hinv as [Hc Hf Hr Hz Hs Hd Hsz Hb].
      replace (lba_count + 8 * Z.of_nat (S j)) with (m + 8) by lia.
      split; try assumption.
      * intros i Hi. destruct (Z.lt_ge_cases i m) as [Hlt|Hge].
        -- apply Hc. lia.
        -- unfold file_lba. rewrite Hf by lia. simpl.
           replace i with (m + Z.of_nat (Z.to_nat (i - m))) by lia.
           symmetry. apply Hzero. lia.
      * intros i Hi. apply Hf. lia.
      * destruct Hr as [Hr|Hr]; [left; lia | right; exact Hr].
      * intros _ _. replace (m + 8 - 1) with (m + Z.of_nat 7) by lia.
        apply Hzero. lia.
    + (* the block is written *)
      rewrite Hm.
      pose proof (buf_write_spec rd_dest n Hn Hdest st (8 * j) m 8) as Hw.
      cbv zeta in Hw.
      destruct Hw as (Hdata & Hsize & Hsrc & Hbuf' & _ & _);
        [unfold m; lia | lia | unfold m; lia | rewrite Hbuf, HB; lia |].
      change (Z.to_nat 8) with 8%nat in Hdata.
      set (st1 := buf_write rd_dest st (8 * j) m 8) in *.
      apply IH; [lia | cbn; rewrite Hbuf'; exact Hbuf |].
      destruct Hinv as [Hc Hf Hr Hz Hs Hd Hsz Hb].
      replace (lba_count + 8 * Z.of_nat (S j)) with (m + 8) by lia.
      assert (Hlen8 : length (take 8 (drop (8 * j) (cs_buf st))) = 8%nat).
      { rewrite length_take, length_drop, Hbuf, HB. lia. }
      split; cbn [set_nonsparse cs_dst cs_src cs_buf cs_nonsparse].
      * intros i Hi. unfold file_lba. rewrite Hdata, store_range_lookup.
        rewrite Hlen8. destruct (decide (m <= i < m + Z.of_nat 8)) as [Hin|Hout].
        -- rewrite Hblk by lia. simpl. f_equal. lia.
        -- apply Hc. lia.
      * intros i Hi. rewrite Hdata, store_range_lookup, Hlen8.
        destruct (decide (m <= i < m + Z.of_nat 8)) as [Hin|Hout]; [lia|].
        apply Hf. lia.
      * left. unfold u32_add. rewrite u32_small by (unfold is_u32, m; lia).
        unfold m. lia.
      * intros _ Hne. exfalso. apply Hne.
        unfold u32_add. rewrite u32_small by (unfold is_u32, m; lia). lia.
      * rewrite Hsize, Hs. unfold m. lia.
      * rewrite Hsrc. exact Hd.
      * rewrite Hsrc. exact Hsz.
      * rewrite Hbuf'. exact Hb.
Qed.

End Sparse4k.

(** *** The loop over the whole chunks *)

Lemma LBA_COUNT_BUF_value : LBA_COUNT_BUF = 2048.
Proof. reflexivity. Qed.

Section Chunks.

Variable L : Layout.
Variable callback : RvtH_Progress_Callback.
Variable entry_src : RvtH_BankEntry.
Variable rd_src rd_dest : Reader.
Variable state : RvtH_Progress_State.
Variable n : Z.
Variable src0 : RefFile.

Hypothesis Hn : 0 <= n < 2 ^ 32.
Hypothesis Hsrc_len : r_lba_len rd_src = n.
Hypothesis Hsrc_start : 0 <= r_lba_start rd_src.
Hypothesis Hsrc_nowrap : r_lba_start rd_src + n < 2 ^ 32.
Hypothesis Hdest : r_lba_start rd_dest = 0 /\ r_lba_len rd_dest = n.
Hypothesis Hstream : (r_lba_start rd_src + n) * 512 <= f_size src0.
Hypothesis Hwf : file_wf src0.
Hypothesis Hhdr : (length (discHeader entry_src) <= 512)%nat.
Hypothesis Hcb : forall s lba, callback_stops callback s lba = false.

Let img : Z -> Sector := extracted_lba L entry_src src0 (r_lba_start rd_src).

Lemma img_length (i : Z) : length (img i) = 512%nat.
Proof. apply extracted_lba_length; assumption. Qed.

(** The buffer after the read of a chunk and, for the first chunk, the
    restoration of the disc header: the sectors of the bank as the
    extract sees it. *)
Lemma chunk_buffer (lba_count : Z) (st : CopyState) :
  0 <= lba_count -> lba_count + 2048 <= n ->
  f_data (cs_src st) = f_data src0 -> f_size (cs_src st) = f_size src0 ->
  length (cs_buf st) = 2048%nat ->
  let st1 := buf_fill rd_src st lba_count 2048 in
  let st2 :=
    if lba_count =? 0 then restore_disc_header L entry_src st1 else st1 in
  length (cs_buf st2) = 2048%nat
  /\ (forall k : nat, (k < 2048)%nat ->
        cs_buf st2 !! k = Some (img (lba_count + Z.of_nat k)))
  /\ cs_dst st2 = cs_dst st /\ cs_nonsparse st2 = cs_nonsparse st
  /\ f_data (cs_src st2) = f_data src0 /\ f_size (cs_src st2) = f_size src0.
Proof.
  intros Hlo Hhi Hdata Hsize Hbuf st1 st2.
  assert (Hst1 : st1
    = {| cs_src := file_set_pos (cs_src st)
                     ((r_lba_start rd_src + lba_count + 2048) * 512);
         cs_dst := cs_dst st; cs_errno := cs_errno st;
         cs_buf := file_range src0 (r_lba_start rd_src + lba_count) 2048;
         cs_nonsparse := cs_nonsparse st |}).
  { unfold st1. rewrite (buf_fill_spec rd_src n) by (auto; lia).
    change (Z.to_nat 2048) with 2048%nat.
    rewrite drop_ge by lia. rewrite app_nil_r.
    rewrite (file_range_data (cs_src st) src0 2048 Hdata). reflexivity. }
  assert (Hfr : forall k : nat, (k < 2048)%nat ->
            file_range src0 (r_lba_start rd_src + lba_count) 2048 !! k
            = Some (file_lba src0 (r_lba_start rd_src + lba_count + Z.of_nat k))).
  { intros k Hk. apply file_range_lookup. exact Hk. }
  assert (Hplain : forall i, i <> 0 ->
            img i = file_lba src0 (r_lba_start rd_src + i)).
  { intros i Hi. unfold img, extracted_lba.
    destruct (Z.eqb_spec i 0); [contradiction | reflexivity]. }
  unfold st2. clear st2.
  destruct (Z.eqb_spec lba_count 0) as [H0|Hne].
  - (* the first chunk *)
    subst lba_count. unfold restore_disc_header. rewrite Hst1.
    cbn [cs_buf cs_src cs_dst cs_nonsparse set_buf].
    assert (Hhd : hd zero_sector (file_range src0 (r_lba_start rd_src + 0) 2048)
                  = file_lba src0 (r_lba_start rd_src)).
    { change 2048%nat with (S 2047). cbn [file_range hd].
      rewrite Z.add_0_r. reflexivity. }
    rewrite Hhd.
    assert (Hmagic :
      negb (be32_at (file_lba src0 (r_lba_start rd_src)) (magic_wii_off L)
              =? WII_MAGIC)
      && negb (be32_at (file_lba src0 (r_lba_start rd_src)) (magic_gcn_off L)
                 =? GCN_MAGIC)
      = negb (has_magic L (file_lba src0 (r_lba_start rd_src)))).
    { unfold has_magic. rewrite negb_orb. reflexivity. }
    rewrite Hmagic.
    destruct (has_magic L (file_lba src0 (r_lba_start rd_src))) eqn:Hm;
      cbn [negb cs_buf cs_src cs_dst cs_nonsparse set_buf].
    + split; [apply file_range_length|]. split; [|auto].
      intros k Hk. rewrite Hfr by exact Hk.
      f_equal. unfold img, extracted_lba. rewrite Hm, andb_false_r.
      f_equal. lia.
    + split; [rewrite length_insert; apply file_range_length|].
      split; [|auto].
      intros k Hk. destruct k as [|k].
      * rewrite list_lookup_insert_eq by (rewrite file_range_length; lia).
        f_equal. change (0 + Z.of_nat 0) with 0.
        unfold img, extracted_lba. rewrite Hm. reflexivity.
      * rewrite list_lookup_insert_ne by lia. rewrite Hfr by exact Hk.
        rewrite Hplain by lia. f_equal. f_equal. lia.
  - rewrite Hst1. cbn [cs_buf cs_src cs_dst cs_nonsparse].
    split; [apply file_range_length|]. split; [|auto].
    intros k Hk. rewrite Hfr by exact Hk.
    rewrite Hplain by lia. f_equal. f_equal. lia.
Qed.

Lemma gcm_chunks_inv (trips : nat) :
  forall (c : nat) (st : CopyState),
    2048 * Z.of_nat (c + trips) <= n ->
    copy_inv img n src0 (2048 * Z.of_nat c) st ->
    exists st',
      gcm_chunks L callback entry_src rd_src rd_dest state trips
        (2048 * Z.of_nat c) st
      = Some (false, 2048 * Z.of_nat (c + trips), st')
      /\ copy_inv img n src0 (2048 * Z.of_nat (c + trips)) st'.
Proof.
  induction trips as [|trips IH]; intros c st Hfit Hinv.
  - exists st. rewrite Nat.add_0_r. split; [reflexivity | assumption].
  - cbn [gcm_chunks]. rewrite Hcb.
    rewrite LBA_COUNT_BUF_value.
    change (loop_trips BUF_SIZE 4096) with 256%nat.
    set (lba_count := 2048 * Z.of_nat c) in *.
    destruct Hinv as [Hc Hf Hr Hz Hs Hd Hsz Hb].
    destruct (buf_read_fits rd_src st lba_count 2048) as [-> _];
      [rewrite Hb; lia|].
    destruct (chunk_buffer lba_count st) as (Hlen & Hbuf & Hdst & Hns & Hd' & Hsz');
      try assumption; try (unfold lba_count; lia).
    set (st2 := if lba_count =? 0
                then restore_disc_header L entry_src
                       (buf_fill rd_src st lba_count 2048)
                else buf_fill rd_src st lba_count 2048) in *.
    destruct (sparse_4k_inv img n src0 rd_dest lba_count (cs_buf st2)
                Hn Hdest img_length ltac:(unfold lba_count; lia) Hlen Hbuf
                256 0%nat st2) as [Hinv3 _].
    + reflexivity.
    + reflexivity.
    + replace (lba_count + 8 * Z.of_nat 0) with lba_count by lia.
      split; rewrite ?Hdst, ?Hns; assumption.
    + change (4096 * Z.of_nat 0) with 0 in Hinv3.
      assert (Hnext : u32_add lba_count 2048 = 2048 * Z.of_nat (S c)).
      { unfold u32_add. rewrite u32_small by (unfold is_u32, lba_count; lia).
        unfold lba_count. lia. }
      rewrite Hnext.
      destruct (IH (S c) (sparse_4k rd_dest 256 0 lba_count st2))
        as (st' & Hrun & Hinv').
      * replace (S c + trips)%nat with (c + S trips)%nat by lia. exact Hfit.
      * replace (2048 * Z.of_nat (S c)) with (lba_count + 2048)
          by (unfold lba_count; lia).
        exact Hinv3.
      * exists st'. replace (c + S trips)%nat with (S c + trips)%nat by lia.
        split; assumption.
Qed.

End Chunks.

(** *** The whole extract *)

(** [lba_len & ~(LBA_COUNT_BUF-1)] rounds down to a whole number of
    chunks. *)
Lemma lba_buf_max_value (n : Z) :
  0 <= n < 2 ^ 32 ->
  Z.land n (u32 (Z.lnot (LBA_COUNT_BUF - 1))) = 2048 * (n / 2048).
Proof.
  intros Hn. rewrite LBA_COUNT_BUF_value.
  change (2048 - 1) with (Z.ones 11).
  unfold u32. rewrite <- (Z.land_ones _ 32) by lia.
  rewrite (Z.land_comm (Z.lnot (Z.ones 11))), Z.land_assoc.
  rewrite (Z.land_ones n 32) by lia.
  rewrite (Z.mod_small n) by lia.
  rewrite <- Z.ldiff_land, Z.ldiff_ones_r by lia.
  rewrite Z.shiftr_div_pow2, Z.shiftl_mul_pow2 by lia.
  change (2 ^ 11) with 2048. lia.
Qed.

Lemma loop_trips_chunks (q : Z) :
  0 <= q -> loop_trips (2048 * q) LBA_COUNT_BUF = Z.to_nat q.
Proof.
  intros Hq. unfold loop_trips. rewrite LBA_COUNT_BUF_value. f_equal.
  symmetry. apply (Z.div_unique _ _ _ 2047); lia.
Qed.

(** A read changes nothing of the destination. *)
Lemma buf_fill_dst (rd : Reader) (st : CopyState) (lba cnt : Z) :
  cs_dst (buf_fill rd st lba cnt) = cs_dst st
  /\ cs_nonsparse (buf_fill rd st lba cnt) = cs_nonsparse st
  /\ (length (cs_buf st) <= length (cs_buf (buf_fill rd st lba cnt)))%nat.
Proof.
  unfold buf_fill.
  destruct (ReaderPlain.reader_plain_read rd (cs_src st) (cs_errno st) lba cnt)
    as [[[c data] f'] e'].
  cbn. repeat split. rewrite length_app, length_drop. lia.
Qed.

Section Tail.

Variable img : Z -> Sector.
Variable n M : Z.
Variable rd_dest : Reader.

Hypothesis Hn : 0 <= n < 2 ^ 32.
Hypothesis Hdest : r_lba_start rd_dest = 0 /\ r_lba_len rd_dest = n.

(** Writing the sector at LBA [M] keeps them. *)
Lemma buf_write_keeps_prefix (st : CopyState) :
  prefix_ok img n M st -> 0 <= M -> M + 1 <= n ->
  prefix_ok img n M (buf_write rd_dest st 0 M 1).
Proof.
  intros (Hpre & Hholes & Hsz & Hbuf) Hlo Hhi.
  destruct (buf_write_spec rd_dest n Hn Hdest st 0 M 1)
    as (Hdata & Hsize & _ & Hbuf' & _ & _); try lia.
  assert (Hone : (length (take (Z.to_nat 1) (drop 0 (cs_buf st))) <= 1)%nat).
  { rewrite length_take. change (Z.to_nat 1) with 1%nat. lia. }
  split; [|split; [|split]].
  - intros i Hi. unfold file_lba. rewrite Hdata, store_range_lookup.
    destruct (decide _) as [Hin|Hout]; [lia|]. apply Hpre. exact Hi.
  - intros j Hj. rewrite Hdata, store_range_lookup.
    destruct (decide _) as [Hin|Hout]; [lia|]. apply Hholes. exact Hj.
  - rewrite Hsize, Hsz. lia.
  - rewrite Hbuf'. exact Hbuf.
Qed.

Lemma sparse_512_keeps_prefix (trips : nat) (st : CopyState) :
  (trips <= 1)%nat -> 0 <= M -> M + 1 <= n ->
  prefix_ok img n M st ->
  prefix_ok img n M (sparse_512 rd_dest trips 0 M st).
Proof.
  intros Ht HM Hfit Hok. destruct trips as [|[|trips]]; [exact Hok | | lia].
  cbn [sparse_512]. change (Z.to_nat (0 / 512)) with 0%nat.
  change (0 / 512) with 0.
  destruct (negb (rvth_is_block_empty (take 1 (drop 0 (cs_buf st)))));
    [|exact Hok].
  assert (Hlba : u32_add M 0 = M).
  { unfold u32_add. rewrite Z.add_0_r. apply u32_small. unfold is_u32. lia. }
  rewrite Hlba.
  destruct (buf_write_keeps_prefix st Hok) as (H1 & H2 & H3 & H4); try lia.
  split; [|split; [|split]]; assumption.
Qed.

(** The zeroed final sector keeps them too: it lies past [M], or the
    sector of the bank it replaces is zero. *)
Lemma final_zero_keeps_prefix (st : CopyState) :
  prefix_ok img n M st -> 0 < n ->
  M <= n - 1 \/ img (n - 1) = zero_sector ->
  prefix_ok img n M
    (buf_write rd_dest (set_buf st (<[0%nat := zero_sector]> (cs_buf st)))
       0 (n - 1) 1).
Proof.
  intros (Hpre & Hholes & Hsz & Hbuf) Hpos Hlast.
  set (st' := set_buf st (<[0%nat := zero_sector]> (cs_buf st))).
  assert (Hbuf1 : (1 <= length (cs_buf st'))%nat).
  { unfold st'. cbn. rewrite length_insert. exact Hbuf. }
  destruct (buf_write_spec rd_dest n Hn Hdest st' 0 (n - 1) 1)
    as (Hdata & Hsize & _ & Hbuf' & _ & _); try lia.
  assert (Hsec : take (Z.to_nat 1) (drop 0 (cs_buf st')) = [zero_sector]).
  { unfold st'. cbn [set_buf cs_buf]. destruct (cs_buf st) as [|b rest];
      [simpl in Hbuf; lia | reflexivity]. }
  rewrite Hsec in Hdata.
  split; [|split; [|split]].
  - intros i Hi. unfold file_lba. rewrite Hdata, store_range_lookup.
    cbn [length]. destruct (decide (n - 1 <= i < n - 1 + Z.of_nat 1)) as [Hin|Hout].
    + assert (i = n - 1) as -> by lia. rewrite Z.sub_diag. cbn.
      destruct Hlast as [Hlast|Hlast]; [lia | symmetry; exact Hlast].
    + apply Hpre. exact Hi.
  - intros j Hj. rewrite Hdata, store_range_lookup. cbn [length].
    destruct (decide (n - 1 <= j < n - 1 + Z.of_nat 1)) as [Hin|Hout]; [lia|].
    apply Hholes. exact Hj.
  - rewrite Hsize. cbn [st' set_buf cs_dst]. rewrite Hsz. lia.
  - rewrite Hbuf'. exact Hbuf1.
Qed.

End Tail.

(** A run of [rvth_copy_to_gcm] that is not stopped: the whole chunks
    are copied, and of an incomplete last chunk only its first and its
    last LBA can be written. *)
Lemma rvth_copy_to_gcm_run (L : Layout) (now : Z)
    (heap : nat -> Sector) (callback : RvtH_Progress_Callback)
    (rvth_dest rvth_src : RvtH) (bank_src errno n : Z)
    (entry_src : RvtH_BankEntry) (rd_src : Reader) :
  extract_ready rvth_dest rvth_src bank_src n entry_src rd_src ->
  (forall s lba, callback_stops callback s lba = false) ->
  exists c,
    rvth_copy_to_gcm L now heap callback rvth_dest rvth_src bank_src errno
    = Some c
    /\ c_ret c = 0
    /\ f_size (f_img (c_dest c)) = n * 512
    /\ (forall i, 0 <= i < 2048 * (n / 2048) ->
          file_lba (f_img (c_dest c)) i
          = extracted_lba L entry_src (f_img rvth_src) (r_lba_start rd_src) i)
    /\ (forall j, 2048 * (n / 2048) < j < n - 1 ->
          f_data (f_img (c_dest c)) !! j = None).
Proof.
  intros [Hn Hbank Hentry Htype Hlen Hreader (Hwlen & Hwstart & Hwrap)
          Hstream Hwf Hhdr (Hhdd & Hone) Hnew
          (entry_dest & t & Hedest & Hdlen & Hdreader)] Hcb.
  set (img := extracted_lba L entry_src (f_img rvth_src) (r_lba_start rd_src)).
  set (rd_dest := mkReader 0 n t) in *.
  set (q := n / 2048).
  assert (Hq : 0 <= q) by (apply Z.div_pos; lia).
  assert (HM : 2048 * q <= n) by (apply Z.mul_div_le; lia).
  assert (Hn' : 0 <= n < 2 ^ 32) by lia.
  unfold rvth_copy_to_gcm.
  destruct (Z.leb_spec (bank_count rvth_src) bank_src); [lia|].
  rewrite Hhdd, Hone. cbn [orb negb Z.eqb Pos.eqb].
  rewrite Hentry. cbn [mbind option_bind]. rewrite Htype.
  rewrite Hedest. cbn [mbind option_bind].
  unfold ref_makeSparse. cbn [negb Z.eqb].
  rewrite Hreader. cbn [mbind option_bind reader copy_bank_info].
  rewrite Hdreader. cbn [mbind option_bind lba_len].
  rewrite Hdlen, Hlen.
  replace (lba_len (copy_bank_info now entry_src entry_dest n)) with n
    by reflexivity.
  rewrite (lba_buf_max_value n) by lia. fold q.
  rewrite loop_trips_chunks by exact Hq.
  match goal with
  | |- context [gcm_chunks _ _ _ _ _ ?s _ _ ?st] =>
    set (state := s); set (st0 := st)
  end.
  assert (Hinv0 : copy_inv img n (f_img rvth_src) (2048 * Z.of_nat 0) st0).
  { split; cbn [st0 cs_dst cs_src cs_buf cs_nonsparse f_data f_size].
    - intros i Hi. lia.
    - intros j _. rewrite Hnew, map_filter_empty. apply lookup_empty.
    - right. reflexivity.
    - intros H8. lia.
    - reflexivity.
    - reflexivity.
    - reflexivity.
    - unfold malloc_buf. rewrite length_map, length_seq. reflexivity. }
  destruct (gcm_chunks_inv L callback entry_src rd_src rd_dest state n
              (f_img rvth_src) Hn' Hwlen Hwstart Hwrap
              (conj eq_refl eq_refl) Hstream Hwf Hhdr Hcb
              (Z.to_nat q) 0%nat st0) as (st1 & Hrun & Hinv1).
  { cbn [Nat.add]. lia. }
  { exact Hinv0. }
  change (2048 * Z.of_nat 0) with 0 in Hrun.
  cbn [Nat.add] in Hrun, Hinv1. rewrite Z2Nat.id in Hrun, Hinv1 by exact Hq.
  fold img in Hinv1.
  rewrite Hrun. cbv zeta. cbn match.
  rewrite !Hcb.
  set (M := 2048 * q) in *.
  assert (Hpre1 : prefix_ok img n M st1).
  { destruct Hinv1 as [Hc Hf _ _ Hs _ _ Hb].
    split; [exact Hc|]. split; [intros j Hj; apply Hf; lia|].
    split; [exact Hs | lia]. }
  assert (Hsub : u32_sub n 1 = n - 1).
  { unfold u32_sub. apply u32_small. unfold is_u32. lia. }
  rewrite Hsub.
  assert (Hst2 : exists st2,
    (if M <? n
     then
       match buf_read rd_src st1 M (n - M) with
       | Some st2 =>
         if (length (cs_buf st2)
             <? loop_trips (BYTES_TO_LBA (n - M)) 512)%nat
         then None
         else
           Some (false,
                 sparse_512 rd_dest (loop_trips (BYTES_TO_LBA (n - M)) 512)
                   0 M st2)
       | None => None
       end
     else Some (false, st1)) = Some (false, st2)
    /\ prefix_ok img n M st2
    /\ (M <= n - 1
        \/ (cs_nonsparse st2 <> n - 1 -> img (n - 1) = zero_sector))).
  { assert (Hrem : 0 <= n - M < 2048).
    { unfold M, q. pose proof (Z.mod_pos_bound n 2048 ltac:(lia)) as Hb.
      rewrite Z.mod_eq in Hb by lia. lia. }
    assert (Htrips : (loop_trips (BYTES_TO_LBA (n - M)) 512 <= 1)%nat).
    { unfold loop_trips, BYTES_TO_LBA, LBA_SIZE.
      assert (Hd : 0 <= (n - M) / 512 <= 3).
      { split; [apply Z.div_pos; lia|].
        apply Z.lt_succ_r. apply Z.div_lt_upper_bound; lia. }
      rewrite u32_small by (unfold is_u32; lia).
      assert (((n - M) / 512 + 512 - 1) / 512 <= 1).
      { apply Z.lt_succ_r. apply Z.div_lt_upper_bound; lia. }
      lia. }
    destruct (Z.ltb_spec M n) as [Hlt|Hge].
    - destruct (buf_read_fits rd_src st1 M (n - M)) as [-> Hlenf].
      { destruct Hinv1 as [_ _ _ _ _ _ _ Hb]. rewrite Hb. lia. }
      assert (Hidx : (length (cs_buf (buf_fill rd_src st1 M (n - M)))
                      <? loop_trips (BYTES_TO_LBA (n - M)) 512)%nat = false).
      { apply Nat.ltb_ge. rewrite Hlenf.
        destruct Hinv1 as [_ _ _ _ _ _ _ Hb]. rewrite Hb. lia. }
      rewrite Hidx.
      eexists. split; [reflexivity|]. split; [|left; lia].
      apply (sparse_512_keeps_prefix img n M rd_dest Hn' (conj eq_refl eq_refl));
        try lia.
      + destruct Hpre1 as (H1 & H2 & H3 & H4).
        destruct (buf_fill_dst rd_src st1 M (n - M)) as (Hd & _ & Hl).
        split; [|split; [|split]]; rewrite ?Hd; try assumption. lia.
    - exists st1. split; [reflexivity|]. split; [exact Hpre1|]. right.
      assert (M = n) by lia.
      intros Hns. destruct Hinv1 as [_ _ _ Hz _ _ _ _].
      replace n with M at 1 by assumption. apply Hz.
      + unfold M, q in *.
        assert (1 <= n / 2048); [|lia].
        destruct (Z.le_gt_cases 1 (n / 2048)) as [?|Hs]; [assumption|].
        assert (n / 2048 = 0) by lia. lia.
      + congruence. }
  destruct Hst2 as (st2 & -> & Hpre2 & Hlast).
  cbn match.
  eexists. split; [reflexivity|].
  cbn [c_ret c_dest set_entry f_img].
  split; [reflexivity|].
  destruct (Z.eqb_spec (cs_nonsparse st2) (n - 1)) as [Heq|Hne]; cbn [negb].
  - destruct Hpre2 as (H1 & H2 & H3 & _). repeat split; assumption.
  - destruct (final_zero_keeps_prefix img n M rd_dest Hn'
                (conj eq_refl eq_refl) st2 Hpre2) as (H1 & H2 & H3 & _).
    + lia.
    + destruct Hlast as [Hl|Hl]; [left; exact Hl | right; apply Hl; exact Hne].
    + repeat split; assumption.
Qed.


(** X27.  The remainder of a bank (a defect of the code), in general:
    in an extract that is not stopped and returns 0, the LBAs strictly
    between the first and the last of an incomplete last chunk
    are never written, so they read as zero in the extracted file
    whatever the source holds there. *)
Lemma rvth_copy_to_gcm_remainder_not_copied (L : Layout) (now : Z)
    (heap : nat -> Sector) (callback : RvtH_Progress_Callback)
    (rvth_dest rvth_src : RvtH) (bank_src errno n : Z)
    (entry_src : RvtH_BankEntry) (rd_src : Reader) :
  extract_ready rvth_dest rvth_src bank_src n entry_src rd_src ->
  (forall s lba, callback_stops callback s lba = false) ->
  exists c,
    rvth_copy_to_gcm L now heap callback rvth_dest rvth_src bank_src errno
    = Some c
    /\ c_ret c = 0
    /\ forall j, 2048 * (n / 2048) < j < n - 1 ->
         file_lba (f_img (c_dest c)) j = zero_sector.
Proof.
  intros Hready Hcb.
  destruct (rvth_copy_to_gcm_run L now heap callback rvth_dest rvth_src
              bank_src errno n entry_src rd_src Hready Hcb)
    as (c & Hrun & Hret & _ & _ & Hholes).
  exists c. split; [exact Hrun|]. split; [exact Hret|].
  intros j Hj. unfold file_lba. rewrite Hholes by exact Hj. reflexivity.
Qed.



(** X28.  The header of a flushed bank of at least one whole chunk is
    restored: where the first sector of the bank has neither magic
    number and the bank has 2048 LBAs or more, the first 512 bytes of
    the extracted file are the cached disc header. *)
Lemma rvth_copy_to_gcm_restores_header (L : Layout) (now : Z)
    (heap : nat -> Sector) (callback : RvtH_Progress_Callback)
    (rvth_dest rvth_src : RvtH) (bank_src errno n : Z)
    (entry_src : RvtH_BankEntry) (rd_src : Reader) :
  extract_ready rvth_dest rvth_src bank_src n entry_src rd_src ->
  (forall s lba, callback_stops callback s lba = false) ->
  2048 <= n ->
  has_magic L (file_lba (f_img rvth_src) (r_lba_start rd_src)) = false ->
  length (discHeader entry_src) = 512%nat ->
  exists c,
    rvth_copy_to_gcm L now heap callback rvth_dest rvth_src bank_src errno
    = Some c
    /\ file_lba (f_img (c_dest c)) 0 = discHeader entry_src.
Proof.
  intros Hready Hcb Hbig Hmagic Hhdr.
  destruct (rvth_copy_to_gcm_run L now heap callback rvth_dest
              rvth_src bank_src errno n entry_src rd_src Hready Hcb)
    as (c & Hrun & _ & _ & Hcopy & _).
  exists c. split; [exact Hrun|].
  rewrite Hcopy.
  - unfold extracted_lba. rewrite Hmagic. cbn [Z.eqb andb negb].
    unfold memcpy_sector. rewrite drop_ge; [apply app_nil_r|].
    rewrite file_lba_length by (destruct Hready; assumption). lia.
  - assert (1 <= n / 2048) by (apply Z.div_le_lower_bound; lia). lia.
Qed.

(** ** Cancellation *)

(** Whatever the callback does, [rvth_copy_to_gcm] never returns
    [-ECANCELED]: where the callback stops the copy, the return code is
    the 0 it was initialized with. *)
Lemma rvth_copy_to_gcm_never_returns_ECANCELED (L : Layout) (now : Z)
    (heap : nat -> Sector) (callback : RvtH_Progress_Callback)
    (rvth_dest rvth_src : RvtH) (bank_src errno : Z) (c : CopyResult) :
  rvth_copy_to_gcm L now heap callback rvth_dest rvth_src bank_src errno
  = Some c ->
  c_ret c <> - ECANCELED.
Proof.
  unfold rvth_copy_to_gcm. intros H.
  repeat match type of H with
         | context [match ?x with _ => _ end] =>
           destruct x eqn:?; try discriminate
         | Some _ = Some _ => inversion H; subst; clear H
         | mbind _ _ = Some _ =>
           apply bind_Some in H; destruct H as (? & ? & H)
         end;
    cbn; unfold ECANCELED, ERANGE, ENOMEM, RVTH_ERROR_IS_HDD_IMAGE,
           RVTH_ERROR_BANK_UNKNOWN, RVTH_ERROR_BANK_EMPTY,
           RVTH_ERROR_BANK_DL_2 in *; try lia.
  destruct (type x); cbn in *; try discriminate;
    match goal with H : Some _ = Some _ |- _ => inversion H; subst end;
    unfold RVTH_ERROR_BANK_UNKNOWN, RVTH_ERROR_BANK_EMPTY,
           RVTH_ERROR_BANK_DL_2; lia.
Qed.

(** X29.  A callback that stops an extract at the first boundary:
    nothing is written to the destination, the source stream is as it
    was, [errno] is [ECANCELED] and the return code is 0. *)
Lemma rvth_copy_to_gcm_cancelled_at_start (L : Layout) (now : Z)
    (heap : nat -> Sector) (callback : RvtH_Progress_Callback)
    (rvth_dest rvth_src : RvtH) (bank_src errno n : Z)
    (entry_src : RvtH_BankEntry) (rd_src : Reader) :
  extract_ready rvth_dest rvth_src bank_src n entry_src rd_src ->
  callback_stops callback
    (mkProgress RVTH_PROGRESS_EXTRACT bank_src 0 0 n) 0 = true ->
  exists c,
    rvth_copy_to_gcm L now heap callback rvth_dest rvth_src bank_src errno
    = Some c
    /\ c_ret c = 0 /\ c_errno c = ECANCELED
    /\ f_data (f_img (c_dest c)) = ∅
    /\ f_img (c_src c) = f_img rvth_src.
Proof.
  intros [Hn Hbank Hentry Htype Hlen Hreader (Hwlen & Hwstart & Hwrap)
          Hstream Hwf Hhdr (Hhdd & Hone) Hnew
          (entry_dest & t & Hedest & Hdlen & Hdreader)] Hstop.
  unfold rvth_copy_to_gcm.
  destruct (Z.leb_spec (bank_count rvth_src) bank_src); [lia|].
  rewrite Hhdd, Hone. cbn [orb negb Z.eqb Pos.eqb].
  rewrite Hentry. cbn [mbind option_bind]. rewrite Htype.
  rewrite Hedest. cbn [mbind option_bind].
  unfold ref_makeSparse. cbn [negb Z.eqb].
  rewrite Hreader. cbn [mbind option_bind reader copy_bank_info].
  rewrite Hdreader. cbn [mbind option_bind lba_len].
  rewrite Hdlen, Hlen.
  replace (lba_len (copy_bank_info now entry_src entry_dest n)) with n
    by reflexivity.
  rewrite (lba_buf_max_value n) by lia.
  rewrite loop_trips_chunks by (apply Z.div_pos; lia).
  destruct (Z.to_nat (n / 2048)) as [|trips] eqn:Htrips.
  - cbn [gcm_chunks]. cbv zeta. cbn match.
    destruct (Z.ltb_spec 0 n); [|lia]. rewrite Hstop. cbn match.
    eexists. split; [reflexivity|]. cbn.
    repeat split. rewrite Hnew. apply map_filter_empty.
  - cbn [gcm_chunks]. rewrite Hstop. cbv zeta. cbn match.
    eexists. split; [reflexivity|]. cbn.
    repeat split. rewrite Hnew. apply map_filter_empty.
Qed.

(** * Further properties of the code *)

(** ** Error descriptions ([rvth_error]) *)

Lemma errtbl_NoDup : NoDup errtbl.
Proof. apply (bool_decide_unpack _). vm_compute. exact I. Qed.

(** X1.  [rvth_error] has exactly one description per [RvtH_Errors]
    code (the table has [RVTH_ERROR_MAX] entries), two different codes
    never share a description, none of them is described as "(unknown)",
    and every code from [RVTH_ERROR_MAX] on is. *)
Theorem rvth_error_descriptions (strerror : Z -> String.string) :
  Z.of_nat (length errtbl) = RVTH_ERROR_MAX
  /\ (forall a b,
        0 <= a < RVTH_ERROR_MAX -> 0 <= b < RVTH_ERROR_MAX ->
        rvth_error strerror a = rvth_error strerror b -> a = b)
  /\ (forall a,
        0 <= a < RVTH_ERROR_MAX ->
        rvth_error strerror a <> "(unknown)"%string)
  /\ (forall a,
        RVTH_ERROR_MAX <= a -> rvth_error strerror a = "(unknown)"%string).
Proof.
  assert (Hlen : Z.of_nat (length errtbl) = RVTH_ERROR_MAX) by reflexivity.
  assert (Hin : forall a, 0 <= a < RVTH_ERROR_MAX ->
            rvth_error strerror a = nth (Z.to_nat a) errtbl "(unknown)"%string).
  { intros a Ha. unfold rvth_error. rewrite Hlen.
    destruct (Z.ltb_spec a 0); [lia|].
    destruct (Z.leb_spec RVTH_ERROR_MAX a); [lia | reflexivity]. }
  assert (Hsome : forall a, 0 <= a < RVTH_ERROR_MAX ->
            errtbl !! Z.to_nat a = Some (rvth_error strerror a)).
  { intros a Ha. rewrite Hin by assumption.
    destruct (lookup_lt_is_Some_2 errtbl (Z.to_nat a)) as [s Hs]; [lia|].
    rewrite (nth_lookup_Some _ _ _ _ Hs). exact Hs. }
  split; [exact Hlen|]. split; [|split].
  - intros a b Ha Hb Heq.
    assert (Z.to_nat a = Z.to_nat b); [|lia].
    apply (NoDup_lookup errtbl _ _ (rvth_error strerror a) errtbl_NoDup).
    + apply Hsome. exact Ha.
    + rewrite Heq. apply Hsome. exact Hb.
  - intros a Ha Heq.
    assert (Hno : "(unknown)"%string ∉ errtbl).
    { apply (bool_decide_unpack _). vm_compute. exact I. }
    apply Hno. rewrite <- Heq.
    eapply list_elem_of_lookup_2. apply Hsome. exact Ha.
  - intros a Ha. unfold rvth_error. rewrite Hlen.
    destruct (Z.ltb_spec a 0); [unfold RVTH_ERROR_MAX in Ha; lia|].
    destruct (Z.leb_spec RVTH_ERROR_MAX a); [reflexivity | lia].
Qed.

(** ** The plain reader ([reader_plain.cpp], [reader_plain.c]) *)

(** Reading back the sectors a transfer stored. *)
Lemma file_range_store_range (f : RefFile) (d : gmap Z Sector) (lba : Z)
    (l : list Sector) :
  f_data f = store_range d lba l ->
  file_range f lba (length l) = l.
Proof.
  intros Hd. apply list_eq. intros k.
  destruct (decide (k < length l)%nat) as [Hk|Hk].
  - rewrite file_range_lookup by exact Hk.
    unfold file_lba. rewrite Hd, store_range_lookup.
    destruct (decide (lba <= lba + Z.of_nat k < lba + Z.of_nat (length l)))
      as [Hin|Hout]; [|lia].
    replace (Z.to_nat (lba + Z.of_nat k - lba)) with k by lia.
    destruct (l !! k) as [s|] eqn:E; [reflexivity|].
    apply lookup_ge_None in E. lia.
  - rewrite !lookup_ge_None_2; [reflexivity | lia |].
    rewrite file_range_length. lia.
Qed.

(** X2.  Round trip through a reader: a write of [n] sectors that lies
    inside the window (the window not wrapping around 32 bits) reports
    [n] LBAs written, and a read of the same [n] LBAs through the same
    reader reports [n] LBAs read and returns the sectors written. *)
Theorem reader_plain_write_read_round_trip (rd : Reader) (f : RefFile)
    (errno : Z) (ptr : list Sector) (lba_rel n : Z) :
  0 <= r_lba_start rd ->
  r_lba_start rd + r_lba_len rd < 2 ^ 32 ->
  0 <= lba_rel -> 0 <= n -> lba_rel + n <= r_lba_len rd ->
  (Z.to_nat n <= length ptr)%nat ->
  let w := ReaderPlain.reader_plain_write rd f errno ptr lba_rel n in
  let r := ReaderPlain.reader_plain_read rd (snd (fst w)) (snd w) lba_rel n in
  fst (fst w) = n
  /\ fst (fst (fst r)) = n
  /\ snd (fst (fst r)) = take (Z.to_nat n) ptr.
Proof.
  intros Hs Hw Hl Hn Hin Hptr w r.
  assert (Hwin : 0 <= r_lba_start rd /\ 0 <= r_lba_len rd
                 /\ r_lba_start rd + r_lba_len rd < 2 ^ 32) by lia.
  assert (Hreq : 0 <= lba_rel /\ 0 <= n
                 /\ r_lba_start rd + lba_rel + n < 2 ^ 32) by lia.
  assert (Hlen : length (take (Z.to_nat n) ptr) = Z.to_nat n).
  { rewrite length_take. lia. }
  assert (Hu : u32 n = n) by (apply u32_small; unfold is_u32; lia).
  assert (Hw' : w = (n,
            {| f_data := store_range (f_data f) (r_lba_start rd + lba_rel)
                           (take (Z.to_nat n) ptr);
               f_size := Z.max (f_size f)
                           ((r_lba_start rd + lba_rel) * 512 + n * 512);
               f_pos := (r_lba_start rd + lba_rel) * 512 + n * 512;
               f_device := f_device f |}, errno)).
  { unfold w. rewrite reader_plain_write_in_range by assumption.
    cbv zeta. unfold ref_write, LBA_SIZE.
    cbn [fst snd f_data f_size f_pos f_device file_set_pos].
    rewrite Hlen, Z2Nat.id, Hu, Z.div_mul by lia. reflexivity. }
  unfold r. rewrite Hw'. cbn [fst snd].
  split; [reflexivity|].
  rewrite reader_plain_read_in_range by assumption. cbv zeta.
  rewrite ref_read_full; cbn [f_pos f_size file_set_pos fst snd]; try lia.
  split; [exact Hu|].
  rewrite Z.div_mul by lia. rewrite file_range_set_pos.
  match goal with
  | |- file_range ?F ?lba _ = ?l =>
    pose proof (file_range_store_range F (f_data f) lba l eq_refl) as Hrt
  end.
  rewrite Hlen in Hrt. exact Hrt.
Qed.

Lemma reader_plain_write_read_round_trip_witness :
  fst (fst (ReaderPlain.reader_plain_write reader_100 file_100 0
              [sector_A; sector_B] 98 2)) = 2
  /\ fst (fst (fst
       (ReaderPlain.reader_plain_read reader_100
          (snd (fst (ReaderPlain.reader_plain_write reader_100 file_100 0
                       [sector_A; sector_B] 98 2)))
          (snd (ReaderPlain.reader_plain_write reader_100 file_100 0
                  [sector_A; sector_B] 98 2)) 98 2))) = 2
  /\ snd (fst (fst
       (ReaderPlain.reader_plain_read reader_100
          (snd (fst (ReaderPlain.reader_plain_write reader_100 file_100 0
                       [sector_A; sector_B] 98 2)))
          (snd (ReaderPlain.reader_plain_write reader_100 file_100 0
                  [sector_A; sector_B] 98 2)) 98 2)))
     = take (Z.to_nat 2) [sector_A; sector_B].
Proof.
  apply (reader_plain_write_read_round_trip reader_100 file_100 0
           [sector_A; sector_B] 98 2); simpl; lia.
Defined.

(** X3.  What a transfer through a reader can touch (window and request
    not wrapping around 32 bits): a read changes neither the contents
    nor the length of the stream; a write, accepted or refused, never
    shortens the stream and leaves every sector outside the window of
    the reader as it was. *)
Theorem reader_plain_io_confined (rd : Reader) (f : RefFile) (errno : Z)
    (ptr : list Sector) (lba_rel n : Z) :
  0 <= r_lba_start rd -> 0 <= r_lba_len rd ->
  r_lba_start rd + r_lba_len rd < 2 ^ 32 ->
  0 <= lba_rel -> 0 <= n -> r_lba_start rd + lba_rel + n < 2 ^ 32 ->
  let fr := snd (fst (ReaderPlain.reader_plain_read rd f errno lba_rel n)) in
  let fw := snd (fst (ReaderPlain.reader_plain_write rd f errno ptr lba_rel n)) in
  f_data fr = f_data f /\ f_size fr = f_size f
  /\ f_size f <= f_size fw
  /\ forall j,
       ~ (r_lba_start rd <= j < r_lba_start rd + r_lba_len rd) ->
       f_data fw !! j = f_data f !! j.
Proof.
  intros Hs Hlen Hw Hl Hn Hr fr fw.
  assert (Hwin : 0 <= r_lba_start rd /\ 0 <= r_lba_len rd
                 /\ r_lba_start rd + r_lba_len rd < 2 ^ 32) by lia.
  assert (Hreq : 0 <= lba_rel /\ 0 <= n
                 /\ r_lba_start rd + lba_rel + n < 2 ^ 32) by lia.
  destruct (Z.le_gt_cases (lba_rel + n) (r_lba_len rd)) as [Hin|Hout].
  - unfold fr, fw.
    rewrite reader_plain_read_in_range, reader_plain_write_in_range
      by assumption.
    cbv zeta. unfold ref_read, ref_write, LBA_SIZE.
    cbn [fst snd f_data f_size f_pos file_set_pos].
    split; [reflexivity|]. split; [reflexivity|]. split; [lia|].
    intros j Hj. rewrite store_range_lookup.
    rewrite Z.div_mul by lia.
    assert (Z.of_nat (length (take (Z.to_nat n) ptr)) <= n).
    { rewrite length_take. lia. }
    destruct (decide _) as [Hin'|Hout']; [lia | reflexivity].
  - unfold fr, fw.
    rewrite reader_plain_read_out_of_range, reader_plain_write_out_of_range
      by assumption.
    cbn [fst snd]. repeat split; try reflexivity; lia.
Qed.

Lemma reader_plain_io_confined_witness :
  let fr := snd (fst (ReaderPlain.reader_plain_read reader_100 file_100 0 99 2)) in
  let fw := snd (fst (ReaderPlain.reader_plain_write reader_100 file_100 0
                        [sector_A; sector_B] 99 2)) in
  f_data fr = f_data file_100 /\ f_size fr = f_size file_100
  /\ f_size file_100 <= f_size fw
  /\ forall j,
       ~ (r_lba_start reader_100 <= j
          < r_lba_start reader_100 + r_lba_len reader_100) ->
       f_data fw !! j = f_data file_100 !! j.
Proof.
  apply (reader_plain_io_confined reader_100 file_100 0
           [sector_A; sector_B] 99 2); simpl; lia.
Defined.

(** X4.  A reader opened with [lba_start = 0] and [lba_len = 0] covers
    the whole stream: its window starts at LBA 0 and has one LBA per
    complete 512 bytes of the stream (a partial LBA at the end is left
    out), it is never refused, and every request inside that window is
    read in full, from the stream's own sectors. *)
Theorem reader_plain_open_whole_file (f : RefFile) (errno : Z) :
  0 <= f_size f < 2 ^ 41 ->
  exists rd,
    ReaderPlain.reader_plain_open f errno 0 0 = (Some rd, 0)
    /\ r_lba_start rd = 0
    /\ r_lba_len rd * 512 <= f_size f < (r_lba_len rd + 1) * 512
    /\ forall errno' lba n,
         0 <= lba -> 0 <= n -> lba + n <= r_lba_len rd ->
         fst (fst (ReaderPlain.reader_plain_read rd f errno' lba n))
         = (n, file_range f lba (Z.to_nat n)).
Proof.
  intros Hsz.
  assert (Hq : 0 <= f_size f / 512 < 2 ^ 32).
  { split; [apply Z.div_pos; lia|]. apply Z.div_lt_upper_bound; lia. }
  assert (Hdiv : f_size f / 512 * 512 <= f_size f
                 < (f_size f / 512 + 1) * 512).
  { pose proof (Z.mod_pos_bound (f_size f) 512 ltac:(lia)) as Hm.
    rewrite Z.mod_eq in Hm by lia. lia. }
  eexists. split; [reflexivity|].
  cbn [r_lba_start r_lba_len Z.eqb andb]. unfold LBA_SIZE.
  rewrite u32_small by exact Hq.
  split; [reflexivity|]. split; [exact Hdiv|].
  intros errno' lba n Hlba Hn Hin.
  rewrite reader_plain_read_in_range;
    cbn [r_lba_start r_lba_len]; try lia.
  cbv zeta. cbn [r_lba_start].
  rewrite ref_read_full; cbn [f_pos f_size file_set_pos fst snd]; try lia.
  rewrite u32_small by (unfold is_u32; lia).
  rewrite Z.div_mul by lia. rewrite file_range_set_pos. reflexivity.
Qed.

Lemma reader_plain_open_whole_file_witness :
  exists rd,
    ReaderPlain.reader_plain_open file_100 0 0 0 = (Some rd, 0)
    /\ r_lba_start rd = 0
    /\ r_lba_len rd * 512 <= f_size file_100 < (r_lba_len rd + 1) * 512
    /\ forall errno' lba n,
         0 <= lba -> 0 <= n -> lba + n <= r_lba_len rd ->
         fst (fst (ReaderPlain.reader_plain_read rd file_100 errno' lba n))
         = (n, file_range file_100 lba (Z.to_nat n)).
Proof.
  apply (reader_plain_open_whole_file file_100 0). simpl. lia.
Defined.

(** X5.  The reader of [reader_plain.c] and the one of
    [reader_plain.cpp] differ by the bounds check only: whatever request
    the check of [reader_plain.cpp] lets through is carried out by both
    in the same way, with the same result. *)
Theorem reader_plain_c_agrees_when_accepted (rd : Reader) (f : RefFile)
    (errno : Z) (ptr : list Sector) (lba_rel n : Z) :
  ReaderPlain.out_of_range rd lba_rel n = false ->
  ReaderPlainC.reader_plain_read rd f errno lba_rel n
  = ReaderPlain.reader_plain_read rd f errno lba_rel n
  /\ ReaderPlainC.reader_plain_write rd f errno ptr lba_rel n
     = ReaderPlain.reader_plain_write rd f errno ptr lba_rel n.
Proof.
  intros Hok.
  unfold ReaderPlainC.reader_plain_read, ReaderPlainC.reader_plain_write,
    ReaderPlain.reader_plain_read, ReaderPlain.reader_plain_write.
  rewrite Hok. unfold ReaderPlain.abs_lba, u32_add.
  rewrite (Z.add_comm (r_lba_start rd) lba_rel). split; reflexivity.
Qed.

Lemma reader_plain_c_agrees_when_accepted_witness :
  ReaderPlainC.reader_plain_read reader_100 file_100 0 98 2
  = ReaderPlain.reader_plain_read reader_100 file_100 0 98 2
  /\ ReaderPlainC.reader_plain_write reader_100 file_100 0
       [sector_A; sector_B] 98 2
     = ReaderPlain.reader_plain_write reader_100 file_100 0
         [sector_A; sector_B] 98 2.
Proof.
  apply (reader_plain_c_agrees_when_accepted reader_100 file_100 0
           [sector_A; sector_B] 98 2).
  reflexivity.
Defined.

(** ** Opening an image ([rvth_open_hdd], [rvth_open_gcm], [rvth_open]) *)

Lemma errno_or_nonzero (errno dflt : Z) : dflt <> 0 -> errno_or errno dflt <> 0.
Proof.
  intros Hd. unfold errno_or. destruct (Z.eqb_spec errno 0); assumption.
Qed.

(** Where the loop over the bank slots fails, it does so with a non-zero
    code and a non-zero [errno] setting. *)
Lemma rvth_open_hdd_loop_fail (L : Layout)
    (init : RvtH_BankEntry -> RefFile -> Z -> RvtH_BankType_e -> Z -> Z ->
            list byte -> RvtH_BankEntry * RefFile * Z) (n : nat) :
  forall (i addr bank_count : Z) (done : list RvtH_BankEntry) (f : RefFile)
         (errno ret err : Z) (f' : RefFile) (errno' : Z),
    rvth_open_hdd_loop L init n i addr bank_count done f errno
    = LoopFail ret err f' errno' ->
    ret <> 0 /\ err <> 0.
Proof.
  assert (HEIO : EIO <> 0) by (unfold EIO; lia).
  induction n as [|n IH]; intros i addr bc done f errno ret err f' errno' Hrun.
  - discriminate Hrun.
  - cbn [rvth_open_hdd_loop] in Hrun.
    destruct ((0 <? i) && prev_is_DL done).
    + eapply IH. exact Hrun.
    + destruct (ref_seeko f errno addr) as [[r f1] errno1].
      destruct (negb (r =? 0)).
      { inversion Hrun; subst.
        pose proof (errno_or_nonzero errno' EIO HEIO). split; lia. }
      destruct (ref_read f1 1) as [[cnt data] f2].
      destruct (negb (cnt =? 1)).
      { inversion Hrun; subst.
        pose proof (errno_or_nonzero errno' EIO HEIO). split; lia. }
      match type of Hrun with
      | context [init ?a ?b ?c ?d ?e ?g ?h] =>
        destruct (init a b c d e g h) as [[e0 f3] errno3]
      end.
      eapply IH. exact Hrun.
Qed.

(** X6.  An object [rvth_open_hdd] hands back is an HDD image with
    between 8 and 32 banks and exactly one entry per bank; every
    dual-layer entry that has a successor is followed by the zeroed
    second-bank entry; and the cell behind [pErr] is left alone. *)
Theorem rvth_open_hdd_object (L : Layout)
    (init : RvtH_BankEntry -> RefFile -> Z -> RvtH_BankType_e -> Z -> Z ->
            list byte -> RvtH_BankEntry * RefFile * Z)
    (f : RefFile) (pErr : option Z) (errno : Z) (rvth : RvtH) :
  rvth_open_hdd L init f pErr errno ≫= o_rvth = Some rvth ->
  is_hdd rvth = true
  /\ 8 <= bank_count rvth <= 32
  /\ Z.of_nat (length (entries rvth)) = bank_count rvth
  /\ DL_followed_within (entries rvth)
  /\ o_pErr <$> rvth_open_hdd L init f pErr errno = Some pErr.
Proof.
  unfold rvth_open_hdd.
  destruct (ref_seeko f errno _) as [[ret f1] errno1].
  destruct (negb (ret =? 0)); [discriminate|].
  destruct (ref_read f1 1) as [[cnt data] f2].
  destruct (negb (cnt =? 1)); [discriminate|].
  cbv zeta.
  destruct (negb (_ =? NHCD_BANKTABLE_MAGIC)); [discriminate|].
  destruct (orb _ _) eqn:Hbc;
    [destruct (rvth_close_no_entries _); discriminate|].
  apply orb_false_iff in Hbc as [Hlo Hhi].
  apply Z.ltb_ge in Hlo. apply Z.ltb_ge in Hhi.
  destruct (rvth_open_hdd_loop _ _ _ _ _ _ _ _ _) as [|ents f3 errno3] eqn:Hloop;
    [discriminate|].
  apply rvth_open_hdd_loop_inv in Hloop; [|reflexivity | apply DL_within_nil].
  destruct Hloop as [Hinv Hlen].
  cbn [mbind option_bind fmap option_fmap option_map o_rvth o_pErr].
  intros H. inversion H; subst rvth.
  cbn [is_hdd bank_count entries].
  split; [reflexivity|]. split; [lia|]. split; [|split; [assumption|reflexivity]].
  rewrite Hlen. cbn [length]. lia.
Qed.

Lemma rvth_open_hdd_object_witness :
  exists rvth,
    rvth_open_hdd rvth_layout init_from_table hdd_DL_first (Some 0) 0
      ≫= o_rvth = Some rvth
    /\ is_hdd rvth = true
    /\ 8 <= bank_count rvth <= 32
    /\ Z.of_nat (length (entries rvth)) = bank_count rvth
    /\ DL_followed_within (entries rvth)
    /\ o_pErr <$> rvth_open_hdd rvth_layout init_from_table hdd_DL_first
                    (Some 0) 0 = Some (Some 0).
Proof.
  destruct (rvth_open_hdd rvth_layout init_from_table hdd_DL_first (Some 0) 0
              ≫= o_rvth) as [rvth|] eqn:Hopen;
    [|vm_compute in Hopen; discriminate].
  exists rvth. split; [reflexivity|].
  apply (rvth_open_hdd_object rvth_layout init_from_table hdd_DL_first
           (Some 0) 0 rvth).
  exact Hopen.
Defined.

(** What [rvth_open_hdd] leaves when it returns: an object, with the
    cell behind [pErr] as it was; or NULL, with a non-zero [errno] and a
    non-zero code in the cell. *)
Lemma rvth_open_hdd_returns (L : Layout)
    (init : RvtH_BankEntry -> RefFile -> Z -> RvtH_BankType_e -> Z -> Z ->
            list byte -> RvtH_BankEntry * RefFile * Z)
    (f : RefFile) (pErr : option Z) (errno : Z) (r : OpenResult) :
  rvth_open_hdd L init f pErr errno = Some r ->
  (exists rvth, o_rvth r = Some rvth /\ o_pErr r = pErr)
  \/ (o_rvth r = None /\ o_errno r <> 0
      /\ exists ret, ret <> 0 /\ o_pErr r = (fun _ => ret) <$> pErr).
Proof.
  assert (HEIO : EIO <> 0) by (unfold EIO; lia).
  assert (HENOMEM : ENOMEM <> 0) by (unfold ENOMEM; lia).
  assert (Hfail : forall ret err g e,
            ret <> 0 -> err <> 0 ->
            Some (open_fail pErr ret err g e) = Some r ->
            (exists rvth, o_rvth r = Some rvth /\ o_pErr r = pErr)
            \/ (o_rvth r = None /\ o_errno r <> 0
                /\ exists x, x <> 0 /\ o_pErr r = (fun _ => x) <$> pErr)).
  { intros ret err g e Hr He Heq. inversion Heq; subst r. right.
    unfold open_fail. cbn [o_rvth o_errno o_pErr].
    destruct (Z.eqb_spec err 0); [contradiction|].
    split; [reflexivity|]. split; [assumption|].
    exists ret. split; [assumption | reflexivity]. }
  unfold rvth_open_hdd.
  destruct (ref_seeko f errno _) as [[ret f1] errno1].
  destruct (negb (ret =? 0)).
  { pose proof (errno_or_nonzero errno1 EIO HEIO). apply Hfail; lia. }
  destruct (ref_read f1 1) as [[cnt data] f2].
  destruct (negb (cnt =? 1)).
  { pose proof (errno_or_nonzero errno1 EIO HEIO). apply Hfail; lia. }
  cbv zeta.
  destruct (negb (_ =? NHCD_BANKTABLE_MAGIC)).
  { apply Hfail; [unfold RVTH_ERROR_NHCD_TABLE_MAGIC; lia | exact HEIO]. }
  destruct (orb _ _).
  { destruct (rvth_close_no_entries _); [|discriminate].
    pose proof (errno_or_nonzero errno1 ENOMEM HENOMEM). apply Hfail; lia. }
  destruct (rvth_open_hdd_loop _ _ _ _ _ _ _ _ _)
    as [ret' err' f3 errno3|ents f3 errno3] eqn:Hloop.
  - apply rvth_open_hdd_loop_fail in Hloop as [Hr He].
    apply Hfail; assumption.
  - intros Heq. inversion Heq; subst r. left.
    eexists. split; reflexivity.
Qed.

(** X7.  [rvth_open_hdd] does not return NULL silently: whenever it
    returns NULL, [errno] is non-zero afterwards and, where a cell was
    passed for [pErr], the code stored in it is non-zero.  (For a bank
    count from 1 to 7 or above 32 it does not return.) *)
Theorem rvth_open_hdd_failure_reported (L : Layout)
    (init : RvtH_BankEntry -> RefFile -> Z -> RvtH_BankType_e -> Z -> Z ->
            list byte -> RvtH_BankEntry * RefFile * Z)
    (f : RefFile) (pErr : option Z) (errno : Z) (r : OpenResult) :
  rvth_open_hdd L init f pErr errno = Some r ->
  o_rvth r = None ->
  o_errno r <> 0
  /\ exists ret, ret <> 0 /\ o_pErr r = (fun _ => ret) <$> pErr.
Proof.
  intros Hopen Hnull.
  destruct (rvth_open_hdd_returns L init f pErr errno r Hopen)
    as [(rvth & Hobj & _) | (_ & Herrno & Hcode)].
  - rewrite Hobj in Hnull. discriminate.
  - split; assumption.
Qed.

Lemma rvth_open_hdd_failure_reported_witness :
  exists r,
    rvth_open_hdd rvth_layout init_from_table hdd_bad_magic (Some 0) 0
    = Some r
    /\ o_rvth r = None
    /\ o_errno r <> 0
    /\ exists ret, ret <> 0 /\ o_pErr r = (fun _ => ret) <$> Some 0.
Proof.
  destruct (rvth_open_hdd rvth_layout init_from_table hdd_bad_magic
              (Some 0) 0) as [r|] eqn:Hopen;
    [|vm_compute in Hopen; discriminate].
  assert (Hnull : o_rvth r = None).
  { vm_compute in Hopen. inversion Hopen. reflexivity. }
  exists r. split; [reflexivity|]. split; [exact Hnull|].
  apply (rvth_open_hdd_failure_reported rvth_layout init_from_table
           hdd_bad_magic (Some 0) 0 r Hopen Hnull).
Defined.

(** [rvth_open_gcm] takes none of its failure exits: the seek to offset
    0 and the creation of a reader over the whole file are not refused,
    and the test [ret < 0] on the number of LBAs read cannot hold. *)
Lemma rvth_open_gcm_unfold (L : Layout)
    (identify : Sector -> RvtH_BankType_e)
    (region crypto : RvtH_BankEntry -> RefFile -> RvtH_BankEntry * RefFile)
    (stack : Sector) (f : RefFile) (pErr : option Z) (errno : Z) :
  let f2 := file_set_pos (ref_seek_end f) 0 in
  let rd :=
    mkReader 0 (u32 (f_size f / 512))
      (if f_device f then RVTH_ImageType_HDD_Reader
       else if 10 * 1024 * 1024 * 1024 <? f_size f
            then RVTH_ImageType_HDD_Image else RVTH_ImageType_GCM) in
  let rr := ReaderPlain.reader_plain_read rd f2 0 0 1 in
  let hdr := hd stack (snd (fst (fst rr))) in
  let f3 := snd (fst rr) in
  let t := gcm_bank_type L (identify hdr) (u32 (f_size f / 512)) in
  let entry :=
    {| reader := Some rd; lba_start := 0; lba_len := u32 (f_size f / 512);
       timestamp := -1; type := t; region_code := 0; is_deleted := false;
       crypto_type := RVTH_CryptoType_Unknown; ios_version := 0;
       ticket := mkSigInfo RVTH_SigType_Unknown RVTH_SigStatus_Unknown;
       tmd := mkSigInfo RVTH_SigType_Unknown RVTH_SigStatus_Unknown;
       discHeader := if bool_decide (t = RVTH_BankType_Empty)
                     then zero_sector else hdr;
       ptbl := None |} in
  rvth_open_gcm L identify region crypto stack f pErr errno
  = if bool_decide (t = RVTH_BankType_Empty) then
      {| o_rvth := Some (mkRvtH f3 false 1 [entry]);
         o_pErr := pErr; o_errno := snd rr; o_file := f3 |}
    else
      {| o_rvth :=
           Some (mkRvtH (snd (crypto (fst (region entry f3))
                                (snd (region entry f3))))
                   false 1
                   [fst (crypto (fst (region entry f3))
                           (snd (region entry f3)))]);
         o_pErr := pErr; o_errno := snd rr;
         o_file := snd (crypto (fst (region entry f3))
                          (snd (region entry f3))) |}.
Proof.
  cbv zeta. unfold rvth_open_gcm, ref_seeko, ref_tello, ref_seek_end.
  cbn [Z.ltb Z.compare negb Z.eqb f_pos f_size f_data f_device file_set_pos].
  unfold ReaderPlain.reader_plain_open.
  cbn [Z.ltb Z.compare andb Z.eqb f_size f_device file_set_pos].
  assert (Hlen : (if BYTES_TO_LBA (f_size f) =? 0
                  then u32 (f_size f / LBA_SIZE)
                  else BYTES_TO_LBA (f_size f)) = u32 (f_size f / 512)).
  { unfold BYTES_TO_LBA, LBA_SIZE. destruct (_ =? 0); reflexivity. }
  rewrite Hlen.
  match goal with
  | |- context [ReaderPlain.reader_plain_read ?rd ?g ?e 0 1] =>
    destruct (ReaderPlain.reader_plain_read rd g e 0 1)
      as [[[cnt data] f3] errno4] eqn:Hread
  end.
  assert (Hcnt : (cnt <? 0) = false).
  { apply Z.ltb_ge.
    unfold ReaderPlain.reader_plain_read in Hread.
    destruct (ReaderPlain.out_of_range _ _ _);
      [inversion Hread; lia|].
    destruct (ref_seeko _ _ _) as [[r g1] e1].
    destruct (negb (r =? 0)); [inversion Hread; lia|].
    destruct (ref_read g1 1) as [[c d] g2].
    inversion Hread. pose proof (u32_range c) as Hu. unfold is_u32 in Hu. lia. }
  rewrite Hcnt. unfold gcm_bank_type.
  cbn [fst snd r_lba_start r_lba_len reader lba_start lba_len timestamp type
       region_code is_deleted crypto_type ios_version ticket tmd discHeader
       ptbl].
  match goal with
  | |- context [bool_decide (?t = RVTH_BankType_Empty)] =>
    destruct (bool_decide (t = RVTH_BankType_Empty)); [reflexivity|]
  end.
  match goal with
  | |- context [region ?e ?g] => destruct (region e g) as [e2 f4]
  end.
  cbn [fst snd]. destruct (crypto e2 f4) as [e3 f5]. reflexivity.
Qed.


(** X9.  The bank of a standalone image of at least one sector (and
    less than 2^41 bytes), with initializers that keep type and window:
    its window is the whole file, [f_size / 512] LBAs from LBA 0, read
    through a reader with that window; its type is what
    [rvth_disc_header_identify] makes of the first sector of the file,
    except that a Wii image of more than
    [NHCD_BANK_WII_SL_SIZE_RVTR_LBA] LBAs is dual-layer. *)
Theorem rvth_open_gcm_bank (L : Layout)
    (identify : Sector -> RvtH_BankType_e)
    (region crypto : RvtH_BankEntry -> RefFile -> RvtH_BankEntry * RefFile)
    (stack : Sector) (f : RefFile) (pErr : option Z) (errno : Z) :
  512 <= f_size f < 2 ^ 41 ->
  keeps_bank_window region -> keeps_bank_window crypto ->
  exists rvth e t,
    o_rvth (rvth_open_gcm L identify region crypto stack f pErr errno)
    = Some rvth
    /\ entries rvth = [e]
    /\ lba_start e = 0
    /\ lba_len e = f_size f / 512
    /\ reader e = Some (mkReader 0 (f_size f / 512) t)
    /\ type e = gcm_bank_type L (identify (file_lba f 0)) (f_size f / 512).
Proof.
  intros Hsz Hregion Hcrypto.
  assert (Hq : 1 <= f_size f / 512 < 2 ^ 32).
  { split; [apply Z.div_le_lower_bound; lia|].
    apply Z.div_lt_upper_bound; lia. }
  rewrite rvth_open_gcm_unfold. cbv zeta.
  rewrite (u32_small (f_size f / 512)) by (unfold is_u32; lia).
  set (rd := mkReader 0 (f_size f / 512) _).
  assert (Hread : ReaderPlain.reader_plain_read rd
                    (file_set_pos (ref_seek_end f) 0) 0 0 1
                  = (1, [file_lba f 0],
                     file_set_pos (file_set_pos (file_set_pos (ref_seek_end f) 0) 0)
                       (0 + 1 * 512), 0)).
  { rewrite reader_plain_read_in_range; cbn [r_lba_start r_lba_len rd]; try lia.
    cbv zeta. cbn [Z.add Z.mul].
    rewrite ref_read_full;
      cbn [f_pos f_size file_set_pos ref_seek_end fst snd]; try lia.
    reflexivity. }
  rewrite Hread. cbn [fst snd hd].
  destruct (bool_decide _) eqn:Hempty.
  - eexists. eexists. exists (r_type rd).
    split; [reflexivity|]. repeat split; reflexivity.
  - match goal with
    | |- context [region ?e ?g] =>
      destruct (Hregion e g) as (Hr1 & Hr2 & Hr3 & Hr4);
      destruct (region e g) as [e2 f4]
    end.
    cbn [fst snd] in *.
    destruct (Hcrypto e2 f4) as (Hc1 & Hc2 & Hc3 & Hc4).
    destruct (crypto e2 f4) as [e3 f5]. cbn [fst snd] in *.
    eexists. exists e3. exists (r_type rd).
    split; [reflexivity|]. split; [reflexivity|].
    rewrite Hc1, Hc2, Hc3, Hc4, Hr1, Hr2, Hr3, Hr4.
    repeat split; reflexivity.
Qed.

Lemma rvth_open_gcm_bank_witness :
  exists rvth e t,
    o_rvth (rvth_open_gcm rvth_layout identify_by_magic init_nothing
              init_nothing zero_sector wii_long_file (Some 0) 0) = Some rvth
    /\ entries rvth = [e]
    /\ lba_start e = 0
    /\ lba_len e = f_size wii_long_file / 512
    /\ reader e = Some (mkReader 0 (f_size wii_long_file / 512) t)
    /\ type e = gcm_bank_type rvth_layout
                  (identify_by_magic (file_lba wii_long_file 0))
                  (f_size wii_long_file / 512).
Proof.
  apply (rvth_open_gcm_bank rvth_layout identify_by_magic init_nothing
           init_nothing zero_sector wii_long_file (Some 0) 0).
  - unfold wii_long_file, LBA_TO_BYTES, LBA_SIZE. simpl. lia.
  - intros e f. repeat split; reflexivity.
  - intros e f. repeat split; reflexivity.
Defined.

(** X10.  What [rvth_open] reports.  Whatever an opener stored through
    [pErr], when [rvth_open] returns the cell holds [-errno], so a code
    of [RvtH_Errors] never reaches the caller; an empty file is refused
    with [EIO]; and whenever a file that could be opened yields NULL,
    [errno] is non-zero. *)
Theorem rvth_open_reports_errno (L : Layout)
    (init : RvtH_BankEntry -> RefFile -> Z -> RvtH_BankType_e -> Z -> Z ->
            list byte -> RvtH_BankEntry * RefFile * Z)
    (identify : Sector -> RvtH_BankType_e)
    (region crypto : RvtH_BankEntry -> RefFile -> RvtH_BankEntry * RefFile)
    (stack : Sector) (f_open : option RefFile) (pErr : option Z) (errno : Z)
    (r : option RvtH * option Z * Z) :
  rvth_open L init identify region crypto stack f_open pErr errno = Some r ->
  snd (fst r) = (fun _ => - snd r) <$> pErr
  /\ (forall f, f_open = Some f -> f_size f = 0 ->
        r = (None, (fun _ => - EIO) <$> pErr, EIO))
  /\ (forall f, f_open = Some f -> fst (fst r) = None -> snd r <> 0).
Proof.
  unfold rvth_open.
  destruct f_open as [f|];
    [| intros Hr; apply (inj Some) in Hr; subst r; cbn [fst snd];
       repeat split; intros; discriminate].
  unfold ref_tello, ref_seek_end. cbn [f_pos file_set_pos].
  destruct (Z.eqb_spec (f_size f) 0) as [H0|Hne].
  - intros Hr; apply (inj Some) in Hr; subst r.
    cbn [o_rvth o_pErr o_errno fst snd]. repeat split.
    unfold EIO. lia.
  - destruct (f_size f <=? 2 * LBA_TO_BYTES (NHCD_BANK_SIZE_LBA L)).
    + rewrite rvth_open_gcm_unfold. cbv zeta.
      intros Hr; apply (inj Some) in Hr; subst r. cbn [fst snd].
      destruct (bool_decide _); cbn [o_rvth o_pErr o_errno].
      * split; [reflexivity|].
        split; [intros g Hg; inversion Hg; subst; contradiction|].
        intros; discriminate.
      * split; [reflexivity|].
        split; [intros g Hg; inversion Hg; subst; contradiction|].
        intros; discriminate.
    + destruct (rvth_open_hdd L init (file_set_pos f (f_size f)) pErr errno)
        as [o|] eqn:Hopen; [|discriminate].
      intros Hr; apply (inj Some) in Hr; subst r. cbn [fst snd].
      destruct (rvth_open_hdd_returns L init _ pErr errno o Hopen)
        as [(rvth & Hobj & Hcell) | (Hnull & Herrno & ret & _ & Hcell)];
        rewrite Hcell.
      * split; [reflexivity|].
        split; [intros g Hg; inversion Hg; subst; contradiction|].
        rewrite Hobj. intros; discriminate.
      * split; [destruct pErr; reflexivity|].
        split; [intros g Hg; inversion Hg; subst; contradiction|].
        intros g _ _. exact Herrno.
Qed.

Lemma rvth_open_reports_errno_witness :
  rvth_open rvth_layout init_from_table (fun _ => RVTH_BankType_Empty)
    (fun e f => (e, f)) (fun e f => (e, f)) zero_sector (Some hdd_bad_magic)
    (Some 0) 0 = Some (None, Some (- EIO), EIO)
  /\ Some (- EIO) = (fun _ => - EIO) <$> Some 0
  /\ (forall f, Some hdd_bad_magic = Some f -> f_size f = 0 ->
        (None, Some (- EIO), EIO)
        = (None : option RvtH, (fun _ => - EIO) <$> Some 0, EIO))
  /\ (forall f, Some hdd_bad_magic = Some f ->
        (None : option RvtH) = None -> EIO <> 0).
Proof.
  assert (Hopen :
    rvth_open rvth_layout init_from_table (fun _ => RVTH_BankType_Empty)
      (fun e f => (e, f)) (fun e f => (e, f)) zero_sector
      (Some hdd_bad_magic) (Some 0) 0 = Some (None, Some (- EIO), EIO))
    by (vm_compute; reflexivity).
  split; [exact Hopen|].
  apply (rvth_open_reports_errno rvth_layout init_from_table
           (fun _ => RVTH_BankType_Empty) (fun e f => (e, f))
           (fun e f => (e, f)) zero_sector (Some hdd_bad_magic) (Some 0) 0
           (None, Some (- EIO), EIO) Hopen).
Defined.

(** *** What the parser reads for each slot *)

Section OpenHddSlots.

Variable L : Layout.
Variable init :
  RvtH_BankEntry -> RefFile -> Z -> RvtH_BankType_e -> Z -> Z -> list byte ->
  RvtH_BankEntry * RefFile * Z.
Variable f0 : RefFile.
Variable count : Z.

Hypothesis Haddr : 0 <= NHCD_BANKTABLE_ADDRESS_LBA L.
Hypothesis Hinit : init_reads_only init.

Lemma slot_parsed_app (done : list RvtH_BankEntry) (x : RvtH_BankEntry)
    (k : nat) (e : RvtH_BankEntry) :
  done !! k = Some e ->
  slot_parsed L init f0 count done k e ->
  slot_parsed L init f0 count (done ++ [x]) k e.
Proof.
  intros Hk [(Hpos & (p & Hp & Hty) & He) | Hread]; [left | right; exact Hread].
  split; [exact Hpos|]. split; [|exact He].
  exists p. split; [|exact Hty].
  rewrite lookup_app_l; [exact Hp|]. apply lookup_lt_Some in Hp. exact Hp.
Qed.

Lemma rvth_open_hdd_loop_slots (n : nat) :
  forall (i addr : Z) (done : list RvtH_BankEntry) (g : RefFile)
         (errno : Z) (ents : list RvtH_BankEntry) (g' : RefFile) (errno' : Z),
    i = Z.of_nat (length done) ->
    addr = 512 * (NHCD_BANKTABLE_ADDRESS_LBA L + 1 + i) ->
    f_data g = f_data f0 ->
    (forall k e, done !! k = Some e -> slot_parsed L init f0 count done k e) ->
    rvth_open_hdd_loop L init n i addr count done g errno
    = LoopDone ents g' errno' ->
    forall k e, ents !! k = Some e -> slot_parsed L init f0 count ents k e.
Proof.
  induction n as [|n IH];
    intros i addr done g errno ents g' errno' Hi Ha Hdata Hdone Hrun.
  - cbn in Hrun. inversion Hrun; subst. exact Hdone.
  - cbn [rvth_open_hdd_loop] in Hrun.
    assert (Hstep : forall x,
              slot_parsed L init f0 count (done ++ [x]) (length done) x ->
              forall k e, (done ++ [x]) !! k = Some e ->
                slot_parsed L init f0 count (done ++ [x]) k e).
    { intros x Hx k e Hk.
      destruct (decide (k < length done)%nat) as [Hlt|Hge].
      - rewrite lookup_app_l in Hk by exact Hlt.
        apply slot_parsed_app; [exact Hk | apply Hdone; exact Hk].
      - assert (k = length done).
        { apply lookup_lt_Some in Hk. rewrite length_app in Hk.
          cbn in Hk. lia. }
        subst k. rewrite lookup_app_r in Hk by lia.
        rewrite Nat.sub_diag in Hk. cbn in Hk. inversion Hk; subst. exact Hx. }
    destruct ((0 <? i) && prev_is_DL done) eqn:Hdl.
    + apply andb_true_iff in Hdl as [Hpos Hprev].
      apply Z.ltb_lt in Hpos.
      eapply IH; [| | exact Hdata | | exact Hrun].
      * rewrite length_app. cbn. lia.
      * lia.
      * apply Hstep. left. split; [lia|]. split; [|reflexivity].
        unfold prev_is_DL in Hprev. rewrite last_lookup in Hprev.
        destruct (done !! Nat.pred (length done)) as [p|] eqn:Hp;
          [|discriminate].
        exists p. split.
        -- replace (length done - 1)%nat with (Nat.pred (length done)) by lia.
           rewrite lookup_app_l; [exact Hp|].
           apply lookup_lt_Some in Hp. exact Hp.
        -- apply bool_decide_eq_true in Hprev. exact Hprev.
    + unfold ref_seeko in Hrun.
      destruct (Z.ltb_spec addr 0); [lia|].
      cbn [negb Z.eqb] in Hrun. unfold ref_read in Hrun.
      cbn [f_pos f_size file_set_pos] in Hrun.
      match type of Hrun with
      | context [negb (?c =? 1)] => destruct (Z.eqb_spec c 1) as [Hc|Hc]
      end; cbn [negb] in Hrun; [|discriminate].
      rewrite Hc in Hrun. change (Z.to_nat 1) with 1%nat in Hrun.
      cbn [file_range hd] in Hrun.
      assert (Hsec : file_lba (file_set_pos g addr) (addr / LBA_SIZE)
                     = nhcd_slot L f0 i).
      { unfold nhcd_slot, file_lba, LBA_SIZE. cbn [f_data file_set_pos].
        rewrite Hdata, Ha, Z.mul_comm, Z.div_mul by lia. reflexivity. }
      rewrite Hsec in Hrun.
      match type of Hrun with
      | context [init ?a ?b ?c ?d ?s ?l ?t] =>
        pose proof (Hinit a b c d s l t) as [Hd3 _];
        assert (Hargs : d = slot_type L f0 i
                        /\ s = slot_lba_start L f0 i count
                        /\ l = slot_lba_len L f0 i);
        [| destruct (init a b c d s l t) as [[e0 f3] errno3] eqn:Hcall ]
      end.
      { unfold slot_type, slot_lba_start, slot_lba_len, slot_listed.
        fold (slot_type L f0 i).
        destruct (bank_type_ord RVTH_BankType_GCN
                  <=? bank_type_ord (slot_type L f0 i));
          cbn [andb orb negb Z.eqb];
          [|repeat split; reflexivity].
        destruct (be32_at (nhcd_slot L f0 i) (ent_lba_start_off L) =? 0);
          cbn [andb orb negb]; [repeat split; reflexivity|].
        destruct (be32_at (nhcd_slot L f0 i) (ent_lba_len_off L) =? 0);
          cbn [andb orb negb]; repeat split; reflexivity. }
      cbn [fst snd] in Hd3.
      eapply IH; [| | | | exact Hrun].
      * rewrite length_app. cbn. lia.
      * lia.
      * rewrite Hd3. cbn [f_data file_set_pos]. exact Hdata.
      * apply Hstep. right.
        destruct Hargs as (Ht & Hs & Hl).
        eexists. eexists. rewrite <- Hi, <- Ht, <- Hs, <- Hl, Hcall.
        reflexivity.
Qed.

End OpenHddSlots.

(** X26.  What the bank table parser reads.  With a table whose byte
    address fits 32 bits and an initializer that does not write to the
    stream, each entry of the object [rvth_open_hdd] hands back is
    either the zeroed second bank that follows a dual-layer entry (no
    slot is read for it), or the entry initialized from the slot of
    that bank, the 512-byte sector at LBA
    [NHCD_BANKTABLE_ADDRESS_LBA + 1 + i]: with the type of its tag
    (Unknown for a tag that is none of the four), and with the window
    the slot lists if the type is a valid one and neither value is
    zero, the default start LBA of the bank and length 0 otherwise. *)
Theorem rvth_open_hdd_slots (L : Layout)
    (init : RvtH_BankEntry -> RefFile -> Z -> RvtH_BankType_e -> Z -> Z ->
            list byte -> RvtH_BankEntry * RefFile * Z)
    (f : RefFile) (pErr : option Z) (errno : Z) (rvth : RvtH) :
  0 <= NHCD_BANKTABLE_ADDRESS_LBA L ->
  LBA_TO_BYTES (NHCD_BANKTABLE_ADDRESS_LBA L) + NHCD_BLOCK_SIZE < 2 ^ 32 ->
  init_reads_only init ->
  rvth_open_hdd L init f pErr errno ≫= o_rvth = Some rvth ->
  forall k e,
    entries rvth !! k = Some e ->
    slot_parsed L init f (bank_count rvth) (entries rvth) k e.
Proof.
  intros Haddr Hfit Hinit. unfold rvth_open_hdd, ref_seeko.
  destruct (Z.ltb_spec (LBA_TO_BYTES (NHCD_BANKTABLE_ADDRESS_LBA L)) 0);
    [unfold LBA_TO_BYTES, LBA_SIZE in *; lia|].
  cbn [negb Z.eqb].
  destruct (ref_read _ 1) as [[cnt data] f2] eqn:Hread.
  assert (Hd2 : f_data f2 = f_data f).
  { unfold ref_read in Hread. inversion Hread. reflexivity. }
  destruct (negb (cnt =? 1)); [discriminate|].
  cbv zeta.
  destruct (negb (_ =? NHCD_BANKTABLE_MAGIC)); [discriminate|].
  destruct (orb _ _); [destruct (rvth_close_no_entries _); discriminate|].
  destruct (rvth_open_hdd_loop _ _ _ _ _ _ _ _ _) as [|ents f3 errno3] eqn:Hloop;
    [discriminate|].
  cbn [mbind option_bind o_rvth]. intros Hobj. inversion Hobj; subst rvth.
  cbn [bank_count entries].
  eapply (rvth_open_hdd_loop_slots L init f _ Haddr Hinit); [| | | | exact Hloop].
  - reflexivity.
  - rewrite u32_small by
      (unfold is_u32, LBA_TO_BYTES, LBA_SIZE, NHCD_BLOCK_SIZE in *; lia).
    unfold LBA_TO_BYTES, LBA_SIZE, NHCD_BLOCK_SIZE. cbn [length]. lia.
  - exact Hd2.
  - intros k e Hk. rewrite lookup_nil in Hk. discriminate.
Qed.

Lemma rvth_open_hdd_slots_witness :
  exists rvth e,
    rvth_open_hdd rvth_layout init_from_table hdd_DL_first (Some 0) 0
      ≫= o_rvth = Some rvth
    /\ entries rvth !! 1%nat = Some e
    /\ slot_parsed rvth_layout init_from_table hdd_DL_first (bank_count rvth)
         (entries rvth) 1 e.
Proof.
  assert (Ho : exists rvth e,
             rvth_open_hdd rvth_layout init_from_table hdd_DL_first
               (Some 0) 0 ≫= o_rvth = Some rvth
             /\ entries rvth !! 1%nat = Some e).
  { vm_compute. eexists. eexists. split; reflexivity. }
  destruct Ho as (rvth & e & Ho & He).
  exists rvth, e. split; [exact Ho|]. split; [exact He|].
  apply (rvth_open_hdd_slots rvth_layout init_from_table hdd_DL_first
           (Some 0) 0 rvth).
  - vm_compute. discriminate.
  - vm_compute. reflexivity.
  - intros e0 f errno t s l ts. split; reflexivity.
  - exact Ho.
  - exact He.
Defined.
(** ** Import: the checks on a single-layer source ([rvth_copy_to_hdd]) *)

(** X13.  Import of a GameCube or single-layer Wii image: the checks on
    the destination bank, in the order they are made.  A source longer
    than a bank is refused with [IMAGE_TOO_BIG]; so is, with an extended
    bank table (more than 8 banks), a source for bank 0 longer than
    [NHCD_EXTBANKTABLE_BANK_1_SIZE_LBA]; then a destination bank that is
    neither Empty nor deleted is refused with
    [BANK_NOT_EMPTY_OR_DELETED].  Each refusal leaves both objects
    untouched. *)
Theorem rvth_copy_to_hdd_SL_checks (L : Layout) (now : Z)
    (heap : nat -> Sector) (callback : RvtH_Progress_Callback)
    (make_writable : RvtH -> Z -> Z * RvtH * Z)
    (write_BankEntry : RvtH -> Z -> RvtH)
    (rvth_dest rvth_src : RvtH) (bank_dest bank_src errno : Z)
    (entry_src entry_dest : RvtH_BankEntry) :
  0 <= bank_src < bank_count rvth_src ->
  0 <= bank_dest < bank_count rvth_dest ->
  is_hdd rvth_dest = true ->
  entries rvth_src !! Z.to_nat bank_src = Some entry_src ->
  type entry_src = RVTH_BankType_GCN \/ type entry_src = RVTH_BankType_Wii_SL ->
  entries rvth_dest !! Z.to_nat bank_dest = Some entry_dest ->
  let r :=
    rvth_copy_to_hdd L now heap callback make_writable write_BankEntry
      rvth_dest bank_dest rvth_src bank_src errno in
  let bank0_limit :=
    bank_dest = 0 /\ 8 < bank_count rvth_dest
    /\ NHCD_EXTBANKTABLE_BANK_1_SIZE_LBA L < lba_len entry_src in
  (NHCD_BANK_SIZE_LBA L < lba_len entry_src ->
     r = Some (mkCopyResult RVTH_ERROR_IMAGE_TOO_BIG ENOSPC rvth_dest rvth_src))
  /\ (lba_len entry_src <= NHCD_BANK_SIZE_LBA L -> bank0_limit ->
      r = Some (mkCopyResult RVTH_ERROR_IMAGE_TOO_BIG ENOSPC rvth_dest rvth_src))
  /\ (lba_len entry_src <= NHCD_BANK_SIZE_LBA L -> ~ bank0_limit ->
      not_empty_or_deleted entry_dest = true ->
      r = Some (mkCopyResult RVTH_ERROR_BANK_NOT_EMPTY_OR_DELETED EEXIST
                  rvth_dest rvth_src)).
Proof.
  intros Hs Hd Hhdd Hes Hty Hed r bank0_limit.
  assert (Hrun : forall ret err,
             import_checks L rvth_dest bank_dest entry_src entry_dest
             = Some (Some (ret, err)) ->
             r = Some (mkCopyResult ret err rvth_dest rvth_src)).
  { intros ret err Hchk. unfold r, rvth_copy_to_hdd.
    destruct (Z.leb_spec (bank_count rvth_src) bank_src); [lia|].
    destruct (Z.leb_spec (bank_count rvth_dest) bank_dest); [lia|].
    cbn [orb]. rewrite Hhdd. cbn [negb].
    rewrite Hes. cbn [mbind option_bind].
    assert (Hok : check_src_type (type entry_src) = None)
      by (destruct Hty as [-> | ->]; reflexivity).
    rewrite Hok, Hed. cbn [mbind option_bind]. rewrite Hchk. reflexivity. }
  assert (Hnd : bool_decide (type entry_src = RVTH_BankType_Wii_DL) = false).
  { apply bool_decide_eq_false. destruct Hty as [-> | ->]; discriminate. }
  unfold import_checks in Hrun. rewrite Hnd in Hrun.
  split; [|split].
  - intros Hbig. apply Hrun.
    destruct (Z.ltb_spec (NHCD_BANK_SIZE_LBA L) (lba_len entry_src));
      [reflexivity | lia].
  - intros Hfit (H0 & H8 & Hext). apply Hrun.
    destruct (Z.ltb_spec (NHCD_BANK_SIZE_LBA L) (lba_len entry_src)); [lia|].
    destruct (Z.eqb_spec bank_dest 0); [|lia].
    destruct (Z.ltb_spec 8 (bank_count rvth_dest)); [|lia].
    destruct (Z.ltb_spec (NHCD_EXTBANKTABLE_BANK_1_SIZE_LBA L)
                (lba_len entry_src)); [reflexivity | lia].
  - intros Hfit Hno Hocc. apply Hrun.
    destruct (Z.ltb_spec (NHCD_BANK_SIZE_LBA L) (lba_len entry_src)); [lia|].
    assert (Hb : (bank_dest =? 0) && (8 <? bank_count rvth_dest)
                 && (NHCD_EXTBANKTABLE_BANK_1_SIZE_LBA L <? lba_len entry_src)
                 = false).
    { destruct (Z.eqb_spec bank_dest 0);
        destruct (Z.ltb_spec 8 (bank_count rvth_dest));
        destruct (Z.ltb_spec (NHCD_EXTBANKTABLE_BANK_1_SIZE_LBA L)
                    (lba_len entry_src)); try reflexivity.
      exfalso. apply Hno. unfold bank0_limit. lia. }
    rewrite Hb, Hocc. reflexivity.
Qed.

Lemma rvth_copy_to_hdd_SL_checks_witness :
  rvth_copy_to_hdd rvth_layout 0 zero_heap None ex_make_writable
    ex_write_BankEntry hdd_bank2_used 2 gcn_3 0 0
  = Some (mkCopyResult RVTH_ERROR_BANK_NOT_EMPTY_OR_DELETED EEXIST
            hdd_bank2_used gcn_3).
Proof.
  refine (proj2 (proj2
    (rvth_copy_to_hdd_SL_checks rvth_layout 0 zero_heap None
       ex_make_writable ex_write_BankEntry hdd_bank2_used gcn_3 2 0 0
       (bank_entry RVTH_BankType_GCN RVTH_CryptoType_None 3 gcn_header)
       (hdd_bank RVTH_BankType_GCN 2) _ _ _ _ _ _)) _ _ _);
    try reflexivity; try (simpl; lia).
  left. reflexivity.
Defined.

(** ** The copy engine: transfers through the window of a reader *)

(** A write of the buffer that lies inside the window. *)
Lemma buf_write_window (rd : Reader) (st : CopyState) (idx : nat)
    (lba cnt : Z) :
  0 <= r_lba_start rd -> r_lba_start rd + r_lba_len rd < 2 ^ 32 ->
  0 <= lba -> 0 <= cnt -> lba + cnt <= r_lba_len rd ->
  (idx + Z.to_nat cnt <= length (cs_buf st))%nat ->
  let st' := buf_write rd st idx lba cnt in
  f_data (cs_dst st')
  = store_range (f_data (cs_dst st)) (r_lba_start rd + lba)
      (take (Z.to_nat cnt) (drop idx (cs_buf st)))
  /\ cs_src st' = cs_src st /\ cs_buf st' = cs_buf st
  /\ cs_nonsparse st' = cs_nonsparse st.
Proof.
  intros Hs Hw Hlba Hcnt Hin Hlen. unfold buf_write.
  rewrite reader_plain_write_in_range by lia.
  cbv zeta. unfold ref_write, LBA_SIZE.
  cbn [fst snd f_data f_size f_pos file_set_pos cs_dst cs_src cs_buf
       cs_nonsparse cs_errno].
  rewrite Z.div_mul by lia. repeat split; reflexivity.
Qed.

(** A write of the buffer, accepted or refused, stays inside the
    window. *)
Lemma buf_write_frame (rd : Reader) (st : CopyState) (idx : nat)
    (lba cnt : Z) :
  0 <= r_lba_start rd -> 0 <= r_lba_len rd ->
  r_lba_start rd + r_lba_len rd < 2 ^ 32 ->
  0 <= lba -> 0 <= cnt -> r_lba_start rd + lba + cnt < 2 ^ 32 ->
  let st' := buf_write rd st idx lba cnt in
  (forall j, ~ (r_lba_start rd <= j < r_lba_start rd + r_lba_len rd) ->
     f_data (cs_dst st') !! j = f_data (cs_dst st) !! j)
  /\ cs_src st' = cs_src st /\ cs_buf st' = cs_buf st
  /\ cs_nonsparse st' = cs_nonsparse st.
Proof.
  intros Hs Hl Hw Hlba Hcnt Hr. unfold buf_write.
  destruct (Z.le_gt_cases (lba + cnt) (r_lba_len rd)) as [Hin|Hout].
  - rewrite reader_plain_write_in_range by lia.
    cbv zeta. unfold ref_write, LBA_SIZE.
    cbn [fst snd f_data f_size f_pos file_set_pos cs_dst cs_src cs_buf
         cs_nonsparse cs_errno].
    rewrite Z.div_mul by lia. split; [|repeat split; reflexivity].
    intros j Hj. rewrite store_range_lookup.
    assert (Z.of_nat (length (take (Z.to_nat cnt) (drop idx (cs_buf st))))
            <= cnt) by (rewrite length_take; lia).
    destruct (decide _) as [Hin'|Hout']; [lia | reflexivity].
  - rewrite reader_plain_write_out_of_range by lia.
    cbn. repeat split; reflexivity.
Qed.

(** A read changes nothing but the source position and the buffer. *)
Lemma buf_fill_src (rd : Reader) (st : CopyState) (lba cnt : Z) :
  f_data (cs_src (buf_fill rd st lba cnt)) = f_data (cs_src st)
  /\ f_size (cs_src (buf_fill rd st lba cnt)) = f_size (cs_src st).
Proof.
  unfold buf_fill, ReaderPlain.reader_plain_read.
  destruct (ReaderPlain.out_of_range rd lba cnt); [split; reflexivity|].
  unfold ref_seeko.
  destruct (LBA_TO_BYTES (ReaderPlain.abs_lba rd lba) <? 0);
    cbn [negb Z.eqb]; [split; reflexivity|].
  unfold ref_read. cbn. split; reflexivity.
Qed.

(** ** Import: the copy loop of [rvth_copy_to_hdd] *)

Section ImportLoop.

Variable callback : RvtH_Progress_Callback.
Variable rd_src rd_dest : Reader.
Variable state : RvtH_Progress_State.
Variable n : Z.
Variable src0 : RefFile.
Variable d0 : gmap Z Sector.

Hypothesis Hn : 0 <= n < 2 ^ 32.
Hypothesis Hsrc_len : r_lba_len rd_src = n.
Hypothesis Hsrc_start : 0 <= r_lba_start rd_src.
Hypothesis Hsrc_nowrap : r_lba_start rd_src + n < 2 ^ 32.
Hypothesis Hstream : (r_lba_start rd_src + n) * 512 <= f_size src0.
Hypothesis Hdest_start : 0 <= r_lba_start rd_dest.
Hypothesis Hdest_room : n <= r_lba_len rd_dest.
Hypothesis Hdest_nowrap : r_lba_start rd_dest + r_lba_len rd_dest < 2 ^ 32.
Hypothesis Hcb : forall s lba, callback_stops callback s lba = false.

(** One read of [cnt] LBAs into the buffer followed by the write of the
    buffer to the same LBAs of the destination bank. *)
Lemma hdd_copy_step (m cnt : Z) (st : CopyState) :
  0 <= m -> 0 <= cnt <= 2048 -> m + cnt <= n ->
  import_inv src0 d0 (r_lba_start rd_src) (r_lba_start rd_dest) m st ->
  import_inv src0 d0 (r_lba_start rd_src) (r_lba_start rd_dest) (m + cnt)
    (buf_write rd_dest (buf_fill rd_src st m cnt) 0 m cnt).
Proof.
  intros Hm Hcnt Hfit [Hc Hf Hd Hsz Hb].
  pose proof (buf_fill_spec rd_src n Hn Hsrc_len Hsrc_start Hsrc_nowrap
                st m cnt Hm ltac:(lia) Hfit ltac:(lia)) as Hread.
  set (st1 := buf_fill rd_src st m cnt) in *.
  set (data := file_range (cs_src st) (r_lba_start rd_src + m) (Z.to_nat cnt))
    in *.
  assert (Hdlen : length data = Z.to_nat cnt) by apply file_range_length.
  assert (Hbuf1 : cs_buf st1 = data ++ drop (Z.to_nat cnt) (cs_buf st))
    by (rewrite Hread; reflexivity).
  assert (Hdst1 : cs_dst st1 = cs_dst st) by (rewrite Hread; reflexivity).
  assert (Hsrc1 : f_data (cs_src st1) = f_data (cs_src st)
                  /\ f_size (cs_src st1) = f_size (cs_src st))
    by apply buf_fill_src.
  assert (Hlen1 : length (cs_buf st1) = 2048%nat).
  { rewrite Hbuf1, length_app, length_drop, Hdlen, Hb. lia. }
  destruct (buf_write_window rd_dest st1 0 m cnt)
    as (Hdata & Hsrc2 & Hbuf2 & _); try lia.
  assert (Htake : take (Z.to_nat cnt) (drop 0 (cs_buf st1)) = data).
  { rewrite drop_0, Hbuf1, <- Hdlen. apply take_app_length. }
  rewrite Htake, Hdst1 in Hdata.
  split.
  - intros i Hi. unfold file_lba at 1. rewrite Hdata, store_range_lookup, Hdlen.
    destruct (decide _) as [Hin|Hout].
    + replace (Z.to_nat (r_lba_start rd_dest + i - (r_lba_start rd_dest + m)))
        with (Z.to_nat (i - m)) by lia.
      unfold data. rewrite file_range_lookup by lia. simpl.
      rewrite (file_lba_data (cs_src st) src0) by exact Hd.
      f_equal. lia.
    + apply Hc. lia.
  - intros j Hj. rewrite Hdata, store_range_lookup, Hdlen.
    destruct (decide _) as [Hin|Hout]; [lia|]. apply Hf. lia.
  - rewrite Hsrc2. destruct Hsrc1 as [-> _]. exact Hd.
  - rewrite Hsrc2. destruct Hsrc1 as [_ ->]. exact Hsz.
  - rewrite Hbuf2. exact Hlen1.
Qed.

Lemma hdd_chunks_inv (trips : nat) :
  forall (c : nat) (st : CopyState),
    2048 * Z.of_nat (c + trips) <= n ->
    import_inv src0 d0 (r_lba_start rd_src) (r_lba_start rd_dest)
      (2048 * Z.of_nat c) st ->
    exists st',
      hdd_chunks callback rd_src rd_dest state trips (2048 * Z.of_nat c) st
      = Some (false, 2048 * Z.of_nat (c + trips), st')
      /\ import_inv src0 d0 (r_lba_start rd_src) (r_lba_start rd_dest)
           (2048 * Z.of_nat (c + trips)) st'.
Proof.
  induction trips as [|trips IH]; intros c st Hfit Hinv.
  - exists st. rewrite Nat.add_0_r. split; [reflexivity | assumption].
  - cbn [hdd_chunks]. rewrite Hcb, LBA_COUNT_BUF_value.
    destruct (buf_read_fits rd_src st (2048 * Z.of_nat c) 2048) as [-> _];
      [destruct Hinv as [_ _ _ _ Hb]; rewrite Hb; lia|].
    assert (Hnext : u32_add (2048 * Z.of_nat c) 2048 = 2048 * Z.of_nat (S c)).
    { unfold u32_add. rewrite u32_small by (unfold is_u32; lia). lia. }
    rewrite Hnext.
    destruct (IH (S c)
                (buf_write rd_dest (buf_fill rd_src st (2048 * Z.of_nat c) 2048)
                   0 (2048 * Z.of_nat c) 2048)) as (st' & Hrun & Hinv').
    + replace (S c + trips)%nat with (c + S trips)%nat by lia. exact Hfit.
    + replace (2048 * Z.of_nat (S c)) with (2048 * Z.of_nat c + 2048) by lia.
      apply hdd_copy_step; try lia. exact Hinv.
    + exists st'. replace (c + S trips)%nat with (S c + trips)%nat by lia.
      split; assumption.
Qed.

(** The same loop with a callback that may stop it: the chunks before
    the stop are in place. *)
Lemma hdd_chunks_prefix (trips : nat) :
  forall (c : nat) (st : CopyState),
    2048 * Z.of_nat (c + trips) <= n ->
    import_inv src0 d0 (r_lba_start rd_src) (r_lba_start rd_dest)
      (2048 * Z.of_nat c) st ->
    exists (stopped : bool) (c' : nat) (st' : CopyState),
      hdd_chunks callback rd_src rd_dest state trips (2048 * Z.of_nat c) st
      = Some (stopped, 2048 * Z.of_nat c', st')
      /\ (c <= c' <= c + trips)%nat
      /\ (stopped = false -> c' = (c + trips)%nat)
      /\ import_inv src0 d0 (r_lba_start rd_src) (r_lba_start rd_dest)
           (2048 * Z.of_nat c') st'.
Proof.
  induction trips as [|trips IH]; intros c st Hfit Hinv.
  - exists false, c, st. cbn [hdd_chunks].
    split; [reflexivity|]. split; [lia|]. split; [intros _; lia | exact Hinv].
  - cbn [hdd_chunks]. rewrite LBA_COUNT_BUF_value.
    destruct (callback_stops callback state (2048 * Z.of_nat c)).
    { exists true, c, st.
      split; [reflexivity|]. split; [lia|].
      split; [discriminate | exact Hinv]. }
    destruct (buf_read_fits rd_src st (2048 * Z.of_nat c) 2048) as [-> _];
      [destruct Hinv as [_ _ _ _ Hb]; rewrite Hb; lia|].
    assert (Hnext : u32_add (2048 * Z.of_nat c) 2048 = 2048 * Z.of_nat (S c)).
    { unfold u32_add. rewrite u32_small by (unfold is_u32; lia). lia. }
    rewrite Hnext.
    destruct (IH (S c)
                (buf_write rd_dest (buf_fill rd_src st (2048 * Z.of_nat c) 2048)
                   0 (2048 * Z.of_nat c) 2048))
      as (stopped & c' & st' & Hrun & Hrange & Hfull & Hinv').
    + replace (S c + trips)%nat with (c + S trips)%nat by lia. exact Hfit.
    + replace (2048 * Z.of_nat (S c)) with (2048 * Z.of_nat c + 2048) by lia.
      apply hdd_copy_step; try lia. exact Hinv.
    + exists stopped, c', st'. split; [exact Hrun|]. split; [lia|].
      split; [intros Hns; rewrite Hfull by exact Hns; lia | exact Hinv'].
Qed.

End ImportLoop.

(** The loop of [rvth_copy_to_hdd] whatever the callback and the source
    do: no read runs past the end of the block, no write leaves the
    window of the destination reader, and a loop that is not stopped
    makes all its trips. *)
Lemma hdd_chunks_frame (callback : RvtH_Progress_Callback)
    (rd_src rd_dest : Reader) (state : RvtH_Progress_State) (n : Z)
    (d0 : gmap Z Sector) (trips : nat) :
  0 <= r_lba_start rd_dest -> 0 <= r_lba_len rd_dest ->
  r_lba_start rd_dest + r_lba_len rd_dest < 2 ^ 32 ->
  r_lba_start rd_dest + n < 2 ^ 32 ->
  forall (lba_count : Z) (st : CopyState),
    0 <= lba_count -> lba_count + 2048 * Z.of_nat trips <= n ->
    length (cs_buf st) = 2048%nat ->
    (forall j,
       ~ (r_lba_start rd_dest <= j < r_lba_start rd_dest + r_lba_len rd_dest) ->
       f_data (cs_dst st) !! j = d0 !! j) ->
    exists (stopped : bool) (lba_count' : Z) (st' : CopyState),
      hdd_chunks callback rd_src rd_dest state trips lba_count st
      = Some (stopped, lba_count', st')
      /\ (stopped = false -> lba_count' = lba_count + 2048 * Z.of_nat trips)
      /\ length (cs_buf st') = 2048%nat
      /\ forall j,
           ~ (r_lba_start rd_dest <= j
              < r_lba_start rd_dest + r_lba_len rd_dest) ->
           f_data (cs_dst st') !! j = d0 !! j.
Proof.
  intros Hs Hl Hw Hn.
  induction trips as [|trips IH]; intros lba_count st Hlo Hfit Hbuf Hframe.
  - exists false, lba_count, st. cbn [hdd_chunks].
    split; [reflexivity|]. split; [intros _; lia|].
    split; [exact Hbuf | exact Hframe].
  - cbn [hdd_chunks]. rewrite LBA_COUNT_BUF_value.
    destruct (callback_stops callback state lba_count).
    + exists true, lba_count, st.
      split; [reflexivity|]. split; [discriminate|].
      split; [exact Hbuf | exact Hframe].
    + destruct (buf_read_fits rd_src st lba_count 2048) as [-> Hlen1];
        [rewrite Hbuf; lia|].
      assert (Hnext : u32_add lba_count 2048 = lba_count + 2048).
      { unfold u32_add. apply u32_small. unfold is_u32. lia. }
      rewrite Hnext.
      set (st1 := buf_fill rd_src st lba_count 2048) in *.
      destruct (buf_write_frame rd_dest st1 0 lba_count 2048)
        as (Hfr & _ & Hbuf2 & _); try lia.
      destruct (IH (lba_count + 2048)
                  (buf_write rd_dest st1 0 lba_count 2048))
        as (stopped & lba_count' & st' & Hrun & Hfull & Hlen' & Hf);
        [lia | lia | rewrite Hbuf2, Hlen1; exact Hbuf | |].
      * intros j Hj. rewrite Hfr by exact Hj.
        unfold st1. destruct (buf_fill_dst rd_src st lba_count 2048) as [-> _].
        apply Hframe. exact Hj.
      * exists stopped, lba_count', st'.
        split; [exact Hrun|]. split; [intros Hns; rewrite Hfull by exact Hns; lia|].
        split; [exact Hlen' | exact Hf].
Qed.

(** Past the checks, [rvth_copy_to_hdd] goes as follows. *)
Ltac import_start Hst :=
  let errno1 := fresh "errno1" in
  let Hmw := fresh "Hmw" in
  let Hrd := fresh "Hrd" in
  let Hnone := fresh "Hnone" in
  destruct Hst as [Hbs Hbd Hhdd Hes Hty Hlen Hrs Hed Hchk
                   (errno1 & Hmw & Hrd) Hwin];
  unfold rvth_copy_to_hdd;
  do 2 (match goal with
        | |- context [?a <=? ?b] => destruct (Z.leb_spec a b); [lia|]
        end);
  cbn [orb]; rewrite Hhdd; cbn [negb];
  rewrite Hes; cbn [mbind option_bind]; rewrite Hty;
  rewrite Hed; cbn [mbind option_bind]; rewrite Hchk;
  cbn [mbind option_bind]; rewrite Hmw; cbn [negb Z.eqb];
  destruct Hrd as [Hrd | [Hnone Hrd]];
  [ rewrite Hrd
  | rewrite Hnone;
    match goal with
    | |- context [ReaderPlain.reader_plain_open ?f ?e ?a ?b] =>
      destruct (ReaderPlain.reader_plain_open f e a b) as [o errno2];
      cbn [fst] in Hrd; subst o
    end ];
  rewrite Hrs; cbn [mbind option_bind]; cbv zeta;
  cbn [lba_len copy_bank_info].

(** A run of [rvth_copy_to_hdd] past the checks, whatever the callback
    and the source do: it returns 0, the destination object is the
    writable one with the bank entry rewritten (handed to
    [rvth_write_BankEntry] unless the copy was stopped), and the
    destination stream has changed inside the window of the reader
    only. *)
Lemma rvth_copy_to_hdd_run_any (L : Layout) (now : Z)
    (heap : nat -> Sector) (callback : RvtH_Progress_Callback)
    (make_writable : RvtH -> Z -> Z * RvtH * Z)
    (write_BankEntry : RvtH -> Z -> RvtH)
    (rvth_dest rvth_src : RvtH) (bank_dest bank_src errno : Z)
    (entry_src entry_dest : RvtH_BankEntry) (rd_src rd_dest : Reader)
    (rvth_w : RvtH) :
  import_started L make_writable rvth_dest rvth_src bank_dest bank_src errno
    entry_src entry_dest rd_src rd_dest rvth_w ->
  exists c f,
    rvth_copy_to_hdd L now heap callback make_writable write_BankEntry
      rvth_dest bank_dest rvth_src bank_src errno = Some c
    /\ c_ret c = 0
    /\ (let d :=
          set_entry rvth_w (Z.to_nat bank_dest)
            {| reader := Some rd_dest;
               lba_start := lba_start entry_dest;
               lba_len := lba_len entry_src;
               timestamp := if 0 <=? timestamp entry_src
                            then timestamp entry_src else now;
               type := type entry_src;
               region_code := region_code entry_src;
               is_deleted := false;
               crypto_type := crypto_type entry_src;
               ios_version := ios_version entry_src;
               ticket := ticket entry_src; tmd := tmd entry_src;
               discHeader := discHeader entry_src;
               ptbl := ptbl entry_dest |} f in
        c_dest c = d \/ c_dest c = write_BankEntry d bank_dest)
    /\ forall j,
         ~ (r_lba_start rd_dest <= j < r_lba_start rd_dest + r_lba_len rd_dest) ->
         f_data f !! j = f_data (f_img rvth_w) !! j.
Proof.
  intros Hst.
  set (n := lba_len entry_src) in *.
  assert (Hq : 0 <= n / 2048)
    by (destruct Hst; apply Z.div_pos; lia).
  assert (HM : 2048 * (n / 2048) <= n)
    by (destruct Hst; apply Z.mul_div_le; lia).
  assert (Hrem : n - 2048 * (n / 2048) < 2048).
  { pose proof (Z.mod_pos_bound n 2048 ltac:(lia)) as Hb.
    rewrite Z.mod_eq in Hb by lia. lia. }
  import_start Hst; fold n;
    rewrite (lba_buf_max_value n) by lia;
    rewrite loop_trips_chunks by exact Hq.
  all: match goal with
       | |- context [hdd_chunks ?cb ?rs ?rd ?s ?t 0 ?st] =>
         destruct (hdd_chunks_frame cb rs rd s n
                     (f_data (f_img rvth_w)) t
                     ltac:(lia) ltac:(lia) ltac:(lia) ltac:(lia) 0 st
                     ltac:(lia) ltac:(lia)
                     ltac:(cbn [cs_buf]; unfold malloc_buf;
                           rewrite length_map, length_seq; reflexivity)
                     ltac:(reflexivity))
           as (stopped & lba_count & st1 & Hrun & Hfull & Hlen1 & Hframe);
         rewrite Hrun; cbn match
       end.
  all: destruct stopped;
    [ eexists; eexists; split; [reflexivity|]; split; [reflexivity|];
      split; [left; reflexivity | exact Hframe] |].
  all: specialize (Hfull eq_refl); rewrite Z2Nat.id in Hfull by exact Hq;
    rewrite Z.add_0_l in Hfull; subst lba_count.
  all: match goal with
       | |- context [buf_read ?rs ?s1 ?a ?b] =>
         destruct (buf_read_fits rs s1 a b) as [-> _]; [rewrite Hlen1; lia|];
         destruct (buf_write_frame rd_dest (buf_fill rs s1 a b) 0 a b)
           as (Hfr & _); try lia;
         destruct (buf_fill_dst rs s1 a b) as (Hdst & _)
       end.
  all: destruct (2048 * (n / 2048) <? n); cbn match;
    match goal with
    | |- context [callback_stops ?cb ?s ?l] => destruct (callback_stops cb s l)
    end;
    eexists; eexists; (split; [reflexivity|]); (split; [reflexivity|]);
    (split; [first [left; reflexivity | right; reflexivity]|]);
    intros j Hj; cbn [cs_dst]; rewrite ?Hfr, ?Hdst by exact Hj;
    apply Hframe; exact Hj.
Qed.

(** X14.  A successful import copies the whole image.  When the checks
    have passed, the source bank of [n] LBAs lies inside its stream, the
    window of the destination reader has room for it and no callback
    asks to stop, [rvth_copy_to_hdd] returns 0; in the object it hands
    to [rvth_write_BankEntry], every one of the [n] LBAs of the
    destination bank equals the same LBA of the source bank (the
    incomplete last chunk included), and every sector of the
    destination stream outside those [n] LBAs is as it was. *)
Theorem rvth_copy_to_hdd_copies_image (L : Layout) (now : Z)
    (heap : nat -> Sector) (callback : RvtH_Progress_Callback)
    (make_writable : RvtH -> Z -> Z * RvtH * Z)
    (write_BankEntry : RvtH -> Z -> RvtH)
    (rvth_dest rvth_src : RvtH) (bank_dest bank_src errno n : Z)
    (entry_src entry_dest : RvtH_BankEntry) (rd_src rd_dest : Reader)
    (rvth_w : RvtH) :
  import_started L make_writable rvth_dest rvth_src bank_dest bank_src errno
    entry_src entry_dest rd_src rd_dest rvth_w ->
  import_ready rvth_src n entry_src rd_src rd_dest ->
  (forall s lba, callback_stops callback s lba = false) ->
  exists c d,
    rvth_copy_to_hdd L now heap callback make_writable write_BankEntry
      rvth_dest bank_dest rvth_src bank_src errno = Some c
    /\ c_ret c = 0
    /\ c_dest c = write_BankEntry d bank_dest
    /\ (forall i, 0 <= i < n ->
          file_lba (f_img d) (r_lba_start rd_dest + i)
          = file_lba (f_img rvth_src) (r_lba_start rd_src + i))
    /\ (forall j,
          ~ (r_lba_start rd_dest <= j < r_lba_start rd_dest + n) ->
          f_data (f_img d) !! j = f_data (f_img rvth_w) !! j).
Proof.
  intros Hst [[Hn Hpos] (Hslen & Hsstart & Hswrap) Hstream Hroom] Hcb.
  subst n.
  set (n := lba_len entry_src) in *.
  set (q := n / 2048).
  assert (Hn32 : 0 <= n < 2 ^ 32) by (destruct Hst; assumption).
  assert (Hq : 0 <= q) by (apply Z.div_pos; lia).
  assert (HM : 2048 * q <= n) by (apply Z.mul_div_le; lia).
  assert (Hrem : n - 2048 * q < 2048).
  { unfold q. pose proof (Z.mod_pos_bound n 2048 ltac:(lia)) as Hb.
    rewrite Z.mod_eq in Hb by lia. lia. }
  import_start Hst; fold n;
    rewrite (lba_buf_max_value n) by lia; fold q;
    rewrite loop_trips_chunks by exact Hq.
  all: match goal with
       | |- context [hdd_chunks ?cb ?rs ?rd ?s ?t 0 ?st] =>
         destruct (hdd_chunks_inv cb rs rd s n (f_img rvth_src)
                     (f_data (f_img rvth_w))
                     Hn32 Hslen Hsstart Hswrap Hstream
                     ltac:(lia) Hroom ltac:(lia) Hcb t 0%nat st)
           as (st1 & Hrun & Hinv1);
         [ cbn [Nat.add]; lia
         | split; cbn [cs_dst cs_src cs_buf f_data f_size];
           [ intros i Hi; lia | reflexivity | reflexivity | reflexivity
           | unfold malloc_buf; rewrite length_map, length_seq; reflexivity ]
         | ]
       end.
  all: change (2048 * Z.of_nat 0) with 0 in Hrun;
    cbn [Nat.add] in Hrun, Hinv1; rewrite Z2Nat.id in Hrun, Hinv1 by exact Hq;
    rewrite Hrun; cbn match; rewrite Hcb.
  all: assert (Hfin : exists st2,
         (if 2048 * q <? n
          then
            match buf_read rd_src st1 (2048 * q) (n - 2048 * q) with
            | Some st' =>
              Some (buf_write rd_dest st' 0 (2048 * q) (n - 2048 * q))
            | None => None
            end
          else Some st1) = Some st2
         /\ import_inv (f_img rvth_src) (f_data (f_img rvth_w))
              (r_lba_start rd_src) (r_lba_start rd_dest) n st2);
    [ destruct (buf_read_fits rd_src st1 (2048 * q) (n - 2048 * q))
        as [-> _];
      [destruct Hinv1 as [_ _ _ _ Hb]; rewrite Hb; lia|];
      destruct (Z.ltb_spec (2048 * q) n) as [Hlt|Hge];
      (eexists; split; [reflexivity|]);
      [ pose proof (hdd_copy_step rd_src rd_dest n (f_img rvth_src)
                      (f_data (f_img rvth_w)) Hn32 Hslen Hsstart Hswrap
                      Hstream ltac:(lia) Hroom ltac:(lia)
                      (2048 * q) (n - 2048 * q) st1
                      ltac:(lia) ltac:(lia) ltac:(lia) Hinv1) as Hstep;
        replace (2048 * q + (n - 2048 * q)) with n in Hstep by lia;
        exact Hstep
      | assert (Heq : 2048 * q = n) by lia; rewrite Heq in Hinv1;
        exact Hinv1 ]
    | ].
  all: destruct Hfin as (st2 & -> & [Hc Hf _ _ _]).
  all: eexists; eexists; split; [reflexivity|]; split; [reflexivity|];
    split; [reflexivity|]; cbn [set_entry f_img]; split; assumption.
Qed.

(** The example: the 2051-LBA GameCube image into bank 1 of the HDD
    image whose banks have readers. *)
Lemma import_example_started :
  import_started rvth_layout ex_make_writable hdd_readers gcn_2051 1 0 0
    gcn_2051_entry (hdd_bank_reader 1) gcn_2051_reader
    (mkReader (0x300009 + 0x8C4A00 * 1) 0x8C4A00 RVTH_ImageType_HDD_Image)
    hdd_readers.
Proof.
  split; try reflexivity; try (simpl; lia).
  exists 0. split; [reflexivity | left; reflexivity].
Defined.

Lemma import_example_ready :
  import_ready gcn_2051 2051 gcn_2051_entry gcn_2051_reader
    (mkReader (0x300009 + 0x8C4A00 * 1) 0x8C4A00 RVTH_ImageType_HDD_Image).
Proof.
  split.
  - split; [reflexivity | lia].
  - repeat split; simpl; lia.
  - unfold gcn_2051, standalone, LBA_TO_BYTES, LBA_SIZE. simpl. lia.
  - simpl. lia.
Defined.

Lemma rvth_copy_to_hdd_copies_image_witness :
  exists c d,
    rvth_copy_to_hdd rvth_layout 0 zero_heap None ex_make_writable
      ex_write_BankEntry hdd_readers 1 gcn_2051 0 0 = Some c
    /\ c_ret c = 0
    /\ c_dest c = ex_write_BankEntry d 1
    /\ (forall i, 0 <= i < 2051 ->
          file_lba (f_img d) (0x300009 + 0x8C4A00 * 1 + i)
          = file_lba (f_img gcn_2051) (0 + i))
    /\ (forall j,
          ~ (0x300009 + 0x8C4A00 * 1 <= j < 0x300009 + 0x8C4A00 * 1 + 2051) ->
          f_data (f_img d) !! j = f_data (f_img hdd_readers) !! j).
Proof.
  apply (rvth_copy_to_hdd_copies_image rvth_layout 0 zero_heap None
           ex_make_writable ex_write_BankEntry hdd_readers gcn_2051 1 0 0
           2051 gcn_2051_entry (hdd_bank_reader 1) gcn_2051_reader
           (mkReader (0x300009 + 0x8C4A00 * 1) 0x8C4A00
              RVTH_ImageType_HDD_Image) hdd_readers).
  - exact import_example_started.
  - exact import_example_ready.
  - reflexivity.
Defined.

(** X15.  An import that is stopped leaves a copied prefix and nothing
    else.  Past the checks, with the source bank of [n] LBAs inside its
    stream and room for it in the window of the destination reader (so
    that every request of the copy lies inside the two windows),
    whatever the callback answers, [rvth_copy_to_hdd] returns 0, and in
    the object it leaves (or hands to [rvth_write_BankEntry]) the first
    [m] LBAs of the destination bank, for some [m] up to [n], are those
    of the source bank, and every other sector of the destination
    stream is as it was. *)
Theorem rvth_copy_to_hdd_copies_prefix (L : Layout) (now : Z)
    (heap : nat -> Sector) (callback : RvtH_Progress_Callback)
    (make_writable : RvtH -> Z -> Z * RvtH * Z)
    (write_BankEntry : RvtH -> Z -> RvtH)
    (rvth_dest rvth_src : RvtH) (bank_dest bank_src errno n : Z)
    (entry_src entry_dest : RvtH_BankEntry) (rd_src rd_dest : Reader)
    (rvth_w : RvtH) :
  import_started L make_writable rvth_dest rvth_src bank_dest bank_src errno
    entry_src entry_dest rd_src rd_dest rvth_w ->
  import_ready rvth_src n entry_src rd_src rd_dest ->
  exists c d m,
    rvth_copy_to_hdd L now heap callback make_writable write_BankEntry
      rvth_dest bank_dest rvth_src bank_src errno = Some c
    /\ c_ret c = 0
    /\ (c_dest c = d \/ c_dest c = write_BankEntry d bank_dest)
    /\ 0 <= m <= n
    /\ (forall i, 0 <= i < m ->
          file_lba (f_img d) (r_lba_start rd_dest + i)
          = file_lba (f_img rvth_src) (r_lba_start rd_src + i))
    /\ (forall j,
          ~ (r_lba_start rd_dest <= j < r_lba_start rd_dest + m) ->
          f_data (f_img d) !! j = f_data (f_img rvth_w) !! j).
Proof.
  intros Hst [[Hn Hpos] (Hslen & Hsstart & Hswrap) Hstream Hroom].
  subst n.
  set (n := lba_len entry_src) in *.
  set (q := n / 2048).
  assert (Hn32 : 0 <= n < 2 ^ 32) by (destruct Hst; assumption).
  assert (Hq : 0 <= q) by (apply Z.div_pos; lia).
  assert (HM : 2048 * q <= n) by (apply Z.mul_div_le; lia).
  assert (Hrem : n - 2048 * q < 2048).
  { unfold q. pose proof (Z.mod_pos_bound n 2048 ltac:(lia)) as Hb.
    rewrite Z.mod_eq in Hb by lia. lia. }
  import_start Hst; fold n;
    rewrite (lba_buf_max_value n) by lia; fold q;
    rewrite loop_trips_chunks by exact Hq.
  all: match goal with
       | |- context [hdd_chunks ?cb ?rs ?rd ?s ?t 0 ?st] =>
         destruct (hdd_chunks_prefix cb rs rd s n (f_img rvth_src)
                     (f_data (f_img rvth_w))
                     Hn32 Hslen Hsstart Hswrap Hstream
                     ltac:(lia) Hroom ltac:(lia) t 0%nat st)
           as (stopped & c' & st1 & Hrun & Hrange & Hfull & Hinv1);
         [ cbn [Nat.add]; lia
         | split; cbn [cs_dst cs_src cs_buf f_data f_size];
           [ intros i Hi; lia | reflexivity | reflexivity | reflexivity
           | unfold malloc_buf; rewrite length_map, length_seq; reflexivity ]
         | ]
       end.
  all: change (2048 * Z.of_nat 0) with 0 in Hrun;
    cbn [Nat.add] in Hrange, Hfull; rewrite Hrun; cbn match.
  all: destruct stopped;
    [ destruct Hinv1 as [Hc Hf _ _ _];
      eexists; eexists; exists (2048 * Z.of_nat c');
      split; [reflexivity|]; split; [reflexivity|];
      split; [left; reflexivity|]; cbn [set_entry f_img];
      split; [lia|]; split; assumption |].
  all: specialize (Hfull eq_refl); subst c';
    rewrite Z2Nat.id in Hinv1 by exact Hq.
  all: assert (Hfin : exists st2,
         (if 2048 * Z.of_nat (Z.to_nat q) <? n
          then
            match buf_read rd_src st1 (2048 * Z.of_nat (Z.to_nat q))
                    (n - 2048 * Z.of_nat (Z.to_nat q)) with
            | Some st' =>
              Some (buf_write rd_dest st' 0 (2048 * Z.of_nat (Z.to_nat q))
                      (n - 2048 * Z.of_nat (Z.to_nat q)))
            | None => None
            end
          else Some st1) = Some st2
         /\ import_inv (f_img rvth_src) (f_data (f_img rvth_w))
              (r_lba_start rd_src) (r_lba_start rd_dest) n st2);
    [ rewrite Z2Nat.id by exact Hq;
      destruct (buf_read_fits rd_src st1 (2048 * q) (n - 2048 * q))
        as [-> _];
      [destruct Hinv1 as [_ _ _ _ Hb]; rewrite Hb; lia|];
      destruct (Z.ltb_spec (2048 * q) n) as [Hlt|Hge];
      (eexists; split; [reflexivity|]);
      [ pose proof (hdd_copy_step rd_src rd_dest n (f_img rvth_src)
                      (f_data (f_img rvth_w)) Hn32 Hslen Hsstart Hswrap
                      Hstream ltac:(lia) Hroom ltac:(lia)
                      (2048 * q) (n - 2048 * q) st1
                      ltac:(lia) ltac:(lia) ltac:(lia) Hinv1) as Hstep;
        replace (2048 * q + (n - 2048 * q)) with n in Hstep by lia;
        exact Hstep
      | assert (Heq : 2048 * q = n) by lia; rewrite Heq in Hinv1;
        exact Hinv1 ]
    | ].
  all: destruct Hfin as (st2 & -> & [Hc Hf _ _ _]).
  all: match goal with
       | |- context [callback_stops ?cb ?s ?l] => destruct (callback_stops cb s l)
       end;
    [ eexists; eexists; exists n;
      (split; [reflexivity|]); (split; [reflexivity|]);
      (split; [left; reflexivity|]);
      cbn [set_entry f_img]; (split; [lia|]); split; assumption
    | eexists; eexists; exists n;
      (split; [reflexivity|]); (split; [reflexivity|]);
      (split; [right; reflexivity|]);
      cbn [set_entry f_img]; (split; [lia|]); split; assumption ].
Qed.

Lemma rvth_copy_to_hdd_copies_prefix_witness :
  exists c d m,
    rvth_copy_to_hdd rvth_layout 0 zero_heap (cb_stop_at 2051)
      ex_make_writable ex_write_BankEntry hdd_readers 1 gcn_2051 0 0 = Some c
    /\ c_ret c = 0
    /\ (c_dest c = d \/ c_dest c = ex_write_BankEntry d 1)
    /\ 0 <= m <= 2051
    /\ (forall i, 0 <= i < m ->
          file_lba (f_img d) (0x300009 + 0x8C4A00 * 1 + i)
          = file_lba (f_img gcn_2051) (0 + i))
    /\ (forall j,
          ~ (0x300009 + 0x8C4A00 * 1 <= j < 0x300009 + 0x8C4A00 * 1 + m) ->
          f_data (f_img d) !! j = f_data (f_img hdd_readers) !! j).
Proof.
  apply (rvth_copy_to_hdd_copies_prefix rvth_layout 0 zero_heap
           (cb_stop_at 2051) ex_make_writable ex_write_BankEntry hdd_readers
           gcn_2051 1 0 0 2051 gcn_2051_entry (hdd_bank_reader 1)
           gcn_2051_reader
           (mkReader (0x300009 + 0x8C4A00 * 1) 0x8C4A00
              RVTH_ImageType_HDD_Image) hdd_readers).
  - exact import_example_started.
  - exact import_example_ready.
Defined.

(** X16.  The bank entry after an import.  Past the checks, whatever
    the callback answers, the entry of the destination bank takes the
    type, region code, encryption, IOS version, signature information
    and disc header of the source entry and its length; it is not
    deleted; it keeps its own start LBA and partition table and has the
    reader the copy went through; its timestamp is the one of the
    source when that is not negative, the current time otherwise.  No
    other entry changes. *)
Theorem rvth_copy_to_hdd_bank_entry (L : Layout) (now : Z)
    (heap : nat -> Sector) (callback : RvtH_Progress_Callback)
    (make_writable : RvtH -> Z -> Z * RvtH * Z)
    (write_BankEntry : RvtH -> Z -> RvtH)
    (rvth_dest rvth_src : RvtH) (bank_dest bank_src errno : Z)
    (entry_src entry_dest : RvtH_BankEntry) (rd_src rd_dest : Reader)
    (rvth_w : RvtH) :
  import_started L make_writable rvth_dest rvth_src bank_dest bank_src errno
    entry_src entry_dest rd_src rd_dest rvth_w ->
  exists c d e,
    rvth_copy_to_hdd L now heap callback make_writable write_BankEntry
      rvth_dest bank_dest rvth_src bank_src errno = Some c
    /\ (c_dest c = d \/ c_dest c = write_BankEntry d bank_dest)
    /\ entries d = <[Z.to_nat bank_dest := e]> (entries rvth_w)
    /\ bank_count d = bank_count rvth_w
    /\ (type e, region_code e, crypto_type e, ios_version e)
       = (type entry_src, region_code entry_src, crypto_type entry_src,
          ios_version entry_src)
    /\ (ticket e, tmd e, discHeader e)
       = (ticket entry_src, tmd entry_src, discHeader entry_src)
    /\ lba_len e = lba_len entry_src
    /\ is_deleted e = false
    /\ (lba_start e, ptbl e) = (lba_start entry_dest, ptbl entry_dest)
    /\ reader e = Some rd_dest
    /\ timestamp e
       = (if 0 <=? timestamp entry_src then timestamp entry_src else now).
Proof.
  intros Hst.
  destruct (rvth_copy_to_hdd_run_any L now heap callback make_writable
              write_BankEntry rvth_dest rvth_src bank_dest bank_src errno
              entry_src entry_dest rd_src rd_dest rvth_w Hst)
    as (c & f & Hrun & Hret & Hdest & Hframe).
  cbv zeta in Hdest. eexists. eexists. eexists.
  split; [exact Hrun|]. split; [exact Hdest|].
  repeat split; reflexivity.
Qed.

Lemma rvth_copy_to_hdd_bank_entry_witness :
  exists c d e,
    rvth_copy_to_hdd rvth_layout 7 zero_heap None ex_make_writable
      ex_write_BankEntry hdd_readers 1 gcn_2051 0 0 = Some c
    /\ (c_dest c = d \/ c_dest c = ex_write_BankEntry d 1)
    /\ entries d = <[Z.to_nat 1 := e]> (entries hdd_readers)
    /\ bank_count d = bank_count hdd_readers
    /\ (type e, region_code e, crypto_type e, ios_version e)
       = (type gcn_2051_entry, region_code gcn_2051_entry,
          crypto_type gcn_2051_entry, ios_version gcn_2051_entry)
    /\ (ticket e, tmd e, discHeader e)
       = (ticket gcn_2051_entry, tmd gcn_2051_entry,
          discHeader gcn_2051_entry)
    /\ lba_len e = lba_len gcn_2051_entry
    /\ is_deleted e = false
    /\ (lba_start e, ptbl e)
       = (lba_start (hdd_bank_reader 1), ptbl (hdd_bank_reader 1))
    /\ reader e
       = Some (mkReader (0x300009 + 0x8C4A00 * 1) 0x8C4A00
                 RVTH_ImageType_HDD_Image)
    /\ timestamp e
       = (if 0 <=? timestamp gcn_2051_entry
          then timestamp gcn_2051_entry else 7).
Proof.
  apply (rvth_copy_to_hdd_bank_entry rvth_layout 7 zero_heap None
           ex_make_writable ex_write_BankEntry hdd_readers gcn_2051 1 0 0
           gcn_2051_entry (hdd_bank_reader 1) gcn_2051_reader
           (mkReader (0x300009 + 0x8C4A00 * 1) 0x8C4A00
              RVTH_ImageType_HDD_Image) hdd_readers).
  exact import_example_started.
Defined.

(** X24.  An import stopped at its first boundary.  For a source of at
    least one whole chunk, when the callback answers [false] to its
    first call: no sector is read or written and
    [rvth_write_BankEntry] is not called, [errno] is [ECANCELED], the
    return code is 0, and the entry of the destination bank in memory
    already describes the source image. *)
Theorem rvth_copy_to_hdd_cancelled_at_start (L : Layout) (now : Z)
    (heap : nat -> Sector) (callback : RvtH_Progress_Callback)
    (make_writable : RvtH -> Z -> Z * RvtH * Z)
    (write_BankEntry : RvtH -> Z -> RvtH)
    (rvth_dest rvth_src : RvtH) (bank_dest bank_src errno : Z)
    (entry_src entry_dest : RvtH_BankEntry) (rd_src rd_dest : Reader)
    (rvth_w : RvtH) :
  import_started L make_writable rvth_dest rvth_src bank_dest bank_src errno
    entry_src entry_dest rd_src rd_dest rvth_w ->
  2048 <= lba_len entry_src ->
  callback_stops callback
    (mkProgress RVTH_PROGRESS_IMPORT bank_dest bank_src 0 (lba_len entry_src))
    0 = true ->
  exists c e,
    rvth_copy_to_hdd L now heap callback make_writable write_BankEntry
      rvth_dest bank_dest rvth_src bank_src errno = Some c
    /\ c_ret c = 0 /\ c_errno c = ECANCELED
    /\ c_src c = set_file rvth_src (f_img rvth_src)
    /\ c_dest c = set_entry rvth_w (Z.to_nat bank_dest) e (f_img rvth_w)
    /\ type e = type entry_src /\ lba_len e = lba_len entry_src
    /\ is_deleted e = false.
Proof.
  intros Hst Hbig Hstop.
  assert (Hq : 1 <= lba_len entry_src / 2048)
    by (apply Z.div_le_lower_bound; lia).
  import_start Hst;
    rewrite (lba_buf_max_value (lba_len entry_src)) by lia;
    rewrite loop_trips_chunks by lia.
  all: destruct (Z.to_nat (lba_len entry_src / 2048)) as [|trips] eqn:Ht;
    [lia|].
  all: cbn [hdd_chunks]; rewrite Hstop.
  all: eexists; eexists; split; [reflexivity|]; cbn; repeat split.
Qed.

Lemma rvth_copy_to_hdd_cancelled_at_start_witness :
  exists c e,
    rvth_copy_to_hdd rvth_layout 0 zero_heap cb_cancel ex_make_writable
      ex_write_BankEntry hdd_readers 1 gcn_2051 0 0 = Some c
    /\ c_ret c = 0 /\ c_errno c = ECANCELED
    /\ c_src c = set_file gcn_2051 (f_img gcn_2051)
    /\ c_dest c = set_entry hdd_readers (Z.to_nat 1) e (f_img hdd_readers)
    /\ type e = type gcn_2051_entry /\ lba_len e = lba_len gcn_2051_entry
    /\ is_deleted e = false.
Proof.
  apply (rvth_copy_to_hdd_cancelled_at_start rvth_layout 0 zero_heap
           cb_cancel ex_make_writable ex_write_BankEntry hdd_readers
           gcn_2051 1 0 0 gcn_2051_entry (hdd_bank_reader 1) gcn_2051_reader
           (mkReader (0x300009 + 0x8C4A00 * 1) 0x8C4A00
              RVTH_ImageType_HDD_Image) hdd_readers).
  - exact import_example_started.
  - simpl. lia.
  - reflexivity.
Defined.

(** X25.  When no reader can be set up for the destination bank (the
    entry has none, and its window has a start LBA but no length, which
    [reader_plain_open] refuses), [rvth_copy_to_hdd] sets [errno] to
    [EINVAL] and leaves without copying, but its return code is the 0
    that [rvth_make_writable] returned. *)
Theorem rvth_copy_to_hdd_no_reader (L : Layout) (now : Z)
    (heap : nat -> Sector) (callback : RvtH_Progress_Callback)
    (make_writable : RvtH -> Z -> Z * RvtH * Z)
    (write_BankEntry : RvtH -> Z -> RvtH)
    (rvth_dest rvth_src rvth_w : RvtH)
    (bank_dest bank_src errno errno1 : Z)
    (entry_src entry_dest : RvtH_BankEntry) :
  0 <= bank_src < bank_count rvth_src ->
  0 <= bank_dest < bank_count rvth_dest ->
  is_hdd rvth_dest = true ->
  entries rvth_src !! Z.to_nat bank_src = Some entry_src ->
  check_src_type (type entry_src) = None ->
  entries rvth_dest !! Z.to_nat bank_dest = Some entry_dest ->
  import_checks L rvth_dest bank_dest entry_src entry_dest = Some None ->
  make_writable rvth_dest errno = (0, rvth_w, errno1) ->
  reader entry_dest = None ->
  0 < lba_start entry_dest -> lba_len entry_dest = 0 ->
  rvth_copy_to_hdd L now heap callback make_writable write_BankEntry
    rvth_dest bank_dest rvth_src bank_src errno
  = Some (mkCopyResult 0 EINVAL rvth_w rvth_src).
Proof.
  intros Hbs Hbd Hhdd Hes Hty Hed Hchk Hmw Hnone Hstart Hlen.
  unfold rvth_copy_to_hdd.
  do 2 (match goal with
        | |- context [?a <=? ?b] => destruct (Z.leb_spec a b); [lia|]
        end).
  cbn [orb]. rewrite Hhdd. cbn [negb].
  rewrite Hes. cbn [mbind option_bind]. rewrite Hty.
  rewrite Hed. cbn [mbind option_bind]. rewrite Hchk.
  cbn [mbind option_bind]. rewrite Hmw. cbn [negb Z.eqb].
  rewrite Hnone. unfold ReaderPlain.reader_plain_open. rewrite Hlen.
  destruct (Z.ltb_spec 0 (lba_start entry_dest)); [|lia].
  cbn [Z.eqb andb]. reflexivity.
Qed.

Lemma rvth_copy_to_hdd_no_reader_witness :
  rvth_copy_to_hdd rvth_layout 0 zero_heap None ex_make_writable
    ex_write_BankEntry hdd_unsized 3 gcn_3 0 0
  = Some (mkCopyResult 0 EINVAL hdd_unsized gcn_3).
Proof.
  apply (rvth_copy_to_hdd_no_reader rvth_layout 0 zero_heap None
           ex_make_writable ex_write_BankEntry hdd_unsized gcn_3 hdd_unsized
           3 0 0 0
           (bank_entry RVTH_BankType_GCN RVTH_CryptoType_None 3 gcn_header)
           (hdd_bank_unsized 3));
    try reflexivity; simpl; lia.
Defined.

(** ** Extract: no write leaves the window of the destination reader *)

Lemma sparse_data_lookup (f : RefFile) (lbas j : Z) :
  sparse_data f (LBA_TO_BYTES lbas) !! j
  = if decide (j < lbas) then f_data f !! j else None.
Proof.
  unfold sparse_data, ref_makeSparse, LBA_TO_BYTES, LBA_SIZE.
  cbn [snd f_data]. rewrite Z.div_mul by lia.
  destruct (f_data f !! j) as [s|] eqn:Hs.
  - destruct (decide (j < lbas)) as [Hlt|Hge].
    + apply map_lookup_filter_Some. split; [exact Hs | exact Hlt].
    + apply map_lookup_filter_None. right. intros x Hx. cbn. lia.
  - destruct (decide (j < lbas)); apply map_lookup_filter_None; left; exact Hs.
Qed.

Section ExtractFrame.

Variable rd_dest : Reader.
Variable d0 : gmap Z Sector.

Hypothesis Hs : 0 <= r_lba_start rd_dest.
Hypothesis Hl : 0 <= r_lba_len rd_dest.
Hypothesis Hw : r_lba_start rd_dest + r_lba_len rd_dest < 2 ^ 32.

Lemma buf_write_keeps_frame (st : CopyState) (idx : nat) (lba cnt : Z) :
  0 <= lba -> 0 <= cnt -> r_lba_start rd_dest + lba + cnt < 2 ^ 32 ->
  window_frame rd_dest d0 (cs_dst st) ->
  window_frame rd_dest d0 (cs_dst (buf_write rd_dest st idx lba cnt)).
Proof.
  intros Hlba Hcnt Hr Hframe j Hj.
  destruct (buf_write_frame rd_dest st idx lba cnt) as (Hfr & _); try lia.
  rewrite Hfr by exact Hj. apply Hframe. exact Hj.
Qed.

Lemma sparse_4k_frame (trips : nat) :
  forall (sprs lba_count : Z) (st : CopyState),
    0 <= sprs -> 0 <= lba_count ->
    r_lba_start rd_dest + lba_count + sprs / 512 + 8 * Z.of_nat trips < 2 ^ 32 ->
    window_frame rd_dest d0 (cs_dst st) ->
    window_frame rd_dest d0 (cs_dst (sparse_4k rd_dest trips sprs lba_count st)).
Proof.
  induction trips as [|trips IH]; intros sprs lba_count st Hsp Hlc Hfit Hframe.
  - exact Hframe.
  - cbn [sparse_4k].
    assert (Hd : 0 <= sprs / 512) by (apply Z.div_pos; lia).
    assert (Hnext : (sprs + 4096) / 512 = sprs / 512 + 8).
    { replace (sprs + 4096) with (sprs + 8 * 512) by lia.
      apply Z.div_add. lia. }
    apply IH; try lia.
    destruct (negb (rvth_is_block_empty _)); [|exact Hframe].
    cbn [set_nonsparse cs_dst].
    assert (Hu : u32_add lba_count (sprs / 512) = lba_count + sprs / 512).
    { unfold u32_add. apply u32_small. unfold is_u32. lia. }
    rewrite Hu. apply buf_write_keeps_frame; try lia. exact Hframe.
Qed.

Lemma sparse_512_frame (trips : nat) :
  forall (sprs lba_count : Z) (st : CopyState),
    0 <= sprs -> 0 <= lba_count ->
    r_lba_start rd_dest + lba_count + sprs / 512 + Z.of_nat trips < 2 ^ 32 ->
    window_frame rd_dest d0 (cs_dst st) ->
    window_frame rd_dest d0
      (cs_dst (sparse_512 rd_dest trips sprs lba_count st)).
Proof.
  induction trips as [|trips IH]; intros sprs lba_count st Hsp Hlc Hfit Hframe.
  - exact Hframe.
  - cbn [sparse_512].
    assert (Hd : 0 <= sprs / 512) by (apply Z.div_pos; lia).
    assert (Hnext : (sprs + 512) / 512 = sprs / 512 + 1).
    { replace (sprs + 512) with (sprs + 1 * 512) by lia.
      apply Z.div_add. lia. }
    apply IH; try lia.
    destruct (negb (rvth_is_block_empty _)); [|exact Hframe].
    cbn [set_nonsparse cs_dst].
    assert (Hu : u32_add lba_count (sprs / 512) = lba_count + sprs / 512).
    { unfold u32_add. apply u32_small. unfold is_u32. lia. }
    rewrite Hu. apply buf_write_keeps_frame; try lia. exact Hframe.
Qed.

Lemma restore_disc_header_dst (L : Layout) (e : RvtH_BankEntry)
    (st : CopyState) :
  cs_dst (restore_disc_header L e st) = cs_dst st.
Proof.
  unfold restore_disc_header. destruct (_ && _); reflexivity.
Qed.

Lemma restore_disc_header_buf (L : Layout) (e : RvtH_BankEntry)
    (st : CopyState) :
  length (cs_buf (restore_disc_header L e st)) = length (cs_buf st).
Proof.
  unfold restore_disc_header. destruct (_ && _); [|reflexivity].
  cbn [set_buf cs_buf]. apply length_insert.
Qed.

Lemma sparse_4k_buf (trips : nat) :
  forall (sprs lba_count : Z) (st : CopyState),
    cs_buf (sparse_4k rd_dest trips sprs lba_count st) = cs_buf st.
Proof.
  induction trips as [|trips IH]; intros sprs lba_count st; [reflexivity|].
  cbn [sparse_4k]. rewrite IH.
  destruct (negb (rvth_is_block_empty _)); [|reflexivity].
  cbn [set_nonsparse cs_buf]. unfold buf_write.
  destruct (ReaderPlain.reader_plain_write _ _ _ _ _ _) as [[c f'] e'].
  reflexivity.
Qed.

Lemma gcm_chunks_frame (L : Layout) (callback : RvtH_Progress_Callback)
    (entry_src : RvtH_BankEntry) (rd_src : Reader)
    (state : RvtH_Progress_State) (trips : nat) :
  forall (lba_count : Z) (st : CopyState),
    0 <= lba_count ->
    r_lba_start rd_dest + lba_count + 2048 * Z.of_nat trips < 2 ^ 32 ->
    length (cs_buf st) = 2048%nat ->
    window_frame rd_dest d0 (cs_dst st) ->
    exists (stopped : bool) (lba_count' : Z) (st' : CopyState),
      gcm_chunks L callback entry_src rd_src rd_dest state trips lba_count st
      = Some (stopped, lba_count', st')
      /\ (stopped = false -> lba_count' = lba_count + 2048 * Z.of_nat trips)
      /\ length (cs_buf st') = 2048%nat
      /\ window_frame rd_dest d0 (cs_dst st').
Proof.
  induction trips as [|trips IH]; intros lba_count st Hlo Hfit Hbuf Hframe.
  - exists false, lba_count, st. cbn [gcm_chunks].
    split; [reflexivity|]. split; [intros _; lia|].
    split; [exact Hbuf | exact Hframe].
  - cbn [gcm_chunks]. rewrite LBA_COUNT_BUF_value.
    destruct (callback_stops callback state lba_count).
    + exists true, lba_count, st.
      split; [reflexivity|]. split; [discriminate|].
      split; [exact Hbuf | exact Hframe].
    + destruct (buf_read_fits rd_src st lba_count 2048) as [-> Hlen1];
        [rewrite Hbuf; lia|].
      assert (Hnext : u32_add lba_count 2048 = lba_count + 2048).
      { unfold u32_add. apply u32_small. unfold is_u32. lia. }
      rewrite Hnext. change (loop_trips BUF_SIZE 4096) with 256%nat.
      match goal with
      | |- context [sparse_4k rd_dest 256 0 lba_count ?s] => set (st2 := s)
      end.
      assert (Hfr2 : window_frame rd_dest d0 (cs_dst st2)).
      { unfold st2.
        destruct (lba_count =? 0); rewrite ?restore_disc_header_dst;
          destruct (buf_fill_dst rd_src st lba_count 2048) as [-> _];
          exact Hframe. }
      assert (Hlen2 : length (cs_buf st2) = 2048%nat).
      { unfold st2.
        destruct (lba_count =? 0); rewrite ?restore_disc_header_buf, Hlen1;
          exact Hbuf. }
      destruct (IH (lba_count + 2048)
                  (sparse_4k rd_dest 256 0 lba_count st2))
        as (stopped & lba_count' & st' & Hrun & Hfull & Hlen' & Hf);
        [lia | lia | rewrite sparse_4k_buf; exact Hlen2 | |].
      * apply sparse_4k_frame;
          [ lia | lia
          | change (0 / 512) with 0; change (Z.of_nat 256) with 256; lia
          | exact Hfr2 ].
      * exists stopped, lba_count', st'.
        split; [exact Hrun|].
        split; [intros Hns; rewrite Hfull by exact Hns; lia|].
        split; [exact Hlen' | exact Hf].
Qed.

End ExtractFrame.

(** A run of [rvth_copy_to_gcm] past the checks, whatever the callback
    and the source do: it returns 0, the entry of the destination is
    rewritten from the source entry, and the destination stream has
    changed inside the window of the reader only. *)
Lemma rvth_copy_to_gcm_run_any (L : Layout) (now : Z)
    (heap : nat -> Sector) (callback : RvtH_Progress_Callback)
    (rvth_dest rvth_src : RvtH) (bank_src errno : Z)
    (entry_src entry_dest : RvtH_BankEntry) (rd_src rd_dest : Reader) :
  extract_started rvth_dest rvth_src bank_src entry_src entry_dest
    rd_src rd_dest ->
  exists c f,
    rvth_copy_to_gcm L now heap callback rvth_dest rvth_src bank_src errno
    = Some c
    /\ c_ret c = 0
    /\ c_dest c
       = set_entry rvth_dest 0
           (copy_bank_info now entry_src entry_dest (lba_len entry_dest)) f
    /\ window_frame rd_dest
         (sparse_data (f_img rvth_dest) (LBA_TO_BYTES (lba_len entry_dest))) f.
Proof.
  intros [Hbank (Hhdd & Hone) Hes Hty Hrs Hed Hrd (Hns & Hnd) Hfits
          (Hs & Hl & Hw) Hwrap].
  set (ns := lba_len entry_src) in *. set (nd := lba_len entry_dest) in *.
  set (d0 := sparse_data (f_img rvth_dest) (LBA_TO_BYTES nd)).
  assert (Hq : 0 <= nd / 2048) by (apply Z.div_pos; lia).
  assert (HM : 2048 * (nd / 2048) <= nd) by (apply Z.mul_div_le; lia).
  assert (Hrem : nd - 2048 * (nd / 2048) < 2048).
  { pose proof (Z.mod_pos_bound nd 2048 ltac:(lia)) as Hb.
    rewrite Z.mod_eq in Hb by lia. lia. }
  unfold rvth_copy_to_gcm.
  destruct (Z.leb_spec (bank_count rvth_src) bank_src); [lia|].
  rewrite Hhdd, Hone. cbn [orb negb Z.eqb Pos.eqb].
  rewrite Hes. cbn [mbind option_bind]. rewrite Hty.
  rewrite Hed. cbn [mbind option_bind].
  unfold ref_makeSparse. cbn [negb Z.eqb].
  rewrite Hrs. cbn [mbind option_bind reader copy_bank_info].
  rewrite Hrd. cbn [mbind option_bind lba_len]. fold ns nd.
  change (lba_len (copy_bank_info now entry_src entry_dest nd)) with nd.
  rewrite (lba_buf_max_value nd) by lia.
  rewrite loop_trips_chunks by exact Hq.
  match goal with
  | |- context [gcm_chunks L callback entry_src rd_src rd_dest ?s ?t 0 ?st] =>
    destruct (gcm_chunks_frame rd_dest d0 Hs Hl Hw L callback entry_src
                rd_src s t 0 st ltac:(lia) ltac:(lia))
      as (stopped & lba_count & st1 & Hrun & Hfull & Hlen1 & Hframe);
      [ cbn [cs_buf]; unfold malloc_buf; rewrite length_map, length_seq;
        reflexivity
      | intros j Hj; reflexivity
      | rewrite Hrun; cbn match ]
  end.
  destruct stopped.
  { eexists. eexists. split; [reflexivity|]. split; [reflexivity|].
    split; [reflexivity | exact Hframe]. }
  specialize (Hfull eq_refl). rewrite Z2Nat.id in Hfull by exact Hq.
  rewrite Z.add_0_l in Hfull.
  assert (Hlc : 0 <= lba_count <= nd) by lia.
  cbv zeta.
  assert (Hsub : u32_sub ns 1 = ns - 1).
  { unfold u32_sub. apply u32_small. unfold is_u32. lia. }
  rewrite Hsub.
  (* the remaining LBAs *)
  assert (Hrest : exists b st2,
    (if lba_count <? ns
     then
       if callback_stops callback
            (mkProgress RVTH_PROGRESS_EXTRACT bank_src 0 0 ns) lba_count
       then Some (true, st1)
       else
         match buf_read rd_src st1 lba_count (ns - lba_count) with
         | Some st2 =>
           if (length (cs_buf st2)
               <? loop_trips (BYTES_TO_LBA (ns - lba_count)) 512)%nat
           then None
           else
             Some (false,
                   sparse_512 rd_dest
                     (loop_trips (BYTES_TO_LBA (ns - lba_count)) 512)
                     0 lba_count st2)
         | None => None
         end
     else Some (false, st1)) = Some (b, st2)
    /\ window_frame rd_dest d0 (cs_dst st2)).
  { destruct (Z.ltb_spec lba_count ns) as [Hlt|Hge];
      [|eexists; eexists; split; [reflexivity | exact Hframe]].
    destruct (callback_stops _ _ _);
      [eexists; eexists; split; [reflexivity | exact Hframe]|].
    destruct (buf_read_fits rd_src st1 lba_count (ns - lba_count))
      as [-> Hlenf]; [rewrite Hlen1; lia|].
    assert (Htrips :
      (loop_trips (BYTES_TO_LBA (ns - lba_count)) 512 <= 1)%nat).
    { unfold loop_trips, BYTES_TO_LBA, LBA_SIZE.
      assert (Hd : 0 <= (ns - lba_count) / 512 <= 3).
      { split; [apply Z.div_pos; lia|].
        apply Z.lt_succ_r. apply Z.div_lt_upper_bound; lia. }
      rewrite u32_small by (unfold is_u32; lia).
      assert (((ns - lba_count) / 512 + 512 - 1) / 512 <= 1).
      { apply Z.lt_succ_r. apply Z.div_lt_upper_bound; lia. }
      lia. }
    assert (Hidx :
      (length (cs_buf (buf_fill rd_src st1 lba_count (ns - lba_count)))
       <? loop_trips (BYTES_TO_LBA (ns - lba_count)) 512)%nat = false).
    { apply Nat.ltb_ge. rewrite Hlenf, Hlen1. lia. }
    rewrite Hidx.
    eexists. eexists. split; [reflexivity|].
    apply sparse_512_frame; try lia.
    - change (0 / 512) with 0.
      unfold loop_trips, BYTES_TO_LBA, LBA_SIZE.
      assert (Hd : 0 <= (ns - lba_count) / 512 <= ns).
      { split; [apply Z.div_pos; lia|].
        apply Z.div_le_upper_bound; lia. }
      rewrite u32_small by (unfold is_u32; lia).
      assert (((ns - lba_count) / 512 + 512 - 1) / 512 <= ns).
      { apply Z.div_le_upper_bound; lia. }
      assert (0 <= ((ns - lba_count) / 512 + 512 - 1) / 512)
        by (apply Z.div_pos; lia).
      lia.
    - destruct (buf_fill_dst rd_src st1 lba_count (ns - lba_count)) as [-> _].
      exact Hframe. }
  destruct Hrest as (b & st2 & -> & Hframe2).
  destruct b.
  { eexists. eexists. split; [reflexivity|]. split; [reflexivity|].
    split; [reflexivity | exact Hframe2]. }
  destruct (callback_stops _ _ _).
  { eexists. eexists. split; [reflexivity|]. split; [reflexivity|].
    split; [reflexivity | exact Hframe2]. }
  eexists. eexists. split; [reflexivity|]. split; [reflexivity|].
  split; [reflexivity|].
  destruct (negb (cs_nonsparse st2 =? ns - 1)); [|exact Hframe2].
  apply buf_write_keeps_frame; try lia. exact Hframe2.
Qed.

(** A bank inside its stream and a new image of its length: the checks
    of [rvth_copy_to_gcm] pass. *)
Lemma extract_ready_started (rvth_dest rvth_src : RvtH) (bank_src n : Z)
    (entry_src : RvtH_BankEntry) (rd_src : Reader) :
  extract_ready rvth_dest rvth_src bank_src n entry_src rd_src ->
  n < 2 ^ 31 ->
  exists entry_dest t,
    lba_len entry_dest = n
    /\ extract_started rvth_dest rvth_src bank_src entry_src entry_dest
         rd_src (mkReader 0 n t).
Proof.
  intros [Hn Hbank Hentry Htype Hlen Hreader _ _ _ _ Hstandalone _
          (entry_dest & t & Hedest & Hdlen & Hdreader)] Hhalf.
  exists entry_dest, t. split; [exact Hdlen|].
  split; try assumption; cbn [r_lba_start r_lba_len]; lia.
Qed.

(** X17.  An extract stores nothing outside the image.  For a bank of
    [n] LBAs (fewer than 2^31) inside its stream and a new image of [n]
    LBAs, so that every request of the copy lies inside the two
    windows, whatever the callback answers (the copy may be stopped at
    any boundary), [rvth_copy_to_gcm] returns 0 and the destination
    stream holds no sector outside the LBAs [0, n) of the image. *)
Theorem rvth_copy_to_gcm_stays_in_window (L : Layout) (now : Z)
    (heap : nat -> Sector) (callback : RvtH_Progress_Callback)
    (rvth_dest rvth_src : RvtH) (bank_src errno n : Z)
    (entry_src : RvtH_BankEntry) (rd_src : Reader) :
  extract_ready rvth_dest rvth_src bank_src n entry_src rd_src ->
  n < 2 ^ 31 ->
  exists c,
    rvth_copy_to_gcm L now heap callback rvth_dest rvth_src bank_src errno
    = Some c
    /\ c_ret c = 0
    /\ forall j, ~ (0 <= j < n) -> f_data (f_img (c_dest c)) !! j = None.
Proof.
  intros Hready Hhalf.
  destruct (extract_ready_started rvth_dest rvth_src bank_src n entry_src
              rd_src Hready Hhalf) as (entry_dest & t & Hdlen & Hst).
  destruct (rvth_copy_to_gcm_run_any L now heap callback rvth_dest rvth_src
              bank_src errno entry_src entry_dest rd_src (mkReader 0 n t) Hst)
    as (c & f & Hrun & Hret & Hdest & Hframe).
  exists c. split; [exact Hrun|]. split; [exact Hret|].
  intros j Hj. rewrite Hdest. cbn [set_entry f_img].
  rewrite (Hframe j) by (cbn [r_lba_start r_lba_len]; lia).
  rewrite sparse_data_lookup.
  destruct (decide (j < lba_len entry_dest)); [|reflexivity].
  destruct Hready as [_ _ _ _ _ _ _ _ _ _ _ Hnew _].
  rewrite Hnew. apply lookup_empty.
Qed.

(** The example: the 2051-LBA GameCube image into the image
    [rvth_create_gcm] makes for it. *)
Lemma extract_example_started :
  extract_started (created_gcm 2051) gcn_2051 0 gcn_2051_entry
    (bank_entry RVTH_BankType_Empty RVTH_CryptoType_Unknown 2051 zero_sector)
    gcn_2051_reader (mkReader 0 2051 RVTH_ImageType_GCM).
Proof.
  split; try reflexivity; try (simpl; lia).
Defined.

Lemma extract_example_ready :
  extract_ready (created_gcm 2051) gcn_2051 0 2051 gcn_2051_entry
    gcn_2051_reader.
Proof.
  split; try reflexivity; try (simpl; lia).
  - unfold file_wf. apply (bool_decide_unpack _). vm_compute. exact I.
  - eexists. eexists. repeat split; reflexivity.
Defined.

Lemma rvth_copy_to_gcm_stays_in_window_witness :
  exists c,
    rvth_copy_to_gcm rvth_layout 0 zero_heap (cb_stop_at 2048)
      (created_gcm 2051) gcn_2051 0 0 = Some c
    /\ c_ret c = 0
    /\ forall j, ~ (0 <= j < 2051) -> f_data (f_img (c_dest c)) !! j = None.
Proof.
  apply (rvth_copy_to_gcm_stays_in_window rvth_layout 0 zero_heap
           (cb_stop_at 2048) (created_gcm 2051) gcn_2051 0 0 2051
           gcn_2051_entry gcn_2051_reader).
  - exact extract_example_ready.
  - lia.
Defined.

(** X18.  The bank entry after an extract.  Past the checks, with a
    destination entry at least as long as the source bank (so that no
    read runs past the end of the 1 MB block), whatever the callback
    answers, the entry of the new image takes the type,
    region code, encryption, IOS version, signature information and
    disc header of the source entry; it is not deleted; it keeps its
    own reader, start LBA, length and partition table; its timestamp is
    the one of the source when that is not negative, the current time
    otherwise. *)
Theorem rvth_copy_to_gcm_bank_entry (L : Layout) (now : Z)
    (heap : nat -> Sector) (callback : RvtH_Progress_Callback)
    (rvth_dest rvth_src : RvtH) (bank_src errno : Z)
    (entry_src entry_dest : RvtH_BankEntry) (rd_src rd_dest : Reader) :
  extract_started rvth_dest rvth_src bank_src entry_src entry_dest
    rd_src rd_dest ->
  exists c e,
    rvth_copy_to_gcm L now heap callback rvth_dest rvth_src bank_src errno
    = Some c
    /\ entries (c_dest c) !! 0%nat = Some e
    /\ (type e, region_code e, crypto_type e, ios_version e)
       = (type entry_src, region_code entry_src, crypto_type entry_src,
          ios_version entry_src)
    /\ (ticket e, tmd e, discHeader e)
       = (ticket entry_src, tmd entry_src, discHeader entry_src)
    /\ is_deleted e = false
    /\ (reader e, lba_start e, lba_len e, ptbl e)
       = (reader entry_dest, lba_start entry_dest, lba_len entry_dest,
          ptbl entry_dest)
    /\ timestamp e
       = (if 0 <=? timestamp entry_src then timestamp entry_src else now).
Proof.
  intros Hst.
  destruct (rvth_copy_to_gcm_run_any L now heap callback rvth_dest rvth_src
              bank_src errno entry_src entry_dest rd_src rd_dest Hst)
    as (c & f & Hrun & Hret & Hdest & Hframe).
  exists c. eexists. split; [exact Hrun|]. rewrite Hdest.
  cbn [set_entry entries].
  split.
  - apply list_lookup_insert_eq. destruct Hst as [_ _ _ _ _ Hed _ _ _ _].
    apply lookup_lt_Some in Hed. exact Hed.
  - repeat split; reflexivity.
Qed.

Lemma rvth_copy_to_gcm_bank_entry_witness :
  exists c e,
    rvth_copy_to_gcm rvth_layout 7 zero_heap None (created_gcm 2051)
      gcn_2051 0 0 = Some c
    /\ entries (c_dest c) !! 0%nat = Some e
    /\ (type e, region_code e, crypto_type e, ios_version e)
       = (type gcn_2051_entry, region_code gcn_2051_entry,
          crypto_type gcn_2051_entry, ios_version gcn_2051_entry)
    /\ (ticket e, tmd e, discHeader e)
       = (ticket gcn_2051_entry, tmd gcn_2051_entry,
          discHeader gcn_2051_entry)
    /\ is_deleted e = false
    /\ (reader e, lba_start e, lba_len e, ptbl e)
       = (Some (mkReader 0 2051 RVTH_ImageType_GCM), 0, 2051, None)
    /\ timestamp e
       = (if 0 <=? timestamp gcn_2051_entry
          then timestamp gcn_2051_entry else 7).
Proof.
  apply (rvth_copy_to_gcm_bank_entry rvth_layout 7 zero_heap None
           (created_gcm 2051) gcn_2051 0 0 gcn_2051_entry
           (bank_entry RVTH_BankType_Empty RVTH_CryptoType_Unknown 2051
              zero_sector)
           gcn_2051_reader (mkReader 0 2051 RVTH_ImageType_GCM)).
  exact extract_example_started.
Defined.

(** ** The wrappers [rvth_extract] and [rvth_import] *)

Lemma not_unenc_to_enc (entry : RvtH_BankEntry) (recrypt_key : Z) :
  recrypt_key <= 0 -> is_unenc_to_enc entry recrypt_key = false.
Proof.
  intros Hk. unfold is_unenc_to_enc, crypto_type_ord.
  destruct (Z.ltb_spec 0 recrypt_key); [lia|]. apply andb_false_r.
Qed.

(** X19.  An SDK header cannot be asked for a GameCube bank:
    [rvth_extract] returns [RVTH_ERROR_NDEV_GCN_NOT_SUPPORTED] before
    any image is created, leaves the source alone and does not set
    [errno]. *)
Theorem rvth_extract_sdk_gcn_refused (L : Layout) (now : Z)
    (heap : nat -> Sector) (callback : RvtH_Progress_Callback)
    (find_game : RvtH_BankEntry -> option pt_entry_t)
    (create_gcm : Z -> Z -> option RvtH * Z * Z)
    (doCrypt : RvtH -> RvtH -> Z -> RvtH_Progress_Callback -> Z ->
               option CopyResult)
    (recrypt_partitions :
       RvtH -> Z -> Z -> RvtH_Progress_Callback -> Z -> Z * RvtH * Z)
    (rvth : RvtH) (bank recrypt_key flags errno : Z)
    (entry : RvtH_BankEntry) :
  0 <= bank < bank_count rvth ->
  entries rvth !! Z.to_nat bank = Some entry ->
  type entry = RVTH_BankType_GCN ->
  Z.land flags RVTH_EXTRACT_PREPEND_SDK_HEADER <> 0 ->
  rvth_extract L now heap callback find_game create_gcm doCrypt
    recrypt_partitions rvth bank recrypt_key flags errno
  = Some (mkExtractResult RVTH_ERROR_NDEV_GCN_NOT_SUPPORTED errno None rvth).
Proof.
  intros Hbank Hentry Hty Hflag. unfold rvth_extract.
  destruct (Z.leb_spec (bank_count rvth) bank); [lia|].
  rewrite Hentry. cbn [mbind option_bind].
  unfold extract_gcm_lba_len, is_unenc_to_enc. rewrite Hty.
  change (bank_type_ord RVTH_BankType_Wii_SL
          <=? bank_type_ord RVTH_BankType_GCN) with false.
  cbn [andb].
  destruct (Z.eqb_spec (Z.land flags RVTH_EXTRACT_PREPEND_SDK_HEADER) 0);
    [contradiction|].
  cbn [negb]. rewrite bool_decide_eq_true_2 by reflexivity. reflexivity.
Qed.

Lemma rvth_extract_sdk_gcn_refused_witness :
  rvth_extract rvth_layout 0 zero_heap None ex_find_game ex_create_gcm
    ex_doCrypt ex_recrypt_partitions gcn_3 0 0 1 0
  = Some (mkExtractResult RVTH_ERROR_NDEV_GCN_NOT_SUPPORTED 0 None gcn_3).
Proof.
  apply (rvth_extract_sdk_gcn_refused rvth_layout 0 zero_heap None
           ex_find_game ex_create_gcm ex_doCrypt ex_recrypt_partitions
           gcn_3 0 0 1 0
           (bank_entry RVTH_BankType_GCN RVTH_CryptoType_None 3 gcn_header));
    try reflexivity.
  - simpl. lia.
  - vm_compute. discriminate.
Defined.

(** X20.  [rvth_extract] without recryption and without an SDK header
    is [rvth_create_gcm] for exactly [lba_len] LBAs followed by
    [rvth_copy_to_gcm], so it copies what that copies: for a bank of
    [n] LBAs inside a well-formed stream, a new image of [n] LBAs and
    no callback asking to stop, it returns 0, and the image it closes
    has [n * 512] bytes and holds, in every whole 1 MB chunk, the LBAs
    of the bank (the cached disc header in place of a first sector
    without magic number). *)
Theorem rvth_extract_whole_chunks (L : Layout) (now : Z)
    (heap : nat -> Sector) (callback : RvtH_Progress_Callback)
    (find_game : RvtH_BankEntry -> option pt_entry_t)
    (create_gcm : Z -> Z -> option RvtH * Z * Z)
    (doCrypt : RvtH -> RvtH -> Z -> RvtH_Progress_Callback -> Z ->
               option CopyResult)
    (recrypt_partitions :
       RvtH -> Z -> Z -> RvtH_Progress_Callback -> Z -> Z * RvtH * Z)
    (rvth rvth_dest : RvtH) (bank recrypt_key flags errno n ret0 errno1 : Z)
    (entry : RvtH_BankEntry) (rd_src : Reader) :
  recrypt_key <= 0 ->
  Z.land flags RVTH_EXTRACT_PREPEND_SDK_HEADER = 0 ->
  create_gcm n errno = (Some rvth_dest, ret0, errno1) ->
  extract_ready rvth_dest rvth bank n entry rd_src ->
  (forall s lba, callback_stops callback s lba = false) ->
  exists x d,
    rvth_extract L now heap callback find_game create_gcm doCrypt
      recrypt_partitions rvth bank recrypt_key flags errno = Some x
    /\ x_ret x = 0
    /\ x_dest x = Some d
    /\ f_size (f_img d) = n * 512
    /\ forall i, 0 <= i < 2048 * (n / 2048) ->
         file_lba (f_img d) i
         = extracted_lba L entry (f_img rvth) (r_lba_start rd_src) i.
Proof.
  intros Hkey Hflags Hcreate Hready Hcb.
  destruct (rvth_copy_to_gcm_run L now heap callback rvth_dest rvth bank
              errno1 n entry rd_src Hready Hcb)
    as (c & Hrun & Hret & Hsize & Hcopy & _).
  destruct Hready as [_ Hbank Hentry _ Hlen _ _ _ _ _ _ _ _].
  unfold rvth_extract.
  destruct (Z.leb_spec (bank_count rvth) bank); [lia|].
  rewrite Hentry. cbn [mbind option_bind].
  unfold extract_gcm_lba_len.
  rewrite (not_unenc_to_enc entry recrypt_key Hkey), Hflags, Hlen.
  cbn [Z.eqb negb]. rewrite Hcreate. cbn [mbind option_bind].
  rewrite Hrun. cbn [mbind option_bind]. rewrite Hret.
  unfold crypto_type_ord at 1.
  destruct (Z.ltb_spec 0 recrypt_key); [lia|].
  cbn [Z.eqb andb].
  eexists. eexists. split; [reflexivity|]. cbn [x_ret x_dest].
  split; [reflexivity|]. split; [reflexivity|]. split; assumption.
Qed.

Lemma rvth_extract_whole_chunks_witness :
  exists x d,
    rvth_extract rvth_layout 0 zero_heap None ex_find_game ex_create_gcm
      ex_doCrypt ex_recrypt_partitions gcn_2051 0 (-1) 0 0 = Some x
    /\ x_ret x = 0
    /\ x_dest x = Some d
    /\ f_size (f_img d) = 2051 * 512
    /\ forall i, 0 <= i < 2048 * (2051 / 2048) ->
         file_lba (f_img d) i
         = extracted_lba rvth_layout gcn_2051_entry (f_img gcn_2051)
             (r_lba_start gcn_2051_reader) i.
Proof.
  apply (rvth_extract_whole_chunks rvth_layout 0 zero_heap None ex_find_game
           ex_create_gcm ex_doCrypt ex_recrypt_partitions gcn_2051
           (created_gcm 2051) 0 (-1) 0 0 2051 0 0 gcn_2051_entry
           gcn_2051_reader).
  - lia.
  - reflexivity.
  - reflexivity.
  - split; try reflexivity; try (simpl; lia).
    + unfold file_wf. apply (bool_decide_unpack _). vm_compute. exact I.
    + eexists. eexists. repeat split; reflexivity.
  - reflexivity.
Defined.




(** X22.  With the flag [PREPEND_SDK_HEADER] and no recryption, a bank
    that cannot be extracted (Empty, Unknown, or the second bank of a
    dual-layer image) is not refused: [rvth_extract] creates the new
    image, takes the exit "Should not get here" of the switch on the
    bank type (the [assert] there compiled out) and returns what
    [rvth_create_gcm] left in [ret], which is 0 if that function does
    not store a code when it succeeds, without writing anything and
    without calling [rvth_copy_to_gcm]. *)
Theorem rvth_extract_sdk_unchecked_bank_type (L : Layout) (now : Z)
    (heap : nat -> Sector) (callback : RvtH_Progress_Callback)
    (find_game : RvtH_BankEntry -> option pt_entry_t)
    (create_gcm : Z -> Z -> option RvtH * Z * Z)
    (doCrypt : RvtH -> RvtH -> Z -> RvtH_Progress_Callback -> Z ->
               option CopyResult)
    (recrypt_partitions :
       RvtH -> Z -> Z -> RvtH_Progress_Callback -> Z -> Z * RvtH * Z)
    (rvth rvth_dest0 : RvtH) (bank recrypt_key flags errno ret0 errno1 : Z)
    (entry e0 : RvtH_BankEntry) :
  recrypt_key <= 0 ->
  Z.land flags RVTH_EXTRACT_PREPEND_SDK_HEADER <> 0 ->
  0 <= bank < bank_count rvth ->
  entries rvth !! Z.to_nat bank = Some entry ->
  type entry = RVTH_BankType_Empty \/ type entry = RVTH_BankType_Unknown
  \/ type entry = RVTH_BankType_Wii_DL_Bank2 ->
  create_gcm (u32_add (lba_len entry) 64) errno
  = (Some rvth_dest0, ret0, errno1) ->
  entries rvth_dest0 !! 0%nat = Some e0 ->
  check_src_type (type entry) <> None
  /\ rvth_extract L now heap callback find_game create_gcm doCrypt
       recrypt_partitions rvth bank recrypt_key flags errno
     = Some (mkExtractResult ret0 errno1 (Some rvth_dest0) rvth).
Proof.
  intros Hkey Hflag Hbank Hentry Hty Hcreate He0.
  split; [destruct Hty as [-> | [-> | ->]]; discriminate|].
  assert (Hgcn : bool_decide (type entry = RVTH_BankType_GCN) = false).
  { apply bool_decide_eq_false. destruct Hty as [-> | [-> | ->]]; discriminate. }
  unfold rvth_extract.
  destruct (Z.leb_spec (bank_count rvth) bank); [lia|].
  rewrite Hentry. cbn [mbind option_bind].
  unfold extract_gcm_lba_len.
  rewrite (not_unenc_to_enc entry recrypt_key Hkey).
  destruct (Z.eqb_spec (Z.land flags RVTH_EXTRACT_PREPEND_SDK_HEADER) 0);
    [contradiction|].
  cbn [negb]. rewrite Hgcn.
  change (BYTES_TO_LBA 32768) with 64. rewrite Hcreate, He0.
  cbn [mbind option_bind].
  destruct Hty as [-> | [-> | ->]]; reflexivity.
Qed.

Lemma rvth_extract_sdk_unchecked_bank_type_witness :
  check_src_type (type (bank_entry RVTH_BankType_Empty
                          RVTH_CryptoType_Unknown 3 zero_sector)) <> None
  /\ rvth_extract rvth_layout 0 zero_heap None ex_find_game ex_create_gcm
       ex_doCrypt ex_recrypt_partitions empty_3 0 (-1) 1 0
     = Some (mkExtractResult 0 0 (Some (created_gcm (u32_add 3 64))) empty_3).
Proof.
  apply (rvth_extract_sdk_unchecked_bank_type rvth_layout 0 zero_heap None
           ex_find_game ex_create_gcm ex_doCrypt ex_recrypt_partitions
           empty_3 (created_gcm (u32_add 3 64)) 0 (-1) 1 0 0 0
           (bank_entry RVTH_BankType_Empty RVTH_CryptoType_Unknown 3
              zero_sector)
           (bank_entry RVTH_BankType_Empty RVTH_CryptoType_Unknown
              (u32_add 3 64) zero_sector));
    try reflexivity; try lia.
  - vm_compute. discriminate.
  - simpl. lia.
  - left. reflexivity.
Defined.

(** X23.  [rvth_import] returns 0 only after a copy that returned 0.
    If it returns 0, the source image was opened, is a standalone image
    and [rvth_copy_to_hdd] returned 0 for it; if the source could not
    be opened, the code returned is not 0 (the [-EIO] put in place of a
    0 from [rvth_open] included) and the HDD image is untouched. *)
Theorem rvth_import_zero_only_after_copy (L : Layout) (now : Z)
    (heap : nat -> Sector) (callback : RvtH_Progress_Callback)
    (make_writable : RvtH -> Z -> Z * RvtH * Z)
    (write_BankEntry : RvtH -> Z -> RvtH)
    (recrypt_partitions :
       RvtH -> Z -> Z -> RvtH_Progress_Callback -> Z -> Z * RvtH * Z)
    (recrypt_id : RvtH -> Z -> Z -> Z * RvtH * Z)
    (rvth : RvtH) (bank : Z) (opened : option RvtH * Z * Z) (errno : Z)
    (r : ImportResult) :
  rvth_import L now heap callback make_writable write_BankEntry
    recrypt_partitions recrypt_id rvth bank opened errno = Some r ->
  (i_ret r = 0 ->
   exists rvth_src c,
     fst (fst opened) = Some rvth_src
     /\ is_hdd rvth_src = false
     /\ rvth_copy_to_hdd L now heap callback make_writable write_BankEntry
          rvth bank rvth_src 0 (snd opened) = Some c
     /\ c_ret c = 0)
  /\ (fst (fst opened) = None -> i_ret r <> 0 /\ i_rvth r = rvth).
Proof.
  unfold rvth_import. intros H.
  destruct (bank_count rvth <=? bank).
  { inversion H; subst; cbn. split; [unfold ERANGE; lia|].
    intros _. split; [unfold ERANGE; lia | reflexivity]. }
  destruct opened as [[[rvth_src|] ret0] errno1]; cbn [fst snd].
  2:{ inversion H; subst; cbn.
      assert (Hne : (if ret0 =? 0 then - EIO else ret0) <> 0).
      { destruct (Z.eqb_spec ret0 0); [unfold EIO; lia | assumption]. }
      split; [intros H0; contradiction|].
      intros _. split; [exact Hne | reflexivity]. }
  split; [|intros; discriminate].
  destruct (is_hdd rvth_src) eqn:Hhdd; cbn [orb] in H.
  { inversion H; subst; cbn. unfold RVTH_ERROR_IS_HDD_IMAGE. lia. }
  destruct (1 <? bank_count rvth_src).
  { inversion H; subst; cbn. unfold RVTH_ERROR_IS_HDD_IMAGE. lia. }
  destruct (bank_count rvth_src =? 0).
  { inversion H; subst; cbn. unfold RVTH_ERROR_NO_BANKS. lia. }
  apply bind_Some in H as (c & Hcopy & H).
  destruct (Z.eqb_spec (c_ret c) 0) as [Hret|Hret].
  - intros _. exists rvth_src, c. repeat split; assumption.
  - inversion H; subst; cbn. intros H0. contradiction.
Qed.

Lemma rvth_import_zero_only_after_copy_witness :
  exists r,
    rvth_import rvth_layout 0 zero_heap None ex_make_writable
      ex_write_BankEntry ex_recrypt_partitions ex_recrypt_id hdd_empty 0
      (None, 0, ENOENT) 0 = Some r
    /\ (i_ret r = 0 ->
        exists rvth_src c,
          fst (fst (None : option RvtH, 0, ENOENT)) = Some rvth_src
          /\ is_hdd rvth_src = false
          /\ rvth_copy_to_hdd rvth_layout 0 zero_heap None ex_make_writable
               ex_write_BankEntry hdd_empty 0 rvth_src 0
               (snd (None : option RvtH, 0, ENOENT)) = Some c
          /\ c_ret c = 0)
    /\ (fst (fst (None : option RvtH, 0, ENOENT)) = None ->
        i_ret r <> 0 /\ i_rvth r = hdd_empty).
Proof.
  eexists. split; [vm_compute; reflexivity|].
  apply (rvth_import_zero_only_after_copy rvth_layout 0 zero_heap None
           ex_make_writable ex_write_BankEntry ex_recrypt_partitions
           ex_recrypt_id hdd_empty 0 (None, 0, ENOENT) 0).
  vm_compute. reflexivity.
Defined.

(** ** Examples for the general facts on the extract *)

Lemma rvth_copy_to_gcm_remainder_not_copied_witness :
  exists c,
    rvth_copy_to_gcm rvth_layout 0 zero_heap None (created_gcm 2051)
      gcn_2051 0 0 = Some c
    /\ c_ret c = 0
    /\ forall j, 2048 * (2051 / 2048) < j < 2051 - 1 ->
         file_lba (f_img (c_dest c)) j = zero_sector.
Proof.
  apply (rvth_copy_to_gcm_remainder_not_copied rvth_layout 0 zero_heap None
           (created_gcm 2051) gcn_2051 0 0 2051 gcn_2051_entry
           gcn_2051_reader).
  - split; try reflexivity; try (simpl; lia).
    + unfold file_wf. apply (bool_decide_unpack _). vm_compute. exact I.
    + eexists. eexists. repeat split; reflexivity.
  - reflexivity.
Defined.

Lemma rvth_copy_to_gcm_restores_header_witness :
  exists c,
    rvth_copy_to_gcm rvth_layout 0 zero_heap None (created_gcm 2048)
      flushed_2048 0 0 = Some c
    /\ file_lba (f_img (c_dest c)) 0 = gcn_header.
Proof.
  apply (rvth_copy_to_gcm_restores_header rvth_layout 0 zero_heap None
           (created_gcm 2048) flushed_2048 0 0 2048
           (bank_entry RVTH_BankType_GCN RVTH_CryptoType_None 2048 gcn_header)
           (mkReader 0 2048 RVTH_ImageType_GCM)).
  - split; try reflexivity; try (simpl; lia).
    + unfold file_wf. apply (bool_decide_unpack _). vm_compute. exact I.
    + eexists. eexists. repeat split; reflexivity.
  - reflexivity.
  - lia.
  - vm_compute. reflexivity.
  - vm_compute. reflexivity.
Defined.

Lemma rvth_copy_to_gcm_cancelled_at_start_witness :
  exists c,
    rvth_copy_to_gcm rvth_layout 0 zero_heap cb_cancel (created_gcm 2051)
      gcn_2051 0 0 = Some c
    /\ c_ret c = 0 /\ c_errno c = ECANCELED
    /\ f_data (f_img (c_dest c)) = ∅
    /\ f_img (c_src c) = f_img gcn_2051.
Proof.
  apply (rvth_copy_to_gcm_cancelled_at_start rvth_layout 0 zero_heap
           cb_cancel (created_gcm 2051) gcn_2051 0 0 2051 gcn_2051_entry
           gcn_2051_reader).
  - split; try reflexivity; try (simpl; lia).
    + unfold file_wf. apply (bool_decide_unpack _). vm_compute. exact I.
    + eexists. eexists. repeat split; reflexivity.
  - reflexivity.
Defined.
